(** * CalDAV DELETE behaviours: a shallow embedding of
      [twistedcaldav/method/delete_common.py]

    The class [DeleteResource] of the source sequences calls into external
    collaborators (the quota tracker, the file store, the index and its sync
    token, the memcache lock, the implicit scheduler, the sharing layer).
    It is embedded here as functions in a state-and-exception monad over a
    [World]: the resource objects, the memcache lock table and the log of
    the collaborator calls that completed.  Each method of the source is one
    definition of the same name, statement for statement. *)

From Stdlib Require Import ZArith List Bool Lia.
From stdpp Require Import gmap strings list fin_maps.

Open Scope string_scope.
Open Scope Z_scope.

(** ** Response codes ([twext.web2.responsecode]) *)

Module responsecode.
Definition NO_CONTENT : Z := 204.
Definition MULTI_STATUS : Z := 207.
Definition BAD_REQUEST : Z := 400.
Definition FORBIDDEN : Z := 403.
Definition NOT_FOUND : Z := 404.
Definition CONFLICT : Z := 409.
Definition PRECONDITION_FAILED : Z := 412.
End responsecode.

(** ** Data model *)

(** What a collaborator hands back as a response: a bare status code, or a
    [MultiStatusResponse] whose [children] map a child URI to its status. *)
Inductive Response :=
| Status (code : Z)
| MultiStatusResponse (children : gmap string Z).

(** [response == responsecode.NO_CONTENT]: an integer compared with an
    integer; a [MultiStatusResponse] object is never equal to one. *)
Definition is_NO_CONTENT (r : Response) : bool :=
  match r with
  | Status c => c =? responsecode.NO_CONTENT
  | MultiStatusResponse _ => false
  end.

(** [isinstance(r, MultiStatusResponse)], giving the children when it holds. *)
Definition as_MultiStatusResponse (r : Response) : option (gmap string Z) :=
  match r with
  | Status _ => None
  | MultiStatusResponse ch => Some ch
  end.

(** The argument of an [HTTPError] raised by this module. *)
Inductive HTTPBody :=
| Code (c : Z)
| StatusResponse (c : Z) (msg : string)
| ErrorResponse (c : Z) (ns name : string).

Definition body_code (b : HTTPBody) : Z :=
  match b with
  | Code c => c
  | StatusResponse c _ => c
  | ErrorResponse c _ _ => c
  end.

(** A failure inside an external collaborator: an [HTTPError] it raised with
    some status, a [MemcacheLockTimeoutError] (nothing in the module keeps
    a collaborator from raising one), or any other exception. *)
Inductive Failure :=
| FHTTPError (code : Z)
| FMemcacheLockTimeoutError
| FOther (what : string).

(** The exceptions that travel through this module, by origin: the timeout
    of this module's own lock, the unbound local of the interpreter, the
    [HTTPError]s raised by this module itself, and the failures of
    collaborators, which this module propagates, catches wholesale or, for a
    lock timeout, catches in its [except MemcacheLockTimeoutError] clauses. *)
Inductive Exn :=
| MemcacheLockTimeoutError
| UnboundLocalError (var : string)
| HTTPError (b : HTTPBody)
| CollaboratorError (f : Failure).

(** What an [except MemcacheLockTimeoutError] clause catches: the exception
    of that class, whether the lock of this module raised it or a
    collaborator did. *)
Definition is_MemcacheLockTimeoutError (e : Exn) : bool :=
  match e with
  | MemcacheLockTimeoutError
  | CollaboratorError FMemcacheLockTimeoutError => true
  | _ => false
  end.

Inductive Kind :=
| PlainResource
| PlainCollection
| CalendarCollection
| ScheduleCollection
| CalendarObject
| AddressBookCollection
| AddressBookObject.

(** A resource object.  The fields are what the methods called by the source
    read or change. *)
Record Resource := mkResource {
  res_kind : Kind;
  res_exists : bool;
  res_basename : string;
  res_scheduleTag : option string;   (* dead property ScheduleTag *)
  res_quota : option Z;              (* quota(): None without quota support *)
  res_quotaSize : Z;                 (* quotaSize() *)
  res_quotaUsed : Z;                 (* what quotaSizeAdjust() accumulates *)
  res_syncToken : Z;
  res_index : gmap string Z;         (* index(): child name -> revision *)
  res_children : list string;        (* listChildren() *)
  res_isDefaultCalendar : bool;
  res_isVirtualShare : bool;
  res_isShared : bool
}.

(** Calls into collaborators that change something or do I/O, and so may
    fail. *)
Inductive Call :=
| CQuotaSizeAdjust (r : string) (delta : Z)
| CBumpSyncToken (r : string)
| CIndexDeleteResource (r name : string) (rev : Z)
| CICalendarForUser (r : string)
| CTestImplicitSchedulingDELETE (r : string)
| CDoImplicitScheduling (r : string)
| CRemoveVirtualShare (r : string)
| CDowngradeFromShare (r : string)
| CDeletedCalendar (r : string).

(** The log: one entry per collaborator call that completed, oldest first. *)
Inductive Event :=
| Called (c : Call)
| Deleted (uri fp : string) (depth : string) (r : Response)
| LockAcquired (token : string)
| LockReleased (token : string).

Inductive DeleteOutcome :=
| Returned (r : Response)
| Failed (f : Failure).

Record World := mkWorld {
  heap : string -> Resource;     (* the resource objects, by handle *)
  held : gset string;            (* lock tokens present in memcache *)
  hasLock : string -> bool;      (* the _hasLock flag of this request's lock objects *)
  log : list Event
}.

(** The collaborators whose answers do not depend on the [World]. *)
Record Env := mkEnv {
  ScheduleTagCompatibility : bool;         (* config.Scheduling.CalDAV *)
  joinURL : string -> string -> string;    (* twext.web2.dav.util *)
  locateChildResource : string -> string -> string;
  locateParent : string -> string -> string;
  fileop_delete : string -> string -> string -> DeleteOutcome;
  fails : Call -> option Failure;
  do_implicit_action : string -> bool;     (* testImplicitSchedulingDELETE *)
  resourceUID : string -> string;          (* calendar.resourceUID() *)
  calendarCollections : string -> string -> list (string * string);
  addressBookCollections : string -> string -> list (string * string)
}.

(** The instance: the fields [__init__] stores. *)
Record DeleteResource := mkDeleteResource {
  If_Schedule_Tag_Match : option string;   (* request.headers.getHeader *)
  resource : string;
  resource_uri : string;
  parent : string;
  depth : string;
  internal_request : bool;
  allowImplicitSchedule : bool
}.

(** ** The monad: state and exceptions *)

Inductive Res (A : Type) :=
| Ok (a : A)
| Raise (e : Exn).
Arguments Ok {A} a.
Arguments Raise {A} e.

Definition M (A : Type) : Type := World -> Res A * World.

Definition ret {A} (a : A) : M A := fun w => (Ok a, w).
Definition raise {A} (e : Exn) : M A := fun w => (Raise e, w).
Definition bind {A B} (m : M A) (k : A -> M B) : M B :=
  fun w => match m w with
           | (Ok a, w1) => k a w1
           | (Raise e, w1) => (Raise e, w1)
           end.

Notation "x <- m ;; k" := (bind m (fun x => k))
  (at level 100, m at next level, right associativity).
Notation "m ;;; k" := (bind m (fun _ => k))
  (at level 100, right associativity).

(** [try: m  except MemcacheLockTimeoutError: h] *)
Definition try_except_MemcacheLockTimeoutError {A} (m h : M A) : M A :=
  fun w => match m w with
           | (Raise e, w1) =>
               if is_MemcacheLockTimeoutError e then h w1 else (Raise e, w1)
           | other => other
           end.

(** [try: m  finally: fin].  An exception out of [fin] replaces the outcome
    of [m]. *)
Definition try_finally {A} (m : M A) (fin : M unit) : M A :=
  fun w => match m w with
           | (r, w1) => match fin w1 with
                        | (Ok _, w2) => (r, w2)
                        | (Raise e, w2) => (Raise e, w2)
                        end
           end.

(** [try: m  except: h], the bare handler that catches everything. *)
Definition try_except_all {A} (m h : M A) : M A :=
  fun w => match m w with
           | (Raise _, w1) => h w1
           | other => other
           end.

Definition when (b : bool) (m : M unit) : M unit := if b then m else ret tt.

(** ** State updates *)

Definition upd (h : string -> Resource) (k : string) (v : Resource)
  : string -> Resource :=
  fun k' => if String.eqb k k' then v else h k'.

Definition set_heap (w : World) (h : string -> Resource) : World :=
  mkWorld h (held w) (hasLock w) (log w).

Definition emit (e : Event) (w : World) : World :=
  mkWorld (heap w) (held w) (hasLock w) (log w ++ [e]).

Definition alter_resource (r : string) (f : Resource -> Resource) (w : World)
  : World :=
  set_heap w (upd (heap w) r (f (heap w r))).

Definition with_quotaUsed (v : Z) (x : Resource) : Resource :=
  mkResource (res_kind x) (res_exists x) (res_basename x) (res_scheduleTag x)
    (res_quota x) (res_quotaSize x) v (res_syncToken x) (res_index x)
    (res_children x) (res_isDefaultCalendar x) (res_isVirtualShare x)
    (res_isShared x).

Definition with_syncToken (v : Z) (x : Resource) : Resource :=
  mkResource (res_kind x) (res_exists x) (res_basename x) (res_scheduleTag x)
    (res_quota x) (res_quotaSize x) (res_quotaUsed x) v (res_index x)
    (res_children x) (res_isDefaultCalendar x) (res_isVirtualShare x)
    (res_isShared x).

Definition with_index (v : gmap string Z) (x : Resource) : Resource :=
  mkResource (res_kind x) (res_exists x) (res_basename x) (res_scheduleTag x)
    (res_quota x) (res_quotaSize x) (res_quotaUsed x) (res_syncToken x) v
    (res_children x) (res_isDefaultCalendar x) (res_isVirtualShare x)
    (res_isShared x).

Definition with_exists (v : bool) (x : Resource) : Resource :=
  mkResource (res_kind x) v (res_basename x) (res_scheduleTag x)
    (res_quota x) (res_quotaSize x) (res_quotaUsed x) (res_syncToken x)
    (res_index x) (res_children x) (res_isDefaultCalendar x)
    (res_isVirtualShare x) (res_isShared x).

Definition with_isVirtualShare (v : bool) (x : Resource) : Resource :=
  mkResource (res_kind x) (res_exists x) (res_basename x) (res_scheduleTag x)
    (res_quota x) (res_quotaSize x) (res_quotaUsed x) (res_syncToken x)
    (res_index x) (res_children x) (res_isDefaultCalendar x) v
    (res_isShared x).

Definition with_isShared (v : bool) (x : Resource) : Resource :=
  mkResource (res_kind x) (res_exists x) (res_basename x) (res_scheduleTag x)
    (res_quota x) (res_quotaSize x) (res_quotaUsed x) (res_syncToken x)
    (res_index x) (res_children x) (res_isDefaultCalendar x)
    (res_isVirtualShare x) v.

(** ** Collaborators

    The methods of the resource classes, the file operations, the lock and
    the scheduler are not part of this file of the repository; each is given
    here by what it does to the [World].  Reads of a resource's attributes
    are total; the calls listed in [Call] and the underlying delete may
    fail, as decided by [fails] and [fileop_delete]; nothing is logged and
    nothing changes when they do. *)

Definition call (E : Env) (c : Call) (effect : World -> World) : M unit :=
  fun w => match fails E c with
           | Some f => (Raise (CollaboratorError f), w)
           | None => (Ok tt, emit (Called c) (effect w))
           end.

Definition read {A} (f : Resource -> A) (r : string) : M A :=
  fun w => (Ok (f (heap w r)), w).

Definition exists_ : string -> M bool := read res_exists.
Definition hasDeadProperty_ScheduleTag : string -> M bool :=
  read (fun x => match res_scheduleTag x with Some _ => true | None => false end).
Definition readDeadProperty_ScheduleTag (r : string) : M string :=
  fun w => match res_scheduleTag (heap w r) with
           | Some t => (Ok t, w)
           | None => (Raise (CollaboratorError (FHTTPError responsecode.NOT_FOUND)), w)
           end.
Definition quota : string -> M (option Z) := read res_quota.
Definition quotaSize : string -> M Z := read res_quotaSize.
Definition fp_basename : string -> M string := read res_basename.
Definition listChildren : string -> M (list string) := read res_children.
Definition isDefaultCalendar : string -> M bool := read res_isDefaultCalendar.
Definition isVirtualShare : string -> M bool := read res_isVirtualShare.
Definition isShared : string -> M bool := read res_isShared.
Definition is_collection (x : Resource) : bool :=
  match res_kind x with
  | PlainCollection | CalendarCollection | ScheduleCollection
  | AddressBookCollection => true
  | _ => false
  end.
Definition is_calendar_collection (x : Resource) : bool :=
  match res_kind x with CalendarCollection => true | _ => false end.
Definition is_pseudo_calendar_collection (x : Resource) : bool :=
  match res_kind x with
  | CalendarCollection | ScheduleCollection => true
  | _ => false
  end.
Definition is_addressbook_collection (x : Resource) : bool :=
  match res_kind x with AddressBookCollection => true | _ => false end.

Definition isCollection : string -> M bool := read is_collection.
Definition isCalendarCollectionResource : string -> M bool :=
  read is_calendar_collection.
Definition isPseudoCalendarCollectionResource : string -> M bool :=
  read is_pseudo_calendar_collection.
Definition isAddressBookCollectionResource : string -> M bool :=
  read is_addressbook_collection.

(** Modelled from the spec: the quota tracker's [quotaSizeAdjust], which adds
    the delta to the recorded usage. *)
Definition quotaSizeAdjust (E : Env) (r : string) (delta : Z) : M unit :=
  call E (CQuotaSizeAdjust r delta)
    (alter_resource r (fun x => with_quotaUsed (res_quotaUsed x + delta) x)).

(** Modelled from the spec: [bumpSyncToken] advances the collection's
    revision by one and returns the new revision. *)
Definition bumpSyncToken (E : Env) (r : string) : M Z :=
  fun w => match fails E (CBumpSyncToken r) with
           | Some f => (Raise (CollaboratorError f), w)
           | None =>
               let newrevision := res_syncToken (heap w r) + 1 in
               (Ok newrevision,
                emit (Called (CBumpSyncToken r))
                  (alter_resource r (with_syncToken newrevision) w))
           end.

(** Modelled from the spec: [index().deleteResource(name, revision)] records
    the removal of the child from the collection's index. *)
Definition index_deleteResource (E : Env) (r name : string) (rev : Z) : M unit :=
  call E (CIndexDeleteResource r name rev)
    (alter_resource r (fun x => with_index (delete name (res_index x)) x)).

(** Modelled from the spec: [removeVirtualShare] detaches the sharing
    relationship and touches nothing else. *)
Definition removeVirtualShare (E : Env) (r : string) : M unit :=
  call E (CRemoveVirtualShare r) (alter_resource r (with_isVirtualShare false)).

(** Modelled from the spec: [downgradeFromShare] takes the collection out of
    its shared state. *)
Definition downgradeFromShare (E : Env) (r : string) : M unit :=
  call E (CDowngradeFromShare r) (alter_resource r (with_isShared false)).

(** [deletedCalendar]: the clean-up hook, seen here only as a call. *)
Definition deletedCalendar (E : Env) (r : string) : M unit :=
  call E (CDeletedCalendar r) (fun w => w).

(** [iCalendarForUser] reads the calendar data; the data is named by the
    resource it was read from. *)
Definition iCalendarForUser (E : Env) (r : string) : M string :=
  call E (CICalendarForUser r) (fun w => w) ;;; ret r.

(** The scheduler object is named by the resource it evaluated.
    [testImplicitSchedulingDELETE] returns a pair of which the source keeps
    the first component. *)
Definition testImplicitSchedulingDELETE (E : Env) (r calendar : string)
  : M (bool * bool) :=
  call E (CTestImplicitSchedulingDELETE r) (fun w => w) ;;;
  ret (do_implicit_action E r, false).

Definition doImplicitScheduling (E : Env) (scheduler : string) : M unit :=
  call E (CDoImplicitScheduling scheduler) (fun w => w).

Module fileop.
(** The underlying delete of [twext.web2.dav.fileop].  Its outcome is the
    collaborator's to choose; a [NO_CONTENT] result removes the resource. *)
Definition delete (E : Env) (uri fp depth : string) : M Response :=
  fun w => match fileop_delete E uri fp depth with
           | Failed f => (Raise (CollaboratorError f), w)
           | Returned r =>
               (Ok r,
                emit (Deleted uri fp depth r)
                  (if is_NO_CONTENT r
                   then alter_resource fp (with_exists false) w
                   else w))
           end.
End fileop.

Module MemcacheLock.
(** Modelled from the spec: the distributed lock of
    [twistedcaldav.memcachelock], keyed by (lock class, UID), at most one
    holder system-wide.  [acquire] waits out its timeout and raises when
    the token is already present; [clean] releases only what this lock
    object holds. *)
Definition set_hasLock (t : string) (b : bool) (w : World) : World :=
  mkWorld (heap w) (held w)
    (fun t' => if String.eqb t t' then b else hasLock w t') (log w).

Definition set_held (s : gset string) (w : World) : World :=
  mkWorld (heap w) s (hasLock w) (log w).

Definition new (namespace locktoken : string) (timeout : Z) : M string :=
  fun w => let t := namespace +:+ ":" +:+ locktoken in
           (Ok t, set_hasLock t false w).

Definition acquire (t : string) : M unit :=
  fun w => if bool_decide (t ∈ held w)
           then (Raise MemcacheLockTimeoutError, w)
           else (Ok tt,
                 emit (LockAcquired t)
                   (set_hasLock t true (set_held ({[t]} ∪ held w) w))).

Definition release (t : string) : M unit :=
  fun w => (Ok tt,
            emit (LockReleased t)
              (set_hasLock t false (set_held (held w ∖ {[t]}) w))).

Definition clean (t : string) : M unit :=
  fun w => if hasLock w t then release t w else (Ok tt, w).
End MemcacheLock.

(** Modelled from the spec: the [ResponseQueue] of [twext.web2.dav.http], a
    default status code plus a mapping from child URI to the error status of
    the children that failed. *)
Record ResponseQueue := mkResponseQueue {
  path_basename : string;
  method : string;
  success_response : Z;
  responses : gmap string Z
}.

Module Queue.
Definition new (path_basename method : string) (success_response : Z)
  : ResponseQueue :=
  mkResponseQueue path_basename method success_response ∅.

Definition add (q : ResponseQueue) (path : string) (what : Z) : ResponseQueue :=
  mkResponseQueue (path_basename q) (method q) (success_response q)
    (<[path := what]> (responses q)).

(** [errors.responses.update(children)]: the entries of [children] win. *)
Definition update (q : ResponseQueue) (children : gmap string Z)
  : ResponseQueue :=
  mkResponseQueue (path_basename q) (method q) (success_response q)
    (children ∪ responses q).

Definition response (q : ResponseQueue) : Response :=
  if bool_decide (responses q = ∅)
  then Status (success_response q)
  else MultiStatusResponse (responses q).
End Queue.

Definition caldav_namespace : string := "urn:ietf:params:xml:ns:caldav".
Definition calendarserver_namespace : string := "http://calendarserver.org/ns/".

(** Truth value of what [getHeader] returned: [None] and the empty string
    are false. *)
Definition truthy (h : option string) : bool :=
  match h with
  | Some s => negb (String.eqb s "")
  | None => false
  end.

(** ** The methods of [DeleteResource] *)

(** [validIfScheduleMatch].  The local [scheduletag] is bound only inside
    the inner [if]; it is carried as an [option], and the read of it in the
    arguments of [log.debug] raises [UnboundLocalError] when it is unbound,
    as the interpreter does. *)
Definition validIfScheduleMatch (E : Env) (self : DeleteResource) : M unit :=
  if negb (internal_request self) then
    let header := If_Schedule_Tag_Match self in
    if truthy header then
      ex <- exists_ (resource self) ;;
      has <- (if ex then hasDeadProperty_ScheduleTag (resource self)
              else ret false) ;;
      bound <- (if has
                then scheduletag <- readDeadProperty_ScheduleTag (resource self) ;;
                     ret (bool_decide (Some scheduletag = header), Some scheduletag)
                else ret (false, None)) ;;
      let matched := fst bound in
      let scheduletag := snd bound in
      if negb matched then
        match scheduletag with
        | None => raise (UnboundLocalError "scheduletag")
        | Some _ => raise (HTTPError (Code responsecode.PRECONDITION_FAILED))
        end
      else ret tt
    else if ScheduleTagCompatibility E then ret tt
    else ret tt
  else ret tt.

Definition deleteResource (E : Env) (self : DeleteResource)
  (delresource deluri parent : string) : M Response :=
  (* Do quota checks before we start deleting things *)
  myquota <- quota delresource ;;
  old_size <- (match myquota with
               | Some _ => quotaSize delresource
               | None => ret 0
               end) ;;
  (* Do delete *)
  response <- fileop.delete E deluri delresource (depth self) ;;
  (* Adjust quota *)
  (match myquota with
   | Some _ => quotaSizeAdjust E delresource (- old_size)
   | None => ret tt
   end) ;;;
  (if is_NO_CONTENT response then
     pseudo <- isPseudoCalendarCollectionResource parent ;;
     if pseudo then
       newrevision <- bumpSyncToken E parent ;;
       name <- fp_basename delresource ;;
       index_deleteResource E parent name newrevision
     else ret tt
   else ret tt) ;;;
  ret response.

Definition in_use_message (deluri : string) : string :=
  "Resource: " +:+ deluri +:+ " currently in use on the server.".

Definition illegal_depth_message (d : string) : string :=
  "Client sent illegal depth header value for DELETE: " +:+ d.

(** The block of [deleteCalendarResource] that sets the locals [scheduler]
    and [lock] (both [None] before it): the evaluation of the scheduling
    trigger, the sharee check and the construction of the lock. *)
Definition implicit_preparation (E : Env) (self : DeleteResource)
  (delresource parent : string) : M (option string * option string) :=
  if negb (internal_request self) && allowImplicitSchedule self then
    (* Get data we need for implicit scheduling *)
    calendar <- iCalendarForUser E delresource ;;
    let scheduler := delresource in
    tested <- testImplicitSchedulingDELETE E scheduler calendar ;;
    if fst tested then
      (* Cannot do implicit in sharee's shared calendar *)
      isvirt <- isVirtualShare parent ;;
      if isvirt then
        raise (HTTPError (ErrorResponse responsecode.FORBIDDEN
                            calendarserver_namespace "sharee-privilege-needed"))
      else
        lock <- MemcacheLock.new "ImplicitUIDLock" (resourceUID E calendar) 60 ;;
        ret (Some scheduler, Some lock)
    else ret (Some scheduler, None)
  else ret (None, None).

(** The statements of the [try] block of [deleteCalendarResource] that
    follow the acquisition of the lock. *)
Definition delete_and_schedule (E : Env) (self : DeleteResource)
  (delresource deluri parent : string) (myquota : option Z) (old_size : Z)
  (scheduler : option string) : M Response :=
  (* Do delete *)
  response <- fileop.delete E deluri delresource (depth self) ;;
  (* Adjust quota *)
  (match myquota with
   | Some _ => quotaSizeAdjust E delresource (- old_size)
   | None => ret tt
   end) ;;;
  (if is_NO_CONTENT response then
     newrevision <- bumpSyncToken E parent ;;
     name <- fp_basename delresource ;;
     index_deleteResource E parent name newrevision ;;;
     (* Do scheduling *)
     match scheduler with
     | Some s =>
         if negb (internal_request self) && allowImplicitSchedule self
         then doImplicitScheduling E s
         else ret tt
     | None => ret tt
     end
   else ret tt) ;;;
  ret response.

Definition acquire_if (lock : option string) : M unit :=
  match lock with
  | Some l => MemcacheLock.acquire l
  | None => ret tt
  end.

Definition clean_if (lock : option string) : M unit :=
  match lock with
  | Some l => MemcacheLock.clean l
  | None => ret tt
  end.

Definition deleteCalendarResource (E : Env) (self : DeleteResource)
  (delresource deluri parent : string) : M Response :=
  (* Do If-Schedule-Tag-Match behavior first *)
  validIfScheduleMatch E self ;;;
  (* Do quota checks before we start deleting things *)
  myquota <- quota delresource ;;
  old_size <- (match myquota with
               | Some _ => quotaSize delresource
               | None => ret 0
               end) ;;
  locals <- implicit_preparation E self delresource parent ;;
  let scheduler := fst locals in
  let lock := snd locals in
  try_finally
    (try_except_MemcacheLockTimeoutError
       (acquire_if lock ;;;
        delete_and_schedule E self delresource deluri parent myquota old_size
          scheduler)
       (raise (HTTPError (StatusResponse responsecode.CONFLICT
                            (in_use_message deluri)))))
    (clean_if lock).

(** The [for childname in delresource.listChildren()] loop of
    [deleteCalendar]; [errors] is the queue the loop adds to. *)
Fixpoint deleteCalendar_children (E : Env) (self : DeleteResource)
  (delresource deluri : string) (names : list string) (errors : ResponseQueue)
  : M ResponseQueue :=
  match names with
  | [] => ret errors
  | childname :: rest =>
      let childurl := joinURL E deluri childname in
      let child := locateChildResource E delresource childname in
      errors <- try_except_all
                  (deleteCalendarResource E self child childurl delresource ;;;
                   ret errors)
                  (ret (Queue.add errors childurl responsecode.BAD_REQUEST)) ;;
      deleteCalendar_children E self delresource deluri rest errors
  end.

Definition merge_MultiStatus (errors : ResponseQueue) (r : Response)
  : ResponseQueue :=
  match as_MultiStatusResponse r with
  | Some children => Queue.update errors children
  | None => errors
  end.

Definition deleteCalendar (E : Env) (self : DeleteResource)
  (delresource deluri parent : string) : M Response :=
  (* Not allowed to delete the default calendar *)
  default <- isDefaultCalendar delresource ;;
  if default : bool then
    raise (HTTPError (ErrorResponse responsecode.FORBIDDEN
                        caldav_namespace "default-calendar-delete-allowed"))
  else
  if negb (String.eqb (depth self) "infinity") then
    raise (HTTPError (StatusResponse responsecode.BAD_REQUEST
                        (illegal_depth_message (depth self))))
  else
  (* Check virtual share first *)
  isVirtual <- isVirtualShare delresource ;;
  if isVirtual : bool then
    removeVirtualShare E delresource ;;;
    ret (Status responsecode.NO_CONTENT)
  else
  let errors := Queue.new deluri "DELETE" responsecode.NO_CONTENT in
  names <- listChildren delresource ;;
  errors <- deleteCalendar_children E self delresource deluri names errors ;;
  (* Now do normal delete; handle sharing *)
  wasShared <- isShared delresource ;;
  when wasShared (downgradeFromShare E delresource) ;;;
  (* Change CTag *)
  bumpSyncToken E delresource ;;;
  more_responses <- deleteResource E self delresource deluri parent ;;
  let errors := merge_MultiStatus errors more_responses in
  let response := Queue.response errors in
  when (is_NO_CONTENT response) (deletedCalendar E delresource) ;;;
  ret response.

(** The walk of [applyToCalendarCollections] and
    [applyToAddressBookCollections] ([twistedcaldav.method.report_common]):
    [apply] is run on each collection the walk finds, in order, and an
    exception out of it ends the walk. *)
Fixpoint applyToCollections (found : list (string * string))
  (apply : string -> string -> ResponseQueue -> M ResponseQueue)
  (errors : ResponseQueue) : M ResponseQueue :=
  match found with
  | [] => ret errors
  | (delresource, deluri) :: rest =>
      errors <- apply delresource deluri errors ;;
      applyToCollections rest apply errors
  end.

Definition deleteCollection (E : Env) (self : DeleteResource) : M Response :=
  if negb (String.eqb (depth self) "infinity") then
    raise (HTTPError (StatusResponse responsecode.BAD_REQUEST
                        (illegal_depth_message (depth self))))
  else
  let errors := Queue.new (resource_uri self) "DELETE" responsecode.NO_CONTENT in
  let doDeleteCalendar (delresource deluri : string) (errors : ResponseQueue)
    : M ResponseQueue :=
    let delparent := locateParent E delresource deluri in
    response <- deleteCalendar E self delresource deluri delparent ;;
    ret (merge_MultiStatus errors response) in
  errors <- applyToCollections
              (calendarCollections E (resource self) (resource_uri self))
              doDeleteCalendar errors ;;
  (* Now do normal delete *)
  more_responses <- deleteResource E self (resource self) (resource_uri self)
                      (parent self) ;;
  let errors := merge_MultiStatus errors more_responses in
  ret (Queue.response errors).

Definition deleteAddressBookResource (E : Env) (self : DeleteResource)
  (delresource deluri parent : string) : M Response :=
  (* Do quota checks before we start deleting things *)
  myquota <- quota delresource ;;
  old_size <- (match myquota with
               | Some _ => quotaSize delresource
               | None => ret 0
               end) ;;
  try_except_MemcacheLockTimeoutError
    ((* Do delete *)
     response <- fileop.delete E deluri delresource (depth self) ;;
     (* Adjust quota *)
     (match myquota with
      | Some _ => quotaSizeAdjust E delresource (- old_size)
      | None => ret tt
      end) ;;;
     (if is_NO_CONTENT response then
        newrevision <- bumpSyncToken E parent ;;
        name <- fp_basename delresource ;;
        index_deleteResource E parent name newrevision
      else ret tt) ;;;
     ret response)
    (raise (HTTPError (StatusResponse responsecode.CONFLICT
                         (in_use_message deluri)))).

Fixpoint deleteAddressBook_children (E : Env) (self : DeleteResource)
  (delresource deluri : string) (names : list string) (errors : ResponseQueue)
  : M ResponseQueue :=
  match names with
  | [] => ret errors
  | childname :: rest =>
      let childurl := joinURL E deluri childname in
      let child := locateChildResource E delresource childname in
      errors <- try_except_all
                  (deleteAddressBookResource E self child childurl delresource ;;;
                   ret errors)
                  (ret (Queue.add errors childurl responsecode.BAD_REQUEST)) ;;
      deleteAddressBook_children E self delresource deluri rest errors
  end.

Definition deleteAddressBook (E : Env) (self : DeleteResource)
  (delresource deluri parent : string) : M Response :=
  if negb (String.eqb (depth self) "infinity") then
    raise (HTTPError (StatusResponse responsecode.BAD_REQUEST
                        (illegal_depth_message (depth self))))
  else
  (* Check virtual share first *)
  isVirtual <- isVirtualShare delresource ;;
  if isVirtual : bool then
    removeVirtualShare E delresource ;;;
    ret (Status responsecode.NO_CONTENT)
  else
  let errors := Queue.new deluri "DELETE" responsecode.NO_CONTENT in
  names <- listChildren delresource ;;
  errors <- deleteAddressBook_children E self delresource deluri names errors ;;
  (* Now do normal delete; handle sharing *)
  wasShared <- isShared delresource ;;
  when wasShared (downgradeFromShare E delresource) ;;;
  bumpSyncToken E delresource ;;;
  more_responses <- deleteResource E self delresource deluri parent ;;
  let errors := merge_MultiStatus errors more_responses in
  ret (Queue.response errors).

Definition deleteCollectionAB (E : Env) (self : DeleteResource) : M Response :=
  if negb (String.eqb (depth self) "infinity") then
    raise (HTTPError (StatusResponse responsecode.BAD_REQUEST
                        (illegal_depth_message (depth self))))
  else
  let errors := Queue.new (resource_uri self) "DELETE" responsecode.NO_CONTENT in
  let doDeleteAddressBook (delresource deluri : string) (errors : ResponseQueue)
    : M ResponseQueue :=
    let delparent := locateParent E delresource deluri in
    response <- deleteAddressBook E self delresource deluri delparent ;;
    ret (merge_MultiStatus errors response) in
  errors <- applyToCollections
              (addressBookCollections E (resource self) (resource_uri self))
              doDeleteAddressBook errors ;;
  (* Now do normal delete *)
  more_responses <- deleteResource E self (resource self) (resource_uri self)
                      (parent self) ;;
  let errors := merge_MultiStatus errors more_responses in
  ret (Queue.response errors).

Definition run (E : Env) (self : DeleteResource) : M Response :=
  parentIsCalendar <- isCalendarCollectionResource (parent self) ;;
  if parentIsCalendar : bool then
    deleteCalendarResource E self (resource self) (resource_uri self) (parent self)
  else
  resourceIsCalendar <- isCalendarCollectionResource (resource self) ;;
  if resourceIsCalendar : bool then
    deleteCalendar E self (resource self) (resource_uri self) (parent self)
  else
  parentIsAddressBook <- isAddressBookCollectionResource (parent self) ;;
  if parentIsAddressBook : bool then
    deleteAddressBookResource E self (resource self) (resource_uri self)
      (parent self)
  else
  resourceIsAddressBook <- isAddressBookCollectionResource (resource self) ;;
  if resourceIsAddressBook : bool then
    deleteAddressBook E self (resource self) (resource_uri self) (parent self)
  else
  collection <- isCollection (resource self) ;;
  if collection : bool then deleteCollection E self
  else deleteResource E self (resource self) (resource_uri self) (parent self).

(** ** Concrete worlds, for evaluating the methods *)

Module Sample.
Definition blank (k : Kind) (name : string) : Resource :=
  mkResource k true name None None 0 0 0 ∅ [] false false false.

(** One calendar [home] with the events [a.ics] and [b.ics], 100 and 40
    bytes, under a quota; everything else is a plain resource. *)
Definition home : Resource :=
  mkResource CalendarCollection true "home" None (Some 1000) 140 140 7
    (<["a.ics" := 3]> (<["b.ics" := 5]> ∅)) ["a.ics"; "b.ics"]
    false false false.

Definition event (name : string) (size : Z) (tag : option string) : Resource :=
  mkResource CalendarObject true name tag (Some 1000) size 140 0 ∅ []
    false false false.

Definition resources (fp : string) : Resource :=
  if String.eqb fp "home" then home
  else if String.eqb fp "home/a.ics" then event "a.ics" 100 (Some "tag-1")
  else if String.eqb fp "home/b.ics" then event "b.ics" 40 None
  else if String.eqb fp "gone.ics" then
    mkResource CalendarObject false "gone.ics" None None 0 0 0 ∅ []
      false false false
  else if String.eqb fp "default" then
    mkResource CalendarCollection true "default" None (Some 1000) 0 140 1 ∅ []
      true false false
  else if String.eqb fp "shared" then
    mkResource CalendarCollection true "shared" None (Some 1000) 60 60 4
      (<["c.ics" := 2]> ∅) ["c.ics"] false true false
  else if String.eqb fp "empty" then
    mkResource CalendarCollection true "empty" None (Some 1000) 10 140 2 ∅ []
      false false false
  else if String.eqb fp "book" then
    mkResource AddressBookCollection true "book" None (Some 1000) 30 30 6
      (<["v.vcf" := 1]> ∅) ["v.vcf"] false true false
  else blank PlainResource fp.

Definition world : World := mkWorld resources ∅ (fun _ => false) [].

Definition join (a b : string) : string := a +:+ "/" +:+ b.

(** Every delete returns [NO_CONTENT] and no collaborator fails. *)
Definition calm (implicit : string -> bool) : Env :=
  mkEnv false join join (fun _ _ => "calendars")
    (fun _ _ _ => Returned (Status responsecode.NO_CONTENT))
    (fun _ => None) implicit (fun r => "uid-of-" +:+ r)
    (fun _ _ => []) (fun _ _ => []).

(** As [calm], but the underlying delete answers as [del] says. *)
Definition with_delete (implicit : string -> bool)
  (del : string -> string -> string -> DeleteOutcome) : Env :=
  mkEnv false join join (fun _ _ => "calendars") del
    (fun _ => None) implicit (fun r => "uid-of-" +:+ r)
    (fun _ _ => []) (fun _ _ => []).

Definition request (header : option string) (res uri par d : string)
  (internal implicit : bool) : DeleteResource :=
  mkDeleteResource header res uri par d internal implicit.
End Sample.

(** ** Vocabulary of the properties *)

Definition Forbidden_default_calendar : Exn :=
  HTTPError (ErrorResponse responsecode.FORBIDDEN caldav_namespace
               "default-calendar-delete-allowed").

Definition BadRequest_depth (d : string) : Exn :=
  HTTPError (StatusResponse responsecode.BAD_REQUEST (illegal_depth_message d)).

(** C6 as the claim words it: every collection delete answers an illegal
    depth with [BAD_REQUEST] and an untouched world. *)
Definition illegal_depth_always_BadRequest : Prop :=
  forall (E : Env) (self : DeleteResource) (delresource deluri parent : string)
         (w : World),
    depth self <> "infinity" ->
    deleteCalendar E self delresource deluri parent w
      = (Raise (BadRequest_depth (depth self)), w)
    /\ deleteCollection E self w = (Raise (BadRequest_depth (depth self)), w)
    /\ deleteAddressBook E self delresource deluri parent w
      = (Raise (BadRequest_depth (depth self)), w)
    /\ deleteCollectionAB E self w = (Raise (BadRequest_depth (depth self)), w).

(** The data of a resource that a delete is accountable for: existence,
    quota, sync token, index and children. *)
Definition store_data (x : Resource)
  : bool * option Z * Z * Z * Z * gmap string Z * list string :=
  (res_exists x, res_quota x, res_quotaSize x, res_quotaUsed x,
   res_syncToken x, res_index x, res_children x).

(** What the virtual-share branch of [deleteCalendar] and [deleteAddressBook]
    comes to. *)
Definition detach_share (E : Env) (delresource : string) : M Response :=
  removeVirtualShare E delresource ;;; ret (Status responsecode.NO_CONTENT).

Definition is_lock_event (e : Event) : bool :=
  match e with
  | LockAcquired _ | LockReleased _ => true
  | _ => false
  end.

Definition lock_free (evs : list Event) : bool :=
  forallb (fun e => negb (is_lock_event e)) evs.

Definition is_release (t : string) (e : Event) : bool :=
  match e with
  | LockReleased t' => String.eqb t t'
  | _ => false
  end.

(** Every acquisition in the trace is followed, later in the same trace, by
    the release of the same token. *)
Fixpoint lock_discipline (evs : list Event) : bool :=
  match evs with
  | [] => true
  | LockAcquired t :: rest => existsb (is_release t) rest && lock_discipline rest
  | _ :: rest => lock_discipline rest
  end.

Ltac break_match :=
  match goal with
  | |- context [match ?x with _ => _ end] =>
      lazymatch x with
      | context [match _ with _ => _ end] => fail
      | _ => destruct x eqn:?
      end
  end.

Ltac run_collaborators :=
  cbv [bind ret raise when call read quota quotaSize fp_basename listChildren
       isDefaultCalendar isVirtualShare isShared quotaSizeAdjust bumpSyncToken
       index_deleteResource removeVirtualShare downgradeFromShare
       deletedCalendar iCalendarForUser testImplicitSchedulingDELETE
       doImplicitScheduling fileop.delete isPseudoCalendarCollectionResource];
  repeat (cbn [fst snd]; break_match);
  cbn [fst snd log held hasLock heap emit alter_resource set_heap].

Ltac trace_witness :=
  cbn [fst snd log held hasLock heap emit alter_resource set_heap];
  rewrite <- ?app_assoc;
  first [ eexists; split; [reflexivity|]
        | exists (@nil Event); split; [symmetry; apply app_nil_r|] ].

Definition Conflict_in_use (deluri : string) : Exn :=
  HTTPError (StatusResponse responsecode.CONFLICT (in_use_message deluri)).

(** C10 as the claim words it: for every input, [deleteAddressBookResource]
    never produces the Conflict outcome. *)
Definition addressbook_delete_never_Conflict : Prop :=
  forall (E : Env) (self : DeleteResource) (delresource deluri parent : string)
         (w : World),
    fst (deleteAddressBookResource E self delresource deluri parent w)
    <> Raise (Conflict_in_use deluri).

(** What [try: ... except MemcacheLockTimeoutError: raise CONFLICT] makes of
    the outcome [r] of its [try] block. *)
Definition on_timeout (deluri : string) (r : Res Response) : Res Response :=
  match r with
  | Raise e =>
      if is_MemcacheLockTimeoutError e then Raise (Conflict_in_use deluri)
      else Raise e
  | Ok resp => Ok resp
  end.

(** The [try ... except MemcacheLockTimeoutError ... finally] statement of
    [deleteCalendarResource], for given values of the locals. *)
Definition locked_section (E : Env) (self : DeleteResource)
  (delresource deluri parent : string) (myquota : option Z) (old_size : Z)
  (scheduler lock : option string) : M Response :=
  try_finally
    (try_except_MemcacheLockTimeoutError
       (acquire_if lock ;;;
        delete_and_schedule E self delresource deluri parent myquota old_size
          scheduler)
       (raise (HTTPError (StatusResponse responsecode.CONFLICT
                            (in_use_message deluri)))))
    (clean_if lock).

(** Events that change no resource: the reads of the scheduler and the
    lock operations. *)
Definition is_silent (e : Event) : bool :=
  match e with
  | Called (CICalendarForUser _) | Called (CTestImplicitSchedulingDELETE _)
  | LockAcquired _ | LockReleased _ => true
  | _ => false
  end.

Definition silent (evs : list Event) : bool := forallb is_silent evs.

(** Every [doImplicitScheduling] in the trace comes after an underlying
    delete that returned [NO_CONTENT]; [deleted] says whether one was
    already seen. *)
Fixpoint notified_after_delete (deleted : bool) (evs : list Event) : bool :=
  match evs with
  | [] => true
  | Deleted _ _ _ r :: rest =>
      notified_after_delete (deleted || is_NO_CONTENT r) rest
  | Called (CDoImplicitScheduling _) :: rest =>
      deleted && notified_after_delete deleted rest
  | _ :: rest => notified_after_delete deleted rest
  end.

(** The events an operation added to the log. *)
Definition new_events (w w' : World) : list Event :=
  drop (length (log w)) (log w').

(** The value of the local [old_size]. *)
Definition captured_size (w : World) (delresource : string) : Z :=
  match res_quota (heap w delresource) with
  | Some _ => res_quotaSize (heap w delresource)
  | None => 0
  end.

(** The collaborator calls that the [try] block of
    [deleteAddressBookResource] can make after the underlying delete, with
    the arguments it gives them in the world [w] it starts in. *)
Definition try_block_calls (delresource parent : string) (w : World)
  : list Call :=
  [CQuotaSizeAdjust delresource (- captured_size w delresource);
   CBumpSyncToken parent;
   CIndexDeleteResource parent (res_basename (heap w delresource))
     (res_syncToken (heap w parent) + 1)].

(** The value of the local [scheduler] once the preparation has returned. *)
Definition scheduler_of (self : DeleteResource) (delresource : string)
  : option string :=
  if negb (internal_request self) && allowImplicitSchedule self
  then Some delresource else None.

(** C1 as the claim words it: on a client request with implicit scheduling
    allowed, [doImplicitScheduling] is invoked only when the evaluation
    reported that a notification is needed, and only after a successful
    underlying delete. *)
Definition notified_only_when_needed : Prop :=
  forall (E : Env) (self : DeleteResource) (delresource deluri parent : string)
         (w : World),
    internal_request self = false ->
    allowImplicitSchedule self = true ->
    let out := deleteCalendarResource E self delresource deluri parent w in
    In (Called (CDoImplicitScheduling delresource)) (new_events w (snd out)) ->
    do_implicit_action E delresource = true
    /\ notified_after_delete false (new_events w (snd out)) = true.

Definition is_quota_adjust (e : Event) : bool :=
  match e with
  | Called (CQuotaSizeAdjust _ _) => true
  | _ => false
  end.

Definition adjusts_quota (evs : list Event) : bool := existsb is_quota_adjust evs.

(** C3 as the claim words it: when the underlying delete returns anything
    but [NO_CONTENT], quota usage is left unchanged. *)
Definition quota_adjusted_only_on_success : Prop :=
  forall (E : Env) (self : DeleteResource) (delresource deluri parent : string)
         (w : World) (r : Response),
    fileop_delete E deluri delresource (depth self) = Returned r ->
    is_NO_CONTENT r = false ->
    (forall x,
        res_quotaUsed (heap (snd (deleteResource E self delresource deluri
                                    parent w)) x)
        = res_quotaUsed (heap w x))
    /\ (forall x,
        res_quotaUsed (heap (snd (deleteCalendarResource E self delresource
                                    deluri parent w)) x)
        = res_quotaUsed (heap w x)).

(** What the code does about quota, for an operation on [delresource] that
    started in [w] and ended as [out]: a quota adjustment is made only for
    [delresource], only by minus the size captured before the delete, only
    with quota support and only once the underlying delete has returned
    (with whatever response); the usage recorded is lowered by exactly that
    when the adjustment is made and is untouched otherwise; and whenever the
    operation returns a response with quota supported, the adjustment was
    made. *)
Definition quota_rule (E : Env) (self : DeleteResource)
  (delresource deluri : string) (w : World) (out : Res Response * World)
  : Prop :=
  exists evs,
    log (snd out) = (log w ++ evs)%list
    /\ (forall x delta,
          In (Called (CQuotaSizeAdjust x delta)) evs ->
          x = delresource
          /\ delta = - captured_size w delresource
          /\ res_quota (heap w delresource) <> None
          /\ exists r, fileop_delete E deluri delresource (depth self)
                       = Returned r)
    /\ (forall x,
          res_quotaUsed (heap (snd out) x)
          = res_quotaUsed (heap w x)
            - (if adjusts_quota evs && String.eqb delresource x
               then captured_size w delresource else 0))
    /\ (forall r,
          fst out = Ok r -> res_quota (heap w delresource) <> None ->
          adjusts_quota evs = true).

Ltac heap_cases :=
  cbn; unfold upd;
  repeat first
    [ rewrite String.eqb_refl
    | match goal with
      | |- context [String.eqb ?a ?b] =>
          destruct (String.eqb_spec a b); [subst|]
      end ];
  cbn; try lia; try congruence.

Definition is_bump (r : string) (e : Event) : bool :=
  match e with
  | Called (CBumpSyncToken r') => String.eqb r r'
  | _ => false
  end.

Definition bumps (r : string) (evs : list Event) : bool := existsb (is_bump r) evs.

(** The statements of [deleteCalendar] after the loop over the children:
    sharing, the collection's own sync token, the removal of the collection,
    the merge and the clean-up. *)
Definition remove_collection (E : Env) (self : DeleteResource)
  (delresource deluri parent : string) (errors : ResponseQueue) : M Response :=
  wasShared <- isShared delresource ;;
  when wasShared (downgradeFromShare E delresource) ;;;
  bumpSyncToken E delresource ;;;
  more_responses <- deleteResource E self delresource deluri parent ;;
  let errors := merge_MultiStatus errors more_responses in
  let response := Queue.response errors in
  when (is_NO_CONTENT response) (deletedCalendar E delresource) ;;;
  ret response.

(** The underlying delete returned [NO_CONTENT]. *)
Definition delete_succeeds (E : Env) (self : DeleteResource)
  (delresource deluri : string) : Prop :=
  exists r, fileop_delete E deluri delresource (depth self) = Returned r
            /\ is_NO_CONTENT r = true.

(** C2 as the claim words it: the parent's token moves in [deleteResource]
    only when the underlying delete returned [NO_CONTENT], and the own token
    of the collection moves in [deleteCalendar] only when the removal of the
    collection succeeded (stated for a collection without children, where
    no child delete moves that token). *)
Definition synctoken_only_on_success : Prop :=
  forall (E : Env) (self : DeleteResource) (delresource deluri parent : string)
         (w : World),
    (forall x,
        res_syncToken (heap (snd (deleteResource E self delresource deluri
                                    parent w)) x)
        <> res_syncToken (heap w x) ->
        delete_succeeds E self delresource deluri)
    /\ (res_children (heap w delresource) = [] ->
        res_syncToken (heap (snd (deleteCalendar E self delresource deluri
                                    parent w)) delresource)
        <> res_syncToken (heap w delresource) ->
        delete_succeeds E self delresource deluri).

(** What a delete of [delresource] under [parent] does to sync tokens: a
    bump is made only of [parent], only after the underlying delete returned
    [NO_CONTENT] (and, where [pseudo_only] is set, only for a parent that is
    a calendar-like collection); the token of [parent] then advances by
    exactly one, and every other token, and that of [parent] when no bump is
    made, is untouched. *)
Definition synctoken_rule (E : Env) (self : DeleteResource)
  (delresource deluri parent : string) (pseudo_only : bool) (w : World)
  (out : Res Response * World) : Prop :=
  exists evs,
    log (snd out) = (log w ++ evs)%list
    /\ (forall x, In (Called (CBumpSyncToken x)) evs ->
          x = parent
          /\ delete_succeeds E self delresource deluri
          /\ (pseudo_only = true ->
              is_pseudo_calendar_collection (heap w parent) = true))
    /\ (forall x,
          res_syncToken (heap (snd out) x)
          = res_syncToken (heap w x)
            + (if bumps parent evs && String.eqb parent x then 1 else 0))
    /\ (forall r, fst out = Ok r -> is_NO_CONTENT r = true ->
                  (pseudo_only = true ->
                   is_pseudo_calendar_collection (heap w parent) = true) ->
                  bumps parent evs = true).

Ltac normalise_pseudo H :=
  cbn in H; unfold upd in H;
  repeat match type of H with
         | context [String.eqb ?a ?b] =>
             destruct (String.eqb_spec a b); [subst|]
         end;
  unfold is_pseudo_calendar_collection in H; cbn in H.

(** The world after the sharing downgrade of [deleteCalendar], when the
    collection was shared, and after the bump of its own token. *)
Definition downgraded (delresource : string) (w : World) : World :=
  if res_isShared (heap w delresource)
  then emit (Called (CDowngradeFromShare delresource))
         (alter_resource delresource (with_isShared false) w)
  else w.

Definition own_bump (delresource : string) (w : World) : World :=
  emit (Called (CBumpSyncToken delresource))
    (alter_resource delresource
       (with_syncToken (res_syncToken (heap w delresource) + 1)) w).

(** Sync tokens never go down. *)
Definition tokens_grow (w w' : World) : Prop :=
  forall x, res_syncToken (heap w x) <= res_syncToken (heap w' x).

(** ** The loop over the children, child by child *)

Definition is_Raise {A} (r : Res A) : bool :=
  match r with
  | Raise _ => true
  | Ok _ => false
  end.

(** What [deleteCalendarResource] answers for each child, by child URL, in
    listing order, each child being deleted in the world its elder siblings
    left. *)
Fixpoint child_outcomes (E : Env) (self : DeleteResource)
  (delresource deluri : string) (names : list string) (w : World)
  : list (string * Res Response) :=
  match names with
  | [] => []
  | childname :: rest =>
      let childurl := joinURL E deluri childname in
      let child := locateChildResource E delresource childname in
      let out := deleteCalendarResource E self child childurl delresource w in
      (childurl, fst out)
        :: child_outcomes E self delresource deluri rest (snd out)
  end.

(** The world after every child has been through. *)
Fixpoint after_children (E : Env) (self : DeleteResource)
  (delresource deluri : string) (names : list string) (w : World) : World :=
  match names with
  | [] => w
  | childname :: rest =>
      let childurl := joinURL E deluri childname in
      let child := locateChildResource E delresource childname in
      after_children E self delresource deluri rest
        (snd (deleteCalendarResource E self child childurl delresource w))
  end.

(** The URLs of the children whose delete raised. *)
Definition failed_children (E : Env) (self : DeleteResource)
  (delresource deluri : string) (names : list string) (w : World)
  : list string :=
  map fst (List.filter (fun p => is_Raise (snd p))
             (child_outcomes E self delresource deluri names w)).

(** A queue after [errors.add(url, BAD_REQUEST)] for each of the URLs. *)
Definition record_failures (errors : ResponseQueue) (urls : list string)
  : ResponseQueue :=
  fold_left (fun q u => Queue.add q u responsecode.BAD_REQUEST) urls errors.

(** C4 as the claim words it: with N children of which exactly K fail, the
    outcome of [deleteCalendar] is a multi-status with exactly K entries,
    and success when K is 0. *)
Definition child_failures_counted : Prop :=
  forall (E : Env) (self : DeleteResource) (delresource deluri parent : string)
         (w : World) (resp : Response),
    res_isDefaultCalendar (heap w delresource) = false ->
    depth self = "infinity" ->
    res_isVirtualShare (heap w delresource) = false ->
    NoDup (map (joinURL E deluri) (res_children (heap w delresource))) ->
    fst (deleteCalendar E self delresource deluri parent w) = Ok resp ->
    let K := length (failed_children E self delresource deluri
                       (res_children (heap w delresource)) w) in
    if decide (K = 0%nat) then resp = Status responsecode.NO_CONTENT
    else exists m, resp = MultiStatusResponse m /\ size m = K.

Ltac bump_leaves :=
  trace_witness;
  (split;
   [ intros x Hin; cbn in Hin;
     repeat (destruct Hin as [Hin|Hin]; try discriminate);
     try contradiction;
     injection Hin as <-; unfold delete_succeeds; repeat split; eauto;
     try (intros; discriminate)
   | ]);
  (split;
   [ intros x; cbv [bumps existsb is_bump]; heap_cases
   | ]);
  intros resp Hok Hnc Hps; try discriminate;
  cbn; rewrite ?String.eqb_refl; cbn;
  try reflexivity; try congruence;
  specialize (Hps eq_refl); congruence.

(** ** An invariant of the deletes *)

(** [m] leaves every world related by [R] to the world it started in,
    whether it returns or raises. *)
Definition preserves {A} (R : World -> World -> Prop) (m : M A) : Prop :=
  forall w, R w (snd (m w)).

(** No call made by a delete changes which calendars are default
    calendars. *)
Definition steady (w w' : World) : Prop :=
  forall x,
    res_isDefaultCalendar (heap w' x) = res_isDefaultCalendar (heap w x).

(** A field update that [steady] tolerates. *)
Definition gentle (f : Resource -> Resource) : Prop :=
  forall y, res_isDefaultCalendar (f y) = res_isDefaultCalendar y.

Definition Forbidden_sharee : Exn :=
  HTTPError (ErrorResponse responsecode.FORBIDDEN calendarserver_namespace
               "sharee-privilege-needed").

(** The events of the scheduler and of the lock. *)
Definition is_scheduling_event (e : Event) : bool :=
  match e with
  | Called (CICalendarForUser _) | Called (CTestImplicitSchedulingDELETE _)
  | Called (CDoImplicitScheduling _) | LockAcquired _ | LockReleased _ => true
  | _ => false
  end.

(** No scheduler is consulted and no lock is taken. *)
Definition scheduling_free (evs : list Event) : bool :=
  forallb (fun e => negb (is_scheduling_event e)) evs.

(** The operation consulted no scheduler and took no lock. *)
Definition unscheduled (w w' : World) : Prop :=
  exists evs, log w' = (log w ++ evs)%list /\ scheduling_free evs = true.

(** The operation took no lock. *)
Definition lockless (w w' : World) : Prop :=
  exists evs, log w' = (log w ++ evs)%list /\ lock_free evs = true.

(** ** Responses of the collection deletes *)

(** [m], when it returns, returns a value that satisfies [P]. *)
Definition returns {A} (P : A -> Prop) (m : M A) : Prop :=
  forall w a, fst (m w) = Ok a -> P a.

(** What a queue created with [NO_CONTENT] can answer: [NO_CONTENT] itself,
    or a multi-status with at least one entry. *)
Definition aggregate_response (r : Response) : Prop :=
  r = Status responsecode.NO_CONTENT
  \/ exists m, r = MultiStatusResponse m /\ m <> ∅.

Definition clean_queue (q : ResponseQueue) : Prop :=
  success_response q = responsecode.NO_CONTENT.

(** Case analysis on the handles compared by [upd]. *)
Ltac settle_heap :=
  cbn; unfold upd;
  repeat first
    [ rewrite String.eqb_refl
    | match goal with
      | |- context [String.eqb ?a ?b] =>
          destruct (String.eqb_spec a b); [subst|]
      end ];
  cbn; rewrite ?lookup_delete_eq; try reflexivity; try congruence.

(** * Properties *)

(** ** Evaluation on the sample world *)

Example delete_event_no_scheduling :
  let out := deleteCalendarResource (Sample.calm (fun _ => false))
               (Sample.request None "home/a.ics" "/home/a.ics" "home" "0"
                  false true)
               "home/a.ics" "/home/a.ics" "home" Sample.world in
  fst out = Ok (Status 204)
  /\ res_syncToken (heap (snd out) "home") = 8
  /\ res_quotaUsed (heap (snd out) "home/a.ics") = 40
  /\ held (snd out) = ∅.
Proof. vm_compute. repeat split. Qed.

(** ** The precondition check *)

(** What [validIfScheduleMatch] computes, case by case; the world is never
    changed. *)
Lemma validIfScheduleMatch_cases (E : Env) (self : DeleteResource) (w : World) :
  validIfScheduleMatch E self w =
  (if internal_request self then Ok tt
   else if negb (truthy (If_Schedule_Tag_Match self)) then Ok tt
   else if negb (res_exists (heap w (resource self))) then
          Raise (UnboundLocalError "scheduletag")
   else match res_scheduleTag (heap w (resource self)) with
        | None => Raise (UnboundLocalError "scheduletag")
        | Some t =>
            if bool_decide (Some t = If_Schedule_Tag_Match self) then Ok tt
            else Raise (HTTPError (Code responsecode.PRECONDITION_FAILED))
        end,
   w).
Proof.
  unfold validIfScheduleMatch.
  destruct (internal_request self); simpl; [reflexivity|].
  destruct (truthy (If_Schedule_Tag_Match self)); simpl.
  2: destruct (ScheduleTagCompatibility E); reflexivity.
  cbv [bind exists_ hasDeadProperty_ScheduleTag readDeadProperty_ScheduleTag
         read ret raise].
  destruct (res_exists (heap w (resource self))); cbn; [|reflexivity].
  destruct (res_scheduleTag (heap w (resource self))) as [t|] eqn:Htag; cbn;
    [|reflexivity].
  rewrite Htag; cbn.
  destruct (bool_decide (Some t = If_Schedule_Tag_Match self)); reflexivity.
Qed.

(** The check never changes the world. *)
Lemma validIfScheduleMatch_pure (E : Env) (self : DeleteResource) (w : World) :
  snd (validIfScheduleMatch E self w) = w.
Proof. rewrite validIfScheduleMatch_cases. reflexivity. Qed.

(** A stored tag that differs from the header fails with
    [PRECONDITION_FAILED]; an equal one passes. *)
Lemma validIfScheduleMatch_stored_tag (E : Env) (self : DeleteResource)
  (w : World) (h t : string) :
  internal_request self = false ->
  If_Schedule_Tag_Match self = Some h -> h <> "" ->
  res_exists (heap w (resource self)) = true ->
  res_scheduleTag (heap w (resource self)) = Some t ->
  validIfScheduleMatch E self w =
  (if bool_decide (t = h) then Ok tt
   else Raise (HTTPError (Code responsecode.PRECONDITION_FAILED)), w).
Proof.
  intros Hint Hh Hne Hex Htag. rewrite validIfScheduleMatch_cases.
  rewrite Hint, Hh, Hex, Htag. simpl.
  destruct (String.eqb_spec h ""); [contradiction|]. simpl.
  destruct (bool_decide_reflect (t = h)) as [->|Hd].
  - rewrite bool_decide_eq_true_2; reflexivity.
  - rewrite bool_decide_eq_false_2; [reflexivity|congruence].
Qed.

(** C5 (the code departs from the claim): a client request carrying an
    If-Schedule-Tag-Match header, aimed at a resource that does not exist,
    does not fail with [PRECONDITION_FAILED]: the read of the unbound local
    [scheduletag] raises [UnboundLocalError] first. *)
Theorem validIfScheduleMatch_missing_resource :
  validIfScheduleMatch (Sample.calm (fun _ => false))
    (Sample.request (Some "tag-9") "gone.ics" "/gone.ics" "home" "0" false true)
    Sample.world
  = (Raise (UnboundLocalError "scheduletag"), Sample.world).
Proof. reflexivity. Qed.

(** The same happens for a resource that exists and stores no tag. *)
Example validIfScheduleMatch_untagged_resource :
  validIfScheduleMatch (Sample.calm (fun _ => false))
    (Sample.request (Some "tag-9") "home/b.ics" "/home/b.ics" "home" "0"
       false true)
    Sample.world
  = (Raise (UnboundLocalError "scheduletag"), Sample.world).
Proof. reflexivity. Qed.

(** ** Rejections that precede every mutation *)

(** C7: [deleteCalendar] on the owner's default calendar fails with
    [FORBIDDEN] whatever the depth and the state of the store, and hands back
    the world it was given: no quota, sync token, index, sharing state or
    child has changed, and no collaborator has been called. *)
Theorem deleteCalendar_default_forbidden (E : Env) (self : DeleteResource)
  (delresource deluri parent : string) (w : World) :
  res_isDefaultCalendar (heap w delresource) = true ->
  deleteCalendar E self delresource deluri parent w
  = (Raise Forbidden_default_calendar, w).
Proof.
  intros Hdef. unfold deleteCalendar, bind, isDefaultCalendar, read.
  rewrite Hdef. reflexivity.
Qed.

Lemma deleteCalendar_default_forbidden_witness :
  res_isDefaultCalendar (heap Sample.world "default") = true
  /\ deleteCalendar (Sample.calm (fun _ => true))
       (Sample.request None "default" "/default" "calendars" "infinity"
          false true)
       "default" "/default" "calendars" Sample.world
     = (Raise Forbidden_default_calendar, Sample.world).
Proof.
  split; [reflexivity|].
  apply (deleteCalendar_default_forbidden (Sample.calm (fun _ => true))).
  reflexivity.
Defined.

Lemma depth_test (d : string) :
  d <> "infinity" -> negb (String.eqb d "infinity") = true.
Proof. intros H. destruct (String.eqb_spec d "infinity"); [contradiction|reflexivity]. Qed.

(** C6, counterexample: on the default calendar with depth ["0"],
    [deleteCalendar] answers [FORBIDDEN], not [BAD_REQUEST]: the default
    calendar is tested before the depth. *)
Lemma illegal_depth_on_default_calendar : ~ illegal_depth_always_BadRequest.
Proof.
  intros H.
  destruct (H (Sample.calm (fun _ => true))
              (Sample.request None "default" "/default" "calendars" "0"
                 false true)
              "default" "/default" "calendars" Sample.world) as [Hcal _].
  - discriminate.
  - discriminate Hcal.
Qed.

(** C6, amended: with a depth other than ["infinity"], [deleteCollection],
    [deleteAddressBook] and [deleteCollectionAB] fail with [BAD_REQUEST], and
    so does [deleteCalendar] unless the target is the owner's default
    calendar, which it rejects with [FORBIDDEN] first; in every case the
    world handed back is the one received. *)
Theorem illegal_depth_rejected (E : Env) (self : DeleteResource)
  (delresource deluri parent : string) (w : World) :
  depth self <> "infinity" ->
  deleteCalendar E self delresource deluri parent w
    = (Raise (if res_isDefaultCalendar (heap w delresource)
              then Forbidden_default_calendar
              else BadRequest_depth (depth self)), w)
  /\ deleteCollection E self w = (Raise (BadRequest_depth (depth self)), w)
  /\ deleteAddressBook E self delresource deluri parent w
    = (Raise (BadRequest_depth (depth self)), w)
  /\ deleteCollectionAB E self w = (Raise (BadRequest_depth (depth self)), w).
Proof.
  intros Hd. apply depth_test in Hd.
  unfold deleteCalendar, deleteCollection, deleteAddressBook,
    deleteCollectionAB, bind, isDefaultCalendar, read.
  rewrite Hd.
  destruct (res_isDefaultCalendar (heap w delresource)); repeat split.
Qed.

Lemma illegal_depth_rejected_witness :
  let self := Sample.request None "home" "/home" "calendars" "1" false true in
  let E := Sample.calm (fun _ => true) in
  deleteCalendar E self "home" "/home" "calendars" Sample.world
    = (Raise (BadRequest_depth "1"), Sample.world)
  /\ deleteCollection E self Sample.world
    = (Raise (BadRequest_depth "1"), Sample.world)
  /\ deleteAddressBook E self "home" "/home" "calendars" Sample.world
    = (Raise (BadRequest_depth "1"), Sample.world)
  /\ deleteCollectionAB E self Sample.world
    = (Raise (BadRequest_depth "1"), Sample.world).
Proof.
  intros self E.
  apply (illegal_depth_rejected E self "home" "/home" "calendars" Sample.world).
  discriminate.
Defined.

(** ** Removing a virtual share *)

Lemma store_data_upd_sharing (h : string -> Resource) (r x : string) (b : bool) :
  store_data (upd h r (with_isVirtualShare b (h r)) x) = store_data (h x).
Proof.
  unfold upd. destruct (String.eqb_spec r x) as [->|]; reflexivity.
Qed.

Lemma deleteCalendar_virtual (E : Env) (self : DeleteResource)
  (delresource deluri parent : string) (w : World) :
  res_isDefaultCalendar (heap w delresource) = false ->
  depth self = "infinity" ->
  res_isVirtualShare (heap w delresource) = true ->
  deleteCalendar E self delresource deluri parent w = detach_share E delresource w.
Proof.
  intros Hdef Hd Hv.
  unfold deleteCalendar, detach_share, isDefaultCalendar, isVirtualShare, read.
  unfold bind at 1. rewrite Hdef, Hd, String.eqb_refl. cbn [negb].
  unfold bind at 1. rewrite Hv. reflexivity.
Qed.

Lemma deleteAddressBook_virtual (E : Env) (self : DeleteResource)
  (delresource deluri parent : string) (w : World) :
  depth self = "infinity" ->
  res_isVirtualShare (heap w delresource) = true ->
  deleteAddressBook E self delresource deluri parent w
  = detach_share E delresource w.
Proof.
  intros Hd Hv.
  unfold deleteAddressBook, detach_share, isVirtualShare, read.
  rewrite Hd. rewrite String.eqb_refl. cbn [negb].
  unfold bind at 1. rewrite Hv. reflexivity.
Qed.

Lemma detach_share_effect (E : Env) (delresource : string) (w : World) :
  let out := detach_share E delresource w in
  fst out = match fails E (CRemoveVirtualShare delresource) with
            | None => Ok (Status responsecode.NO_CONTENT)
            | Some f => Raise (CollaboratorError f)
            end
  /\ log (snd out) = (log w ++ match fails E (CRemoveVirtualShare delresource) with
                               | None => [Called (CRemoveVirtualShare delresource)]
                               | Some _ => []
                               end)%list
  /\ held (snd out) = held w
  /\ forall x, store_data (heap (snd out) x) = store_data (heap w x).
Proof.
  unfold detach_share, removeVirtualShare, call, bind, ret.
  destruct (fails E (CRemoveVirtualShare delresource)); cbn.
  - rewrite app_nil_r. auto.
  - repeat split. intros x. apply store_data_upd_sharing.
Qed.

(** C8: when the target of [deleteCalendar] (not the default calendar) or of
    [deleteAddressBook] is a virtual share and the depth is ["infinity"], the
    only collaborator call made is [removeVirtualShare]; once it returns the
    result is [NO_CONTENT] (its own failure is the only other outcome); and
    the existence, quota, sync token, index and children of every resource,
    the shared collection among them, are as they were. *)
Theorem virtual_share_only_detached (E : Env) (self : DeleteResource)
  (delresource deluri parent : string) (w : World) (out : Res Response * World) :
  depth self = "infinity" ->
  res_isVirtualShare (heap w delresource) = true ->
  out = deleteAddressBook E self delresource deluri parent w
  \/ (res_isDefaultCalendar (heap w delresource) = false
      /\ out = deleteCalendar E self delresource deluri parent w) ->
  fst out = match fails E (CRemoveVirtualShare delresource) with
            | None => Ok (Status responsecode.NO_CONTENT)
            | Some f => Raise (CollaboratorError f)
            end
  /\ log (snd out) = (log w ++ match fails E (CRemoveVirtualShare delresource) with
                               | None => [Called (CRemoveVirtualShare delresource)]
                               | Some _ => []
                               end)%list
  /\ held (snd out) = held w
  /\ forall x, store_data (heap (snd out) x) = store_data (heap w x).
Proof.
  intros Hd Hv [->|[Hdef ->]].
  - rewrite deleteAddressBook_virtual by assumption. apply detach_share_effect.
  - rewrite deleteCalendar_virtual by assumption. apply detach_share_effect.
Qed.

Lemma virtual_share_only_detached_witness :
  let E := Sample.calm (fun _ => true) in
  let self :=
    Sample.request None "shared" "/shared" "calendars" "infinity" false true in
  let out := deleteCalendar E self "shared" "/shared" "calendars" Sample.world in
  fst out = Ok (Status responsecode.NO_CONTENT)
  /\ log (snd out) = [Called (CRemoveVirtualShare "shared")]
  /\ held (snd out) = held Sample.world
  /\ forall x, store_data (heap (snd out) x) = store_data (heap Sample.world x).
Proof.
  intros E self out.
  apply (virtual_share_only_detached E self "shared" "/shared" "calendars"
           Sample.world out); [reflexivity | reflexivity |].
  right. split; reflexivity.
Defined.

(** ** Traces

    The events an operation adds to the log, and predicates on them. *)

Lemma lock_free_app (a b : list Event) :
  lock_free (a ++ b) = lock_free a && lock_free b.
Proof. apply forallb_app. Qed.

Lemma lock_discipline_free_app (a b : list Event) :
  lock_free a = true -> lock_discipline (a ++ b) = lock_discipline b.
Proof.
  induction a as [|e a IH]; [reflexivity|].
  cbn [lock_free forallb]. intros H. apply andb_true_iff in H as [He Ha].
  destruct e; cbn in He |- *; try discriminate; auto.
Qed.

Lemma lock_free_discipline (a : list Event) :
  lock_free a = true -> lock_discipline a = true.
Proof.
  intros H. rewrite <- (app_nil_r a). rewrite lock_discipline_free_app; auto.
Qed.

Lemma lock_discipline_bracket (t : string) (body : list Event) :
  lock_free body = true ->
  lock_discipline (LockAcquired t :: body ++ [LockReleased t]) = true.
Proof.
  intros H. cbn [lock_discipline].
  rewrite existsb_app. cbn. rewrite String.eqb_refl, orb_true_r.
  rewrite lock_discipline_free_app by assumption. reflexivity.
Qed.

(** ** Case analysis on the collaborators' answers *)

(** The statements after the lock neither touch the lock table nor log a
    lock event. *)
Lemma delete_and_schedule_locks (E : Env) (self : DeleteResource)
  (delresource deluri parent : string) (myquota : option Z) (old_size : Z)
  (scheduler : option string) (w : World) :
  let out := delete_and_schedule E self delresource deluri parent myquota
               old_size scheduler w in
  held (snd out) = held w
  /\ hasLock (snd out) = hasLock w
  /\ exists evs, log (snd out) = (log w ++ evs)%list /\ lock_free evs = true.
Proof.
  unfold delete_and_schedule. run_collaborators.
  all: split; [reflexivity|split; [reflexivity|]].
  all: trace_witness; reflexivity.
Qed.

(** The [except MemcacheLockTimeoutError] clause of the two object deletes,
    on the outcome of the [try] block. *)
Lemma try_except_timeout_Conflict (deluri : string) (m : M Response)
  (w : World) :
  try_except_MemcacheLockTimeoutError m (raise (Conflict_in_use deluri)) w
  = (on_timeout deluri (fst (m w)), snd (m w)).
Proof.
  unfold try_except_MemcacheLockTimeoutError, on_timeout, raise.
  destruct (m w) as [[resp|e] w1]; cbn [fst snd]; [reflexivity|].
  destruct (is_MemcacheLockTimeoutError e); reflexivity.
Qed.

(** The clause lets a result through and keeps an exception an exception. *)
Lemma on_timeout_Ok (deluri : string) (r : Res Response) (resp : Response) :
  on_timeout deluri r = Ok resp <-> r = Ok resp.
Proof.
  destruct r as [x|e]; cbn; [reflexivity|].
  destruct (is_MemcacheLockTimeoutError e); split; discriminate.
Qed.

Lemma on_timeout_Raise (deluri : string) (r : Res Response) (e : Exn) :
  r = Raise e -> exists e', on_timeout deluri r = Raise e'.
Proof.
  intros ->. cbn. destruct (is_MemcacheLockTimeoutError e); eexists; reflexivity.
Qed.

(** The preparation changes no resource and no lock; a lock object it hands
    back is fresh, and the scheduler it hands back exists exactly for a
    client request with implicit scheduling allowed. *)
Lemma implicit_preparation_effect (E : Env) (self : DeleteResource)
  (delresource parent : string) (w : World) :
  let out := implicit_preparation E self delresource parent w in
  heap (snd out) = heap w
  /\ held (snd out) = held w
  /\ (exists evs, log (snd out) = (log w ++ evs)%list
                  /\ lock_free evs = true /\ silent evs = true)
  /\ (forall s t, fst out = Ok (s, Some t) -> hasLock (snd out) t = false)
  /\ (forall s l, fst out = Ok (s, l) -> s = scheduler_of self delresource).
Proof.
  unfold implicit_preparation, scheduler_of.
  destruct (negb (internal_request self) && allowImplicitSchedule self).
  2: { cbv [ret]; cbn. repeat split; try congruence.
       exists []. split; [symmetry; apply app_nil_r|split; reflexivity]. }
  cbv [MemcacheLock.new MemcacheLock.set_hasLock]. run_collaborators.
  all: repeat split; try congruence.
  all: try (trace_witness; split; reflexivity).
  all: intros s t [= <- <-]; apply String.eqb_refl || rewrite String.eqb_refl; reflexivity.
Qed.

Lemma release_after_acquire (t : string) (s : gset string) :
  t ∉ s -> ({[t]} ∪ s) ∖ {[t]} = s.
Proof. set_solver. Qed.

Lemma locked_section_releases (E : Env) (self : DeleteResource)
  (delresource deluri parent : string) (myquota : option Z) (old_size : Z)
  (scheduler lock : option string) (w : World) (out : Res Response * World) :
  (forall t, lock = Some t -> hasLock w t = false) ->
  locked_section E self delresource deluri parent myquota old_size
    scheduler lock w = out ->
  held (snd out) = held w
  /\ (exists evs, log (snd out) = (log w ++ evs)%list
                  /\ lock_discipline evs = true)
  /\ (forall t, lock = Some t -> t ∈ held w ->
        out = (Raise (Conflict_in_use deluri), w)).
Proof.
  intros Hfresh Hout. unfold locked_section in Hout.
  unfold try_finally in Hout. fold (Conflict_in_use deluri) in Hout.
  rewrite try_except_timeout_Conflict in Hout.
  destruct lock as [t|]; cbv [acquire_if clean_if] in Hout;
    unfold bind at 1 2 in Hout.
  - specialize (Hfresh t eq_refl). cbv [MemcacheLock.acquire] in Hout.
    destruct (bool_decide_reflect (t ∈ held w)) as [Hin|Hnotin].
    + cbv [on_timeout MemcacheLock.clean] in Hout. cbn in Hout.
      rewrite Hfresh in Hout.
      subst out. cbn.
      split; [reflexivity|]. split; [|reflexivity].
      exists []. split; [symmetry; apply app_nil_r|reflexivity].
    + set (w2 := emit (LockAcquired t) _) in Hout.
      pose proof (delete_and_schedule_locks E self delresource deluri parent
                    myquota old_size scheduler w2) as Hbody.
      cbv zeta in Hbody.
      destruct (delete_and_schedule E self delresource deluri parent myquota
                  old_size scheduler w2) as [r w3].
      cbn [fst snd] in Hbody, Hout.
      destruct Hbody as (Hheld & Hflag & evs & Hlog & Hfree).
      assert (Hclean : MemcacheLock.clean t w3 = MemcacheLock.release t w3).
      { unfold MemcacheLock.clean. rewrite Hflag. subst w2. cbn.
        rewrite String.eqb_refl. reflexivity. }
      assert (Hfin : out = (on_timeout deluri r,
                            snd (MemcacheLock.release t w3))).
      { rewrite Hclean in Hout. subst out. reflexivity. }
      clear Hout. subst out.
      cbv [MemcacheLock.release MemcacheLock.set_hasLock MemcacheLock.set_held
           emit].
      cbn [fst snd held log]. rewrite Hheld, Hlog. subst w2.
      cbv [MemcacheLock.set_hasLock MemcacheLock.set_held emit].
      cbn [fst snd held log].
      split; [apply release_after_acquire; assumption|].
      split; [|intros ? [= <-] ?; contradiction].
      exists (LockAcquired t :: evs ++ [LockReleased t]).
      split; [rewrite <- !app_assoc; reflexivity|].
      apply lock_discipline_bracket; assumption.
  - cbv [ret] in Hout.
    pose proof (delete_and_schedule_locks E self delresource deluri parent
                  myquota old_size scheduler w) as Hbody.
    cbv zeta in Hbody.
    destruct (delete_and_schedule E self delresource deluri parent myquota
                old_size scheduler w) as [r w3].
    cbn [fst snd] in Hbody, Hout.
    destruct Hbody as (Hheld & Hflag & evs & Hlog & Hfree).
    assert (Hfin : out = (on_timeout deluri r, w3)).
    { subst out. reflexivity. }
    clear Hout. subst out. cbn.
    split; [assumption|]; split; [|discriminate].
    exists evs; split; [assumption|apply lock_free_discipline; assumption].
Qed.

(** [deleteCalendarResource] in three stages: the precondition, the
    preparation of the locals, the locked section. *)
Lemma deleteCalendarResource_stages (E : Env) (self : DeleteResource)
  (delresource deluri parent : string) (w : World) :
  deleteCalendarResource E self delresource deluri parent w =
  match fst (validIfScheduleMatch E self w) with
  | Raise e => (Raise e, w)
  | Ok _ =>
      let myquota := res_quota (heap w delresource) in
      let old_size := match myquota with
                      | Some _ => res_quotaSize (heap w delresource)
                      | None => 0
                      end in
      match implicit_preparation E self delresource parent w with
      | (Raise e, w1) => (Raise e, w1)
      | (Ok locals, w1) =>
          locked_section E self delresource deluri parent myquota old_size
            (fst locals) (snd locals) w1
      end
  end.
Proof.
  unfold deleteCalendarResource. unfold bind at 1.
  pose proof (validIfScheduleMatch_pure E self w) as Hpure.
  destruct (validIfScheduleMatch E self w) as [[[]|e] w0]; cbn in Hpure;
    subst w0; cbn [fst]; [|reflexivity].
  cbv [quota quotaSize read]. unfold bind at 1.
  destruct (res_quota (heap w delresource)); unfold bind at 1; cbv [ret];
    unfold bind at 1;
    destruct (implicit_preparation E self delresource parent w) as [[locals|e] w1];
    reflexivity.
Qed.

(** The lock discipline of [deleteCalendarResource], on every exit path. *)
Lemma deleteCalendarResource_releases (E : Env) (self : DeleteResource)
  (delresource deluri parent : string) (w : World) :
  let out := deleteCalendarResource E self delresource deluri parent w in
  held (snd out) = held w
  /\ (exists evs, log (snd out) = (log w ++ evs)%list
                  /\ lock_discipline evs = true)
  /\ (forall s t w1,
        fst (validIfScheduleMatch E self w) = Ok tt ->
        implicit_preparation E self delresource parent w = (Ok (s, Some t), w1) ->
        t ∈ held w ->
        fst out = Raise (Conflict_in_use deluri)
        /\ heap (snd out) = heap w).
Proof.
  intros out. subst out. rewrite deleteCalendarResource_stages.
  destruct (fst (validIfScheduleMatch E self w)) as [[]|e] eqn:Hvalid.
  2: { cbn. split; [reflexivity|]. split; [|discriminate].
       exists []. split; [symmetry; apply app_nil_r|reflexivity]. }
  cbv zeta.
  pose proof (implicit_preparation_effect E self delresource parent w) as Hprep.
  cbv zeta in Hprep.
  destruct (implicit_preparation E self delresource parent w)
    as [[[scheduler lock]|e] w1]; cbn [fst snd] in Hprep |- *;
    destruct Hprep as (Hheap & Hheld & (evs1 & Hlog1 & Hfree1 & _) & Hfresh & _).
  2: { split; [assumption|]. split; [|discriminate].
       exists evs1. split; [assumption|apply lock_free_discipline; assumption]. }
  set (myquota := res_quota (heap w delresource)).
  set (old_size := match myquota with Some _ => _ | None => _ end).
  assert (Hfresh' : forall t, lock = Some t -> hasLock w1 t = false).
  { intros t ->. apply (Hfresh scheduler t eq_refl). }
  destruct (locked_section_releases E self delresource deluri parent myquota
              old_size scheduler lock w1 _ Hfresh' eq_refl)
    as (Hheld2 & (evs2 & Hlog2 & Hdisc2) & Htimeout).
  split; [congruence|]. split.
  - exists (evs1 ++ evs2)%list. split.
    + rewrite Hlog2, Hlog1, <- app_assoc. reflexivity.
    + rewrite lock_discipline_free_app; assumption.
  - intros s t w' _ [= -> -> ->] Hin.
    rewrite (Htimeout t eq_refl) by (rewrite Hheld; assumption).
    split; [reflexivity|assumption].
Qed.

(** C9: [deleteCalendarResource] leaves the lock table as it found it on
    every exit path (a result, an [HTTPError], any other failure, a lock
    timeout); in the events it adds to the log every acquisition is followed
    by the release of the same lock; and a timeout of the acquisition comes
    out as [CONFLICT], with no resource changed. *)
Theorem lock_released_on_every_path (E : Env) (self : DeleteResource)
  (delresource deluri parent : string) (w : World) :
  let out := deleteCalendarResource E self delresource deluri parent w in
  held (snd out) = held w
  /\ (exists evs, log (snd out) = (log w ++ evs)%list
                  /\ lock_discipline evs = true)
  /\ (forall s t w1,
        fst (validIfScheduleMatch E self w) = Ok tt ->
        implicit_preparation E self delresource parent w = (Ok (s, Some t), w1) ->
        t ∈ held w ->
        fst out = Raise (Conflict_in_use deluri)
        /\ heap (snd out) = heap w).
Proof. apply deleteCalendarResource_releases. Qed.

(** The timeout path on a concrete world: the lock of the event is held
    elsewhere, the delete answers [CONFLICT] and the event is still there. *)
Example lock_timeout_is_Conflict :
  let busy := mkWorld Sample.resources {[ "ImplicitUIDLock:uid-of-home/a.ics" ]}
                (fun _ => false) [] in
  let out := deleteCalendarResource (Sample.calm (fun _ => true))
               (Sample.request None "home/a.ics" "/home/a.ics" "home" "0"
                  false true)
               "home/a.ics" "/home/a.ics" "home" busy in
  fst out = Raise (Conflict_in_use "/home/a.ics")
  /\ res_exists (heap (snd out) "home/a.ics") = true
  /\ held (snd out) = held busy.
Proof. vm_compute. repeat split. Qed.

(** ** The address-book object delete *)

Lemma deleteAddressBookResource_outcome (E : Env) (self : DeleteResource)
  (delresource deluri parent : string) (w : World) :
  let out := deleteAddressBookResource E self delresource deluri parent w in
  (exists evs, log (snd out) = (log w ++ evs)%list /\ lock_free evs = true)
  /\ held (snd out) = held w
  /\ match fst out with
     | Ok r => fileop_delete E deluri delresource (depth self) = Returned r
     | Raise e =>
         exists f,
           (fileop_delete E deluri delresource (depth self) = Failed f
            \/ exists c, In c (try_block_calls delresource parent w)
                         /\ fails E c = Some f)
           /\ e = match f with
                  | FMemcacheLockTimeoutError => Conflict_in_use deluri
                  | _ => CollaboratorError f
                  end
     end.
Proof.
  unfold deleteAddressBookResource, try_block_calls, captured_size.
  cbv [try_except_MemcacheLockTimeoutError is_MemcacheLockTimeoutError].
  run_collaborators.
  all: split; [trace_witness; reflexivity|].
  all: split; [reflexivity|].
  all: try reflexivity.
  all: eexists; split;
    [ first
        [ left; reflexivity
        | right; eexists; split; [|eassumption];
          cbn; unfold upd;
          repeat match goal with
            | |- context [String.eqb ?a ?b] =>
                destruct (String.eqb_spec a b); [subst|]
            end; cbn; auto ]
    | reflexivity ].
Qed.

Lemma deleteAddressBookResource_timeout (E : Env) (self : DeleteResource)
  (delresource deluri parent : string) (w : World) :
  fileop_delete E deluri delresource (depth self)
    = Failed FMemcacheLockTimeoutError ->
  deleteAddressBookResource E self delresource deluri parent w
  = (Raise (Conflict_in_use deluri), w).
Proof.
  intros Hfail.
  unfold deleteAddressBookResource, try_except_MemcacheLockTimeoutError,
    quota, quotaSize, read, fileop.delete, bind, ret.
  rewrite Hfail.
  destruct (res_quota (heap w delresource)); reflexivity.
Qed.

(** C10, as stated, fails: the handler of [deleteAddressBookResource] is
    reachable without any lock of its own.  The card [v.vcf] is removed,
    [bumpSyncToken] on the address book ends in a
    [MemcacheLockTimeoutError], and the outcome is [CONFLICT]. *)
Lemma Conflict_without_lock : ~ addressbook_delete_never_Conflict.
Proof.
  intros H.
  apply (H (mkEnv false Sample.join Sample.join (fun _ _ => "addressbooks")
              (fun _ _ _ => Returned (Status responsecode.NO_CONTENT))
              (fun c => match c with
                        | CBumpSyncToken _ => Some FMemcacheLockTimeoutError
                        | _ => None
                        end)
              (fun _ => false) (fun r => "uid-of-" +:+ r)
              (fun _ _ => []) (fun _ _ => []))
           (Sample.request None "book/v.vcf" "/book/v.vcf" "book" "0"
              false true)
           "book/v.vcf" "/book/v.vcf" "book" Sample.world).
  reflexivity.
Qed.

(** C10, amended: [deleteAddressBookResource] takes no lock itself: it logs
    no lock event and leaves the lock table alone.  When it returns, the
    result is the response of the underlying delete; when it raises, the
    underlying delete or one of the calls of the [try] block failed: a
    [MemcacheLockTimeoutError] of that collaborator comes out as the
    [CONFLICT] of the handler, any other failure is propagated as it is;
    and a [MemcacheLockTimeoutError] out of the underlying delete is always
    answered with that [CONFLICT], nothing having changed. *)
Theorem deleteAddressBookResource_Conflict_from_collaborator (E : Env)
  (self : DeleteResource) (delresource deluri parent : string) (w : World) :
  let out := deleteAddressBookResource E self delresource deluri parent w in
  (exists evs, log (snd out) = (log w ++ evs)%list /\ lock_free evs = true)
  /\ held (snd out) = held w
  /\ match fst out with
     | Ok r => fileop_delete E deluri delresource (depth self) = Returned r
     | Raise e =>
         exists f,
           (fileop_delete E deluri delresource (depth self) = Failed f
            \/ exists c, In c (try_block_calls delresource parent w)
                         /\ fails E c = Some f)
           /\ e = match f with
                  | FMemcacheLockTimeoutError => Conflict_in_use deluri
                  | _ => CollaboratorError f
                  end
     end
  /\ (fileop_delete E deluri delresource (depth self)
        = Failed FMemcacheLockTimeoutError ->
      out = (Raise (Conflict_in_use deluri), w)).
Proof.
  intros out.
  destruct (deleteAddressBookResource_outcome E self delresource deluri
              parent w) as (Hlog & Hheld & Hres).
  split; [exact Hlog|]. split; [exact Hheld|]. split; [exact Hres|].
  apply deleteAddressBookResource_timeout.
Qed.

(** In that run the card is gone when the request is answered with
    [CONFLICT], and no lock was ever taken. *)
Example Conflict_after_the_delete :
  let E := mkEnv false Sample.join Sample.join (fun _ _ => "addressbooks")
             (fun _ _ _ => Returned (Status responsecode.NO_CONTENT))
             (fun c => match c with
                       | CBumpSyncToken _ => Some FMemcacheLockTimeoutError
                       | _ => None
                       end)
             (fun _ => false) (fun r => "uid-of-" +:+ r)
             (fun _ _ => []) (fun _ _ => []) in
  let out := deleteAddressBookResource E
               (Sample.request None "book/v.vcf" "/book/v.vcf" "book" "0"
                  false true)
               "book/v.vcf" "/book/v.vcf" "book" Sample.world in
  fst out = Raise (Conflict_in_use "/book/v.vcf")
  /\ res_exists (heap (snd out) "book/v.vcf") = false
  /\ log (snd out)
     = [Deleted "/book/v.vcf" "book/v.vcf" "0" (Status responsecode.NO_CONTENT)].
Proof. vm_compute. repeat split. Qed.

(** ** The shape of a calendar-object delete

    Whatever happens, [deleteCalendarResource] either leaves before the
    underlying delete (precondition, scheduler, sharee check, timeout of
    the acquisition), having changed no resource, or it runs
    [delete_and_schedule] once, between events that change no resource; its
    outcome is then that of [delete_and_schedule], a lock timeout raised in
    there coming out as [CONFLICT]. *)

Lemma locked_section_shape (E : Env) (self : DeleteResource)
  (delresource deluri parent : string) (myquota : option Z) (old_size : Z)
  (scheduler lock : option string) (w : World) (out : Res Response * World) :
  (forall t, lock = Some t -> hasLock w t = false) ->
  locked_section E self delresource deluri parent myquota old_size
    scheduler lock w = out ->
  (out = (Raise (Conflict_in_use deluri), w)
   /\ exists t, lock = Some t /\ t ∈ held w)
  \/ exists w2 pre post,
       let body := delete_and_schedule E self delresource deluri parent
                     myquota old_size scheduler w2 in
       heap w2 = heap w
       /\ log w2 = (log w ++ pre)%list
       /\ silent pre = true /\ silent post = true
       /\ fst out = on_timeout deluri (fst body)
       /\ heap (snd out) = heap (snd body)
       /\ log (snd out) = (log (snd body) ++ post)%list.
Proof.
  intros Hfresh Hout. unfold locked_section in Hout.
  unfold try_finally in Hout. fold (Conflict_in_use deluri) in Hout.
  rewrite try_except_timeout_Conflict in Hout.
  destruct lock as [t|]; cbv [acquire_if clean_if] in Hout;
    unfold bind at 1 2 in Hout.
  - specialize (Hfresh t eq_refl). cbv [MemcacheLock.acquire] in Hout.
    destruct (bool_decide_reflect (t ∈ held w)) as [Hin|Hnotin].
    + left. cbv [on_timeout MemcacheLock.clean] in Hout. cbn in Hout.
      rewrite Hfresh in Hout.
      subst out. split; [reflexivity|]. exists t. split; [reflexivity|assumption].
    + right. set (w2 := emit (LockAcquired t) _) in Hout.
      exists w2, [LockAcquired t], [LockReleased t]. cbv zeta.
      pose proof (delete_and_schedule_locks E self delresource deluri parent
                    myquota old_size scheduler w2) as Hbody.
      cbv zeta in Hbody.
      destruct (delete_and_schedule E self delresource deluri parent myquota
                  old_size scheduler w2) as [r w3].
      cbn [fst snd] in Hbody, Hout |- *.
      destruct Hbody as (Hheld & Hflag & _).
      assert (Hclean : MemcacheLock.clean t w3 = MemcacheLock.release t w3).
      { unfold MemcacheLock.clean. rewrite Hflag. subst w2. cbn.
        rewrite String.eqb_refl. reflexivity. }
      assert (Hfin : out = (on_timeout deluri r,
                            snd (MemcacheLock.release t w3))).
      { rewrite Hclean in Hout. subst out. reflexivity. }
      clear Hout. subst out. subst w2. repeat split.
  - right. cbv [ret] in Hout. exists w, [], []. cbv zeta.
    pose proof (delete_and_schedule_locks E self delresource deluri parent
                  myquota old_size scheduler w) as Hbody.
    cbv zeta in Hbody.
    destruct (delete_and_schedule E self delresource deluri parent myquota
                old_size scheduler w) as [r w3].
    cbn [fst snd] in Hbody, Hout |- *.
    assert (Hfin : out = (on_timeout deluri r, w3)).
    { subst out. reflexivity. }
    clear Hout Hbody. subst out. cbn [fst snd]. rewrite !app_nil_r.
    repeat split.
Qed.

Lemma deleteCalendarResource_shape (E : Env) (self : DeleteResource)
  (delresource deluri parent : string) (w : World) :
  let out := deleteCalendarResource E self delresource deluri parent w in
  (exists e evs, fst out = Raise e
                 /\ heap (snd out) = heap w
                 /\ log (snd out) = (log w ++ evs)%list
                 /\ silent evs = true)
  \/ exists w2 pre post,
       let body := delete_and_schedule E self delresource deluri parent
                     (res_quota (heap w delresource))
                     (captured_size w delresource)
                     (scheduler_of self delresource) w2 in
       heap w2 = heap w
       /\ log w2 = (log w ++ pre)%list
       /\ silent pre = true /\ silent post = true
       /\ fst out = on_timeout deluri (fst body)
       /\ heap (snd out) = heap (snd body)
       /\ log (snd out) = (log (snd body) ++ post)%list.
Proof.
  intros out. subst out. rewrite deleteCalendarResource_stages.
  destruct (fst (validIfScheduleMatch E self w)) as [[]|e] eqn:Hvalid.
  2: { left. exists e, []. cbn. rewrite app_nil_r. repeat split. }
  cbv zeta.
  pose proof (implicit_preparation_effect E self delresource parent w) as Hprep.
  cbv zeta in Hprep.
  destruct (implicit_preparation E self delresource parent w)
    as [[[scheduler lock]|e] w1]; cbn [fst snd] in Hprep |- *;
    destruct Hprep as (Hheap & Hheld & (evs1 & Hlog1 & _ & Hsil1) & Hfresh & Hsched).
  2: { left. exists e, evs1. repeat split; assumption. }
  assert (Hfresh' : forall t, lock = Some t -> hasLock w1 t = false).
  { intros t ->. apply (Hfresh scheduler t eq_refl). }
  rewrite (Hsched scheduler lock eq_refl).
  fold (captured_size w delresource).
  destruct (locked_section_shape E self delresource deluri parent
              (res_quota (heap w delresource)) (captured_size w delresource)
              (scheduler_of self delresource) lock w1 _ Hfresh' eq_refl)
    as [[Hout _]|(w2 & pre & post & Hshape)].
  - left. rewrite Hout. exists (Conflict_in_use deluri), evs1.
    repeat split; assumption.
  - right. cbv zeta in Hshape.
    destruct Hshape as (Hheap2 & Hlog2 & Hpre & Hpost & Hfst & Hheap3 & Hlog3).
    exists w2, (evs1 ++ pre)%list, post. cbv zeta.
    repeat split; try assumption.
    + congruence.
    + rewrite Hlog2, Hlog1, <- app_assoc. reflexivity.
    + unfold silent. rewrite forallb_app. apply andb_true_iff. split; assumption.
Qed.

(** ** The notification step *)

Lemma notified_after_delete_silent_l (b : bool) (a c : list Event) :
  silent a = true ->
  notified_after_delete b (a ++ c) = notified_after_delete b c.
Proof.
  induction a as [|e a IH]; [reflexivity|].
  cbn [silent forallb]. intros H. apply andb_true_iff in H as [He Ha].
  destruct e as [[]| | |]; cbn in He |- *; try discriminate; auto.
Qed.

Lemma notified_after_delete_silent_r (post : list Event) :
  silent post = true ->
  forall (c : list Event) (b : bool),
    notified_after_delete b (c ++ post) = notified_after_delete b c.
Proof.
  intros Hpost. induction c as [|e c IH]; intros b.
  - cbn [app]. rewrite <- (app_nil_r post).
    apply notified_after_delete_silent_l. assumption.
  - destruct e as [[]| | |]; cbn; rewrite ?IH; reflexivity.
Qed.

Lemma silent_not_notified (evs : list Event) (s : string) :
  silent evs = true -> ~ In (Called (CDoImplicitScheduling s)) evs.
Proof.
  unfold silent. rewrite forallb_forall. intros H Hin.
  specialize (H _ Hin). discriminate.
Qed.

Lemma delete_and_schedule_notifies (E : Env) (self : DeleteResource)
  (delresource deluri parent : string) (myquota : option Z) (old_size : Z)
  (scheduler : option string) (w : World) :
  let body := delete_and_schedule E self delresource deluri parent myquota
                old_size scheduler w in
  exists evs,
    log (snd body) = (log w ++ evs)%list
    /\ notified_after_delete false evs = true
    /\ (forall s, In (Called (CDoImplicitScheduling s)) evs ->
          scheduler = Some s
          /\ negb (internal_request self) && allowImplicitSchedule self = true)
    /\ (forall s r,
          scheduler = Some s ->
          negb (internal_request self) && allowImplicitSchedule self = true ->
          fst body = Ok r -> is_NO_CONTENT r = true ->
          In (Called (CDoImplicitScheduling s)) evs).
Proof.
  unfold delete_and_schedule. run_collaborators.
  all: trace_witness.
  all: split;
    [ cbn; try reflexivity;
      match goal with H : is_NO_CONTENT _ = true |- _ => rewrite H; reflexivity end
    | ].
  all: split;
    [ intros sch Hin; cbn in Hin;
      repeat (destruct Hin as [Hin|Hin]; try discriminate);
      try contradiction;
      injection Hin as <-; split; first [reflexivity | assumption]
    | ].
  all: intros sch resp Hs Hflag Hok Hnc; try discriminate;
    try (injection Hok as <-); try (injection Hs as <-); try congruence.
  all: cbn; tauto.
Qed.

(** C1, counterexample: the evaluation reports that no notification is
    needed for [a.ics], the delete succeeds, and [doImplicitScheduling] is
    invoked all the same: the guard of the call tests the scheduler object,
    which exists for every client request with implicit scheduling allowed. *)
Lemma notified_without_need : ~ notified_only_when_needed.
Proof.
  intros H.
  destruct (H (Sample.calm (fun _ => false))
              (Sample.request None "home/a.ics" "/home/a.ics" "home" "0"
                 false true)
              "home/a.ics" "/home/a.ics" "home" Sample.world eq_refl eq_refl)
    as [Hneeded _].
  - vm_compute. do 6 right. left. reflexivity.
  - discriminate Hneeded.
Qed.

(** C1, amended: in every call of [deleteCalendarResource],
    [doImplicitScheduling] is invoked only on a client request with implicit
    scheduling allowed, only for the resource being deleted, and only after
    the underlying delete has returned [NO_CONTENT]; and on such a request it
    is invoked whenever the operation returns [NO_CONTENT], whatever
    [testImplicitSchedulingDELETE] reported. *)
Theorem notified_only_after_delete (E : Env) (self : DeleteResource)
  (delresource deluri parent : string) (w : World) :
  let out := deleteCalendarResource E self delresource deluri parent w in
  exists evs,
    log (snd out) = (log w ++ evs)%list
    /\ notified_after_delete false evs = true
    /\ (forall s, In (Called (CDoImplicitScheduling s)) evs ->
          s = delresource
          /\ internal_request self = false
          /\ allowImplicitSchedule self = true)
    /\ (forall r,
          internal_request self = false ->
          allowImplicitSchedule self = true ->
          fst out = Ok r -> is_NO_CONTENT r = true ->
          In (Called (CDoImplicitScheduling delresource)) evs).
Proof.
  intros out.
  destruct (deleteCalendarResource_shape E self delresource deluri parent w)
    as [(e & evs & Hfst & _ & Hlog & Hsil)|(w2 & pre & post & Hshape)];
    fold out in Hfst, Hlog || fold out in Hshape.
  - exists evs. split; [assumption|]. split.
    + rewrite <- (app_nil_r evs).
      rewrite notified_after_delete_silent_l by assumption. reflexivity.
    + split.
      * intros s Hin. destruct (silent_not_notified _ _ Hsil Hin).
      * intros r _ _ Hok. rewrite Hfst in Hok. discriminate.
  - cbv zeta in Hshape.
    destruct Hshape as (_ & Hlog2 & Hpre & Hpost & Hfst & _ & Hlog3).
    destruct (delete_and_schedule_notifies E self delresource deluri parent
                (res_quota (heap w delresource)) (captured_size w delresource)
                (scheduler_of self delresource) w2)
      as (evs & Hlog & Hafter & Honly & Hwhen).
    exists (pre ++ evs ++ post)%list. split.
    { rewrite Hlog3, Hlog, Hlog2, <- !app_assoc. reflexivity. }
    split.
    { rewrite notified_after_delete_silent_l by assumption.
      rewrite notified_after_delete_silent_r by assumption. assumption. }
    split.
    + intros s Hin. apply in_app_or in Hin as [Hin|Hin].
      { destruct (silent_not_notified _ _ Hpre Hin). }
      apply in_app_or in Hin as [Hin|Hin].
      2: { destruct (silent_not_notified _ _ Hpost Hin). }
      destruct (Honly s Hin) as [Hsched Hflag].
      unfold scheduler_of in Hsched. rewrite Hflag in Hsched.
      injection Hsched as <-.
      apply andb_true_iff in Hflag as [Hint Hal].
      apply negb_true_iff in Hint. auto.
    + intros r Hint Hal Hok Hnc.
      apply in_or_app. right. apply in_or_app. left.
      apply (Hwhen delresource r).
      * unfold scheduler_of. rewrite Hint, Hal. reflexivity.
      * rewrite Hint, Hal. reflexivity.
      * apply (on_timeout_Ok deluri). rewrite <- Hfst. assumption.
      * assumption.
Qed.

(** ** Quota *)

Lemma silent_no_quota_adjust (evs : list Event) :
  silent evs = true -> adjusts_quota evs = false.
Proof.
  unfold silent, adjusts_quota.
  induction evs as [|e evs IH]; [reflexivity|].
  cbn [forallb existsb].
  intros H. apply andb_true_iff in H as [He Hs].
  rewrite (IH Hs). destruct e as [[]| | |]; cbn in He |- *; congruence.
Qed.

Lemma adjusts_quota_app (a b : list Event) :
  adjusts_quota (a ++ b) = adjusts_quota a || adjusts_quota b.
Proof. apply existsb_app. Qed.

Lemma silent_not_quota_adjust (evs : list Event) (x : string) (delta : Z) :
  silent evs = true -> ~ In (Called (CQuotaSizeAdjust x delta)) evs.
Proof.
  unfold silent. rewrite forallb_forall. intros H Hin.
  specialize (H _ Hin). discriminate.
Qed.

Lemma delete_and_schedule_quota (E : Env) (self : DeleteResource)
  (delresource deluri parent : string) (myquota : option Z) (old_size : Z)
  (scheduler : option string) (w : World) :
  let body := delete_and_schedule E self delresource deluri parent myquota
                old_size scheduler w in
  exists evs,
    log (snd body) = (log w ++ evs)%list
    /\ (forall x delta,
          In (Called (CQuotaSizeAdjust x delta)) evs ->
          x = delresource /\ delta = - old_size /\ myquota <> None
          /\ exists r, fileop_delete E deluri delresource (depth self)
                       = Returned r)
    /\ (forall x,
          res_quotaUsed (heap (snd body) x)
          = res_quotaUsed (heap w x)
            - (if adjusts_quota evs && String.eqb delresource x
               then old_size else 0))
    /\ (forall r, fst body = Ok r -> myquota <> None ->
                  adjusts_quota evs = true).
Proof.
  unfold delete_and_schedule. run_collaborators.
  all: trace_witness.
  all: split;
    [ intros x delta Hin; cbn in Hin;
      repeat (destruct Hin as [Hin|Hin]; try discriminate);
      try contradiction;
      injection Hin as <- <-; repeat split; try discriminate; eauto
    | ].
  all: split; [intros x; cbn [adjusts_quota existsb is_quota_adjust orb andb];
               heap_cases|].
  all: intros resp Hok Hq; try discriminate; try reflexivity; congruence.
Qed.

Lemma deleteResource_quota (E : Env) (self : DeleteResource)
  (delresource deluri parent : string) (w : World) :
  quota_rule E self delresource deluri w
    (deleteResource E self delresource deluri parent w).
Proof.
  unfold quota_rule, deleteResource, captured_size. run_collaborators.
  all: trace_witness.
  all: split;
    [ intros x delta Hin; cbn in Hin;
      repeat (destruct Hin as [Hin|Hin]; try discriminate);
      try contradiction;
      injection Hin as <- <-; repeat split; try discriminate; eauto
    | ].
  all: split; [intros x; cbn [adjusts_quota existsb is_quota_adjust orb andb];
               heap_cases|].
  all: intros resp Hok Hq; try discriminate; try reflexivity; congruence.
Qed.

Lemma deleteCalendarResource_quota (E : Env) (self : DeleteResource)
  (delresource deluri parent : string) (w : World) :
  quota_rule E self delresource deluri w
    (deleteCalendarResource E self delresource deluri parent w).
Proof.
  unfold quota_rule.
  destruct (deleteCalendarResource_shape E self delresource deluri parent w)
    as [(e & evs & Hfst & Hheap & Hlog & Hsil)|(w2 & pre & post & Hshape)].
  - exists evs. split; [assumption|]. split.
    { intros x delta Hin. destruct (silent_not_quota_adjust _ _ _ Hsil Hin). }
    split.
    { intros x. rewrite Hheap, (silent_no_quota_adjust _ Hsil). cbn. lia. }
    intros r Hok. rewrite Hfst in Hok. discriminate.
  - cbv zeta in Hshape.
    destruct Hshape as (Hheap2 & Hlog2 & Hpre & Hpost & Hfst & Hheap3 & Hlog3).
    destruct (delete_and_schedule_quota E self delresource deluri parent
                (res_quota (heap w delresource)) (captured_size w delresource)
                (scheduler_of self delresource) w2)
      as (evs & Hlog & Honly & Hused & Hwhen).
    exists (pre ++ evs ++ post)%list. split.
    { rewrite Hlog3, Hlog, Hlog2, <- !app_assoc. reflexivity. }
    split.
    { intros x delta Hin. apply in_app_or in Hin as [Hin|Hin].
      { destruct (silent_not_quota_adjust _ _ _ Hpre Hin). }
      apply in_app_or in Hin as [Hin|Hin].
      2: { destruct (silent_not_quota_adjust _ _ _ Hpost Hin). }
      apply Honly. assumption. }
    split.
    { intros x. rewrite Hheap3, Hused, Hheap2, !adjusts_quota_app.
      rewrite (silent_no_quota_adjust _ Hpre), (silent_no_quota_adjust _ Hpost).
      rewrite orb_false_r. reflexivity. }
    intros r Hok Hq. rewrite !adjusts_quota_app.
    rewrite (Hwhen r); [rewrite orb_true_r; reflexivity| |assumption].
    apply (on_timeout_Ok deluri). rewrite <- Hfst. assumption.
Qed.

(** C3, counterexample: the underlying delete of the collection [home]
    answers with a multi-status (one child could not be removed), and the
    recorded usage of [home] still drops by its whole size, from 140 to 0. *)
Lemma quota_adjusted_on_failure : ~ quota_adjusted_only_on_success.
Proof.
  intros H.
  pose (partial := MultiStatusResponse (<["/home/a.ics" := 403]> ∅)).
  destruct (H (Sample.with_delete (fun _ => false)
                 (fun _ _ _ => Returned partial))
              (Sample.request None "home" "/home" "calendars" "infinity"
                 false true)
              "home" "/home" "calendars" Sample.world partial
              eq_refl eq_refl) as [Hres _].
  specialize (Hres "home"). vm_compute in Hres. discriminate Hres.
Qed.

(** C3, amended: in [deleteResource] and in [deleteCalendarResource] the
    quota adjustment is made only with quota support, only by minus the size
    captured before the delete, and only once the underlying delete has
    returned, but whatever it returned: [NO_CONTENT] or not, the usage is
    then lowered by the captured size.  Usage is untouched when there is no
    quota support or the delete (or a step before it) raised. *)
Theorem quota_adjusted_whenever_delete_returns (E : Env)
  (self : DeleteResource) (delresource deluri parent : string) (w : World) :
  quota_rule E self delresource deluri w
    (deleteResource E self delresource deluri parent w)
  /\ quota_rule E self delresource deluri w
       (deleteCalendarResource E self delresource deluri parent w).
Proof.
  split; [apply deleteResource_quota|apply deleteCalendarResource_quota].
Qed.

(** On the sample world: a delete that returns a multi-status still lowers
    the usage. *)
Example quota_lowered_on_multistatus :
  let partial := MultiStatusResponse (<["/home/a.ics" := 403]> ∅) in
  let out := deleteResource
               (Sample.with_delete (fun _ => false)
                  (fun _ _ _ => Returned partial))
               (Sample.request None "home" "/home" "calendars" "infinity"
                  false true)
               "home" "/home" "calendars" Sample.world in
  fst out = Ok partial
  /\ res_quotaUsed (heap Sample.world "home") = 140
  /\ res_quotaUsed (heap (snd out) "home") = 0
  /\ res_syncToken (heap (snd out) "home") = 7.
Proof. vm_compute. repeat split. Qed.

(** ** Sync tokens *)

Lemma silent_no_bump (r : string) (evs : list Event) :
  silent evs = true -> bumps r evs = false.
Proof.
  unfold silent, bumps.
  induction evs as [|e evs IH]; [reflexivity|].
  cbn [forallb existsb].
  intros H. apply andb_true_iff in H as [He Hs].
  rewrite (IH Hs). destruct e as [[]| | |]; cbn in He |- *; congruence.
Qed.

Lemma bumps_app (r : string) (a b : list Event) :
  bumps r (a ++ b) = bumps r a || bumps r b.
Proof. apply existsb_app. Qed.

Lemma silent_not_bump (evs : list Event) (x : string) :
  silent evs = true -> ~ In (Called (CBumpSyncToken x)) evs.
Proof.
  unfold silent. rewrite forallb_forall. intros H Hin.
  specialize (H _ Hin). discriminate.
Qed.

Lemma delete_and_schedule_synctoken (E : Env) (self : DeleteResource)
  (delresource deluri parent : string) (myquota : option Z) (old_size : Z)
  (scheduler : option string) (w : World) :
  synctoken_rule E self delresource deluri parent false w
    (delete_and_schedule E self delresource deluri parent myquota old_size
       scheduler w).
Proof.
  unfold synctoken_rule, delete_and_schedule. run_collaborators.
  all: bump_leaves.
Qed.

Lemma deleteResource_synctoken (E : Env) (self : DeleteResource)
  (delresource deluri parent : string) (w : World) :
  synctoken_rule E self delresource deluri parent true w
    (deleteResource E self delresource deluri parent w).
Proof.
  unfold synctoken_rule, deleteResource. run_collaborators.
  all: try match goal with
           | H : is_pseudo_calendar_collection _ = _ |- _ => normalise_pseudo H
           end.
  all: unfold is_pseudo_calendar_collection.
  all: bump_leaves.
Qed.

Lemma deleteCalendarResource_synctoken (E : Env) (self : DeleteResource)
  (delresource deluri parent : string) (w : World) :
  synctoken_rule E self delresource deluri parent false w
    (deleteCalendarResource E self delresource deluri parent w).
Proof.
  unfold synctoken_rule.
  destruct (deleteCalendarResource_shape E self delresource deluri parent w)
    as [(e & evs & Hfst & Hheap & Hlog & Hsil)|(w2 & pre & post & Hshape)].
  - exists evs. split; [assumption|]. split.
    { intros x Hin. destruct (silent_not_bump _ _ Hsil Hin). }
    split.
    { intros x. rewrite Hheap, (silent_no_bump _ _ Hsil). cbn. lia. }
    intros r Hok. rewrite Hfst in Hok. discriminate.
  - cbv zeta in Hshape.
    destruct Hshape as (Hheap2 & Hlog2 & Hpre & Hpost & Hfst & Hheap3 & Hlog3).
    destruct (delete_and_schedule_synctoken E self delresource deluri parent
                (res_quota (heap w delresource)) (captured_size w delresource)
                (scheduler_of self delresource) w2)
      as (evs & Hlog & Honly & Htoken & Hwhen).
    exists (pre ++ evs ++ post)%list. split.
    { rewrite Hlog3, Hlog, Hlog2, <- !app_assoc. reflexivity. }
    split.
    { intros x Hin. apply in_app_or in Hin as [Hin|Hin].
      { destruct (silent_not_bump _ _ Hpre Hin). }
      apply in_app_or in Hin as [Hin|Hin].
      2: { destruct (silent_not_bump _ _ Hpost Hin). }
      destruct (Honly x Hin) as (Hx & Hdel & _).
      repeat split; try assumption. discriminate. }
    split.
    { intros x. rewrite Hheap3, Htoken, Hheap2, !bumps_app.
      rewrite (silent_no_bump _ _ Hpre), (silent_no_bump _ _ Hpost).
      rewrite orb_false_r. reflexivity. }
    intros r Hok Hnc _. rewrite !bumps_app.
    rewrite (Hwhen r); [rewrite orb_true_r; reflexivity| | |discriminate].
    + apply (on_timeout_Ok deluri). rewrite <- Hfst. assumption.
    + assumption.
Qed.

Lemma synctoken_rule_grows (E : Env) (self : DeleteResource)
  (delresource deluri parent : string) (b : bool) (w : World)
  (out : Res Response * World) :
  synctoken_rule E self delresource deluri parent b w out ->
  tokens_grow w (snd out).
Proof.
  intros (evs & _ & _ & Htoken & _) x. rewrite Htoken.
  destruct (bumps parent evs && String.eqb parent x); lia.
Qed.

(** The loop over the children never raises: what a child raises is
    caught and recorded. *)
Lemma deleteCalendar_children_returns (E : Env) (self : DeleteResource)
  (delresource deluri : string) (names : list string) :
  forall (errors : ResponseQueue) (w : World),
    exists errors' w',
      deleteCalendar_children E self delresource deluri names errors w
      = (Ok errors', w')
      /\ tokens_grow w w'
      /\ held w' = held w.
Proof.
  induction names as [|childname rest IH]; intros errors w.
  - exists errors, w. repeat split. intros x. lia.
  - cbn [deleteCalendar_children]. unfold bind at 1.
    unfold try_except_all, bind at 1, ret.
    pose proof (deleteCalendarResource_synctoken E self
                  (locateChildResource E delresource childname)
                  (joinURL E deluri childname) delresource w) as Hrule.
    apply synctoken_rule_grows in Hrule.
    pose proof (deleteCalendarResource_releases E self
                  (locateChildResource E delresource childname)
                  (joinURL E deluri childname) delresource w) as [Hheld _].
    destruct (deleteCalendarResource E self
                (locateChildResource E delresource childname)
                (joinURL E deluri childname) delresource w) as [[r|e] w1];
      cbn [fst snd] in Hrule, Hheld.
    + destruct (IH errors w1) as (errors' & w' & Heq & Hgrow & Hh).
      exists errors', w'. split; [assumption|]. split.
      * intros x. specialize (Hrule x). specialize (Hgrow x). lia.
      * congruence.
    + destruct (IH (Queue.add errors (joinURL E deluri childname)
                      responsecode.BAD_REQUEST) w1)
        as (errors' & w' & Heq & Hgrow & Hh).
      exists errors', w'. split; [assumption|]. split.
      * intros x. specialize (Hrule x). specialize (Hgrow x). lia.
      * congruence.
Qed.

Lemma deleteCalendar_stages (E : Env) (self : DeleteResource)
  (delresource deluri parent : string) (w : World) :
  res_isDefaultCalendar (heap w delresource) = false ->
  depth self = "infinity" ->
  res_isVirtualShare (heap w delresource) = false ->
  deleteCalendar E self delresource deluri parent w =
  match deleteCalendar_children E self delresource deluri
          (res_children (heap w delresource))
          (Queue.new deluri "DELETE" responsecode.NO_CONTENT) w with
  | (Ok errors, wl) =>
      remove_collection E self delresource deluri parent errors wl
  | (Raise e, wl) => (Raise e, wl)
  end.
Proof.
  intros Hdef Hd Hv.
  unfold deleteCalendar, isDefaultCalendar, isVirtualShare, listChildren, read.
  unfold bind at 1. rewrite Hdef, Hd, String.eqb_refl. cbn [negb].
  unfold bind at 1. rewrite Hv.
  unfold bind at 1. unfold bind at 1. reflexivity.
Qed.

(** The statements after the loop, once the sharing downgrade and the bump
    of the collection's own token have gone through. *)
Lemma remove_collection_stages (E : Env) (self : DeleteResource)
  (delresource deluri parent : string) (errors : ResponseQueue) (wl : World) :
  (res_isShared (heap wl delresource) = true ->
   fails E (CDowngradeFromShare delresource) = None) ->
  fails E (CBumpSyncToken delresource) = None ->
  remove_collection E self delresource deluri parent errors wl =
  match deleteResource E self delresource deluri parent
          (own_bump delresource (downgraded delresource wl)) with
  | (Raise e, wc) => (Raise e, wc)
  | (Ok more_responses, wc) =>
      let response := Queue.response (merge_MultiStatus errors more_responses) in
      if is_NO_CONTENT response then
        match fails E (CDeletedCalendar delresource) with
        | Some f => (Raise (CollaboratorError f), wc)
        | None => (Ok response, emit (Called (CDeletedCalendar delresource)) wc)
        end
      else (Ok response, wc)
  end.
Proof.
  intros Hdown Hbump. unfold remove_collection, own_bump, downgraded.
  cbv [isShared read when downgradeFromShare call bumpSyncToken bind ret
       deletedCalendar].
  rewrite Hbump.
  destruct (res_isShared (heap wl delresource));
    [rewrite (Hdown eq_refl)|].
  all: match goal with
       | |- context [deleteResource ?a ?b ?c ?d ?e ?w] =>
           destruct (deleteResource a b c d e w) as [[more|e0] wc]
       end; [|reflexivity].
  all: cbv zeta;
    destruct (is_NO_CONTENT (Queue.response (merge_MultiStatus errors more)));
    [destruct (fails E (CDeletedCalendar delresource))|]; reflexivity.
Qed.

Lemma token_own_bump (d : string) (w : World) :
  res_syncToken (heap (own_bump d w) d) = res_syncToken (heap w d) + 1.
Proof. unfold own_bump. cbn. unfold upd. rewrite String.eqb_refl. reflexivity. Qed.

Lemma token_downgraded (d x : string) (w : World) :
  res_syncToken (heap (downgraded d w) x) = res_syncToken (heap w x).
Proof.
  unfold downgraded. destruct (res_isShared (heap w d)); [|reflexivity].
  cbn. unfold upd. destruct (String.eqb_spec d x) as [->|]; reflexivity.
Qed.

Lemma log_own_bump (d : string) (w : World) :
  log (own_bump d (downgraded d w))
  = (log w ++ (if res_isShared (heap w d)
               then [Called (CDowngradeFromShare d)] else [])
       ++ [Called (CBumpSyncToken d)])%list.
Proof.
  unfold own_bump, downgraded. destruct (res_isShared (heap w d)); cbn.
  - rewrite <- app_assoc. reflexivity.
  - reflexivity.
Qed.

Lemma deleteCalendar_own_bump (E : Env) (self : DeleteResource)
  (delresource deluri parent : string) (w : World) :
  res_isDefaultCalendar (heap w delresource) = false ->
  depth self = "infinity" ->
  res_isVirtualShare (heap w delresource) = false ->
  fails E (CDowngradeFromShare delresource) = None ->
  fails E (CBumpSyncToken delresource) = None ->
  let out := deleteCalendar E self delresource deluri parent w in
  exists errors wl rest,
    deleteCalendar_children E self delresource deluri
      (res_children (heap w delresource))
      (Queue.new deluri "DELETE" responsecode.NO_CONTENT) w = (Ok errors, wl)
    /\ log (snd out)
       = (log (own_bump delresource (downgraded delresource wl)) ++ rest)%list
    /\ (forall x, In (Called (CBumpSyncToken x)) rest ->
          x = parent /\ delete_succeeds E self delresource deluri)
    /\ res_syncToken (heap w delresource) + 1
       <= res_syncToken (heap (snd out) delresource).
Proof.
  intros Hdef Hd Hv Hdown Hbump out. subst out.
  rewrite deleteCalendar_stages by assumption.
  destruct (deleteCalendar_children_returns E self delresource deluri
              (res_children (heap w delresource))
              (Queue.new deluri "DELETE" responsecode.NO_CONTENT) w)
    as (errors & wl & Hloop & Hgrow & _).
  rewrite Hloop. exists errors, wl.
  rewrite remove_collection_stages by auto.
  set (wb := own_bump delresource (downgraded delresource wl)).
  pose proof (deleteResource_synctoken E self delresource deluri parent wb)
    as Hrule.
  pose proof (synctoken_rule_grows _ _ _ _ _ _ _ _ Hrule delresource) as Hmono.
  destruct Hrule as (evs & Hlog & Honly & _ & _).
  assert (Hwb : res_syncToken (heap w delresource) + 1
                <= res_syncToken (heap wb delresource)).
  { subst wb. rewrite token_own_bump, token_downgraded.
    specialize (Hgrow delresource). lia. }
  assert (Hrest : forall x, In (Called (CBumpSyncToken x)) evs ->
                            x = parent /\ delete_succeeds E self delresource deluri).
  { intros x Hin. destruct (Honly x Hin) as (Hx & Hdel & _). auto. }
  destruct (deleteResource E self delresource deluri parent wb)
    as [[more|e] wc]; cbn [fst snd] in Hlog, Hmono; cbv beta iota;
    cbn [fst snd].
  2: { exists evs. split; [reflexivity|]. split; [assumption|]. split; [exact Hrest|]. exact (Z.le_trans _ _ _ Hwb Hmono). }
  cbv zeta.
  destruct (is_NO_CONTENT (Queue.response (merge_MultiStatus errors more))).
  2: { exists evs. split; [reflexivity|]. split; [assumption|]. split; [exact Hrest|].
    exact (Z.le_trans _ _ _ Hwb Hmono). }
  destruct (fails E (CDeletedCalendar delresource)).
  { exists evs. split; [reflexivity|]. split; [assumption|]. split; [exact Hrest|].
    exact (Z.le_trans _ _ _ Hwb Hmono). }
  exists (evs ++ [Called (CDeletedCalendar delresource)])%list.
  cbn [fst snd log emit heap]. split; [reflexivity|]. split.
  { rewrite Hlog, <- app_assoc. reflexivity. }
  split; [|exact (Z.le_trans _ _ _ Hwb Hmono)].
  intros x Hin. apply in_app_or in Hin as [Hin|[Hin|[]]];
    [apply Hrest; assumption|discriminate].
Qed.

(** C2, counterexample: the removal of the childless calendar [empty]
    raises, and the calendar's own token has gone from 2 to 3 all the same:
    [deleteCalendar] bumps it before it calls [deleteResource]. *)
Lemma own_token_bumped_before_removal : ~ synctoken_only_on_success.
Proof.
  intros H.
  destruct (H (Sample.with_delete (fun _ => false)
                 (fun _ _ _ => Failed (FHTTPError responsecode.FORBIDDEN)))
              (Sample.request None "empty" "/empty" "calendars" "infinity"
                 false true)
              "empty" "/empty" "calendars" Sample.world) as [_ Hcal].
  destruct Hcal as (r & Hr & _).
  - reflexivity.
  - vm_compute. discriminate.
  - discriminate Hr.
Qed.

(** C2, amended: in [deleteResource] and in [deleteCalendarResource] the
    parent's [bumpSyncToken] is called only after the underlying delete
    returned [NO_CONTENT] (in [deleteResource] only for a calendar-like
    parent), the parent's token then advances by exactly one, and every
    token is untouched when the delete returns anything else or raises.  In
    [deleteCalendar], once the default-calendar, depth and virtual-share
    tests are passed and the downgrade and the bump themselves go through,
    the collection's own [bumpSyncToken] is called after the loop over the
    children and before the removal of the collection is attempted: its
    token ends at least one above where it started, whatever the removal
    then returns, and the only later bump is the parent's, made on a
    successful removal. *)
Theorem synctoken_advances (E : Env) (self : DeleteResource)
  (delresource deluri parent : string) (w : World) :
  synctoken_rule E self delresource deluri parent true w
    (deleteResource E self delresource deluri parent w)
  /\ synctoken_rule E self delresource deluri parent false w
       (deleteCalendarResource E self delresource deluri parent w)
  /\ (res_isDefaultCalendar (heap w delresource) = false ->
      depth self = "infinity" ->
      res_isVirtualShare (heap w delresource) = false ->
      fails E (CDowngradeFromShare delresource) = None ->
      fails E (CBumpSyncToken delresource) = None ->
      let out := deleteCalendar E self delresource deluri parent w in
      exists errors wl rest,
        deleteCalendar_children E self delresource deluri
          (res_children (heap w delresource))
          (Queue.new deluri "DELETE" responsecode.NO_CONTENT) w
        = (Ok errors, wl)
        /\ log (snd out)
           = (log (own_bump delresource (downgraded delresource wl)) ++ rest)%list
        /\ (forall x, In (Called (CBumpSyncToken x)) rest ->
              x = parent /\ delete_succeeds E self delresource deluri)
        /\ res_syncToken (heap w delresource) + 1
           <= res_syncToken (heap (snd out) delresource)).
Proof.
  split; [apply deleteResource_synctoken|].
  split; [apply deleteCalendarResource_synctoken|].
  apply deleteCalendar_own_bump.
Qed.

(** On the sample world: the removal of [empty] is refused and its token
    has still advanced; a refused delete of an event leaves the token of
    its calendar alone. *)
Example synctoken_on_refused_removal :
  let E := Sample.with_delete (fun _ => false)
             (fun _ _ _ => Failed (FHTTPError responsecode.FORBIDDEN)) in
  let cal := deleteCalendar E
               (Sample.request None "empty" "/empty" "calendars" "infinity"
                  false true)
               "empty" "/empty" "calendars" Sample.world in
  let ev := deleteCalendarResource E
              (Sample.request None "home/a.ics" "/home/a.ics" "home" "0"
                 false true)
              "home/a.ics" "/home/a.ics" "home" Sample.world in
  fst cal = Raise (CollaboratorError (FHTTPError responsecode.FORBIDDEN))
  /\ res_syncToken (heap Sample.world "empty") = 2
  /\ res_syncToken (heap (snd cal) "empty") = 3
  /\ res_syncToken (heap (snd ev) "home") = 7.
Proof. vm_compute. repeat split. Qed.

(** ** Failures of children *)

Lemma child_outcomes_urls (E : Env) (self : DeleteResource)
  (delresource deluri : string) (names : list string) :
  forall w, map fst (child_outcomes E self delresource deluri names w)
            = map (joinURL E deluri) names.
Proof.
  induction names as [|n rest IH]; intros w; cbn; [reflexivity|].
  rewrite IH. reflexivity.
Qed.

Lemma failed_children_cons (E : Env) (self : DeleteResource)
  (delresource deluri childname : string) (rest : list string) (w : World) :
  let out := deleteCalendarResource E self
               (locateChildResource E delresource childname)
               (joinURL E deluri childname) delresource w in
  failed_children E self delresource deluri (childname :: rest) w
  = ((if is_Raise (fst out) then [joinURL E deluri childname] else [])
       ++ failed_children E self delresource deluri rest (snd out))%list.
Proof.
  unfold failed_children. cbn.
  destruct (is_Raise _); reflexivity.
Qed.

(** The loop visits every child: it returns the queue with one entry added
    per failed child, and the world is the one all the children leave. *)
Lemma deleteCalendar_children_spec (E : Env) (self : DeleteResource)
  (delresource deluri : string) (names : list string) :
  forall (errors : ResponseQueue) (w : World),
    deleteCalendar_children E self delresource deluri names errors w
    = (Ok (record_failures errors
             (failed_children E self delresource deluri names w)),
       after_children E self delresource deluri names w).
Proof.
  induction names as [|n rest IH]; intros errors w; [reflexivity|].
  rewrite failed_children_cons. cbv zeta.
  cbn [deleteCalendar_children after_children].
  unfold bind at 1. unfold try_except_all, bind at 1, ret.
  destruct (deleteCalendarResource E self (locateChildResource E delresource n)
              (joinURL E deluri n) delresource w) as [[r|e] w1];
    cbn [fst snd is_Raise]; rewrite IH; reflexivity.
Qed.

Lemma failed_children_sublist (E : Env) (self : DeleteResource)
  (delresource deluri : string) (names : list string) (w : World) :
  failed_children E self delresource deluri names w
    `sublist_of` map (joinURL E deluri) names.
Proof.
  revert w. induction names as [|n rest IH]; intros w.
  - constructor.
  - rewrite failed_children_cons. cbv zeta. cbn [map].
    destruct (is_Raise _); cbn [app].
    + apply sublist_skip, IH.
    + apply sublist_cons, IH.
Qed.

Lemma record_failures_lookup (urls : list string) :
  forall (q : ResponseQueue) (u : string),
    responses (record_failures q urls) !! u
    = if decide (u ∈ urls) then Some responsecode.BAD_REQUEST
      else responses q !! u.
Proof.
  induction urls as [|a urls IH]; intros q u.
  - cbn. destruct (decide (u ∈ [])) as [Hin|]; [|reflexivity].
    apply elem_of_nil in Hin. contradiction.
  - cbn [record_failures fold_left]. fold (record_failures (Queue.add q a responsecode.BAD_REQUEST) urls).
    rewrite IH. cbn [Queue.add responses].
    destruct (decide (u ∈ urls)) as [Hin|Hnin].
    + rewrite decide_True by (apply elem_of_cons; auto). reflexivity.
    + rewrite lookup_insert.
      destruct (decide (a = u)) as [->|Hne].
      * rewrite decide_True by (apply elem_of_cons; auto). reflexivity.
      * rewrite decide_False; [reflexivity|].
        intros [Heq|Hin]%elem_of_cons; [congruence|contradiction].
Qed.

Lemma record_failures_size (urls : list string) :
  forall (q : ResponseQueue),
    NoDup urls ->
    (forall u, u ∈ urls -> responses q !! u = None) ->
    size (responses (record_failures q urls))
    = (size (responses q) + length urls)%nat.
Proof.
  induction urls as [|a urls IH]; intros q Hnd Hfresh.
  - cbn. lia.
  - cbn [record_failures fold_left].
    fold (record_failures (Queue.add q a responsecode.BAD_REQUEST) urls).
    apply NoDup_cons in Hnd as [Ha Hnd].
    rewrite IH; [|assumption|].
    + cbn [Queue.add responses length].
      rewrite map_size_insert_None by (apply Hfresh; left).
      lia.
    + intros u Hu. cbn [Queue.add responses].
      rewrite lookup_insert_ne by (intros ->; contradiction).
      apply Hfresh. right. assumption.
Qed.

(** When [deleteCalendar] gets past the loop and returns, its response is
    the queue's, after the merge of what the removal of the collection
    returned. *)
Lemma remove_collection_result (E : Env) (self : DeleteResource)
  (delresource deluri parent : string) (errors : ResponseQueue) (wl : World)
  (resp : Response) :
  fst (remove_collection E self delresource deluri parent errors wl) = Ok resp ->
  exists more,
    fileop_delete E deluri delresource (depth self) = Returned more
    /\ resp = Queue.response (merge_MultiStatus errors more).
Proof.
  unfold remove_collection, deleteResource. run_collaborators.
  all: cbn [fst]; intros Hresp; try discriminate Hresp.
  all: injection Hresp as <-; eexists; split; reflexivity.
Qed.

Lemma response_of_failures (q : ResponseQueue) :
  Queue.response q
  = if decide (size (responses q) = 0%nat) then Status (success_response q)
    else MultiStatusResponse (responses q).
Proof.
  unfold Queue.response.
  destruct (decide (size (responses q) = 0%nat)) as [Hz|Hnz].
  - apply map_size_empty_iff in Hz. rewrite bool_decide_eq_true_2; auto.
  - rewrite bool_decide_eq_false_2; [reflexivity|].
    intros Hempty. apply Hnz. apply map_size_empty_iff. assumption.
Qed.

Lemma record_failures_success (q : ResponseQueue) (urls : list string) :
  success_response (record_failures q urls) = success_response q.
Proof.
  revert q. induction urls as [|a urls IH]; intros q; [reflexivity|].
  cbn [record_failures fold_left].
  fold (record_failures (Queue.add q a responsecode.BAD_REQUEST) urls).
  rewrite IH. reflexivity.
Qed.

Lemma deleteCalendar_aggregates (E : Env) (self : DeleteResource)
  (delresource deluri parent : string) (w : World) :
  res_isDefaultCalendar (heap w delresource) = false ->
  depth self = "infinity" ->
  res_isVirtualShare (heap w delresource) = false ->
  NoDup (map (joinURL E deluri) (res_children (heap w delresource))) ->
  let names := res_children (heap w delresource) in
  let outcomes := child_outcomes E self delresource deluri names w in
  let failed := failed_children E self delresource deluri names w in
  map fst outcomes = map (joinURL E deluri) names
  /\ exists errors,
       deleteCalendar_children E self delresource deluri names
         (Queue.new deluri "DELETE" responsecode.NO_CONTENT) w
       = (Ok errors, after_children E self delresource deluri names w)
       /\ size (responses errors) = length failed
       /\ (forall u, responses errors !! u
                     = if decide (u ∈ failed)
                       then Some responsecode.BAD_REQUEST else None)
       /\ forall resp,
            fst (deleteCalendar E self delresource deluri parent w) = Ok resp ->
            exists more,
              fileop_delete E deluri delresource (depth self) = Returned more
              /\ resp = Queue.response (merge_MultiStatus errors more)
              /\ (as_MultiStatusResponse more = None ->
                  resp = if decide (length failed = 0%nat)
                         then Status responsecode.NO_CONTENT
                         else MultiStatusResponse (responses errors)).
Proof.
  intros Hdef Hd Hv Hnd names outcomes failed.
  split; [apply child_outcomes_urls|].
  set (q0 := Queue.new deluri "DELETE" responsecode.NO_CONTENT).
  exists (record_failures q0 failed).
  assert (Hsize : size (responses (record_failures q0 failed)) = length failed).
  { rewrite record_failures_size.
    - cbn. rewrite map_size_empty. reflexivity.
    - eapply sublist_NoDup; [exact Hnd|apply failed_children_sublist].
    - intros u _. cbn. apply lookup_empty. }
  split; [apply deleteCalendar_children_spec|].
  split; [exact Hsize|].
  split.
  { intros u. rewrite record_failures_lookup. cbn.
    rewrite lookup_empty. reflexivity. }
  intros resp Hresp.
  rewrite deleteCalendar_stages in Hresp by assumption.
  fold names q0 in Hresp.
  rewrite deleteCalendar_children_spec in Hresp. fold failed in Hresp.
  destruct (remove_collection_result _ _ _ _ _ _ _ _ Hresp)
    as (more & Hmore & Hq).
  exists more. split; [assumption|]. split; [assumption|].
  intros Hplain. rewrite Hq. unfold merge_MultiStatus. rewrite Hplain.
  rewrite response_of_failures, Hsize, record_failures_success. reflexivity.
Qed.

(** C4, counterexample: the calendar [empty] has no child, so no child
    fails, and the outcome is a multi-status all the same: the removal of
    the collection itself returned one, and its entries are merged in. *)
Lemma multistatus_without_failed_child : ~ child_failures_counted.
Proof.
  intros H.
  pose (partial := MultiStatusResponse (<["/empty/stale.ics" := 403]> ∅)).
  specialize (H (Sample.with_delete (fun _ => false)
                   (fun _ _ _ => Returned partial))
                (Sample.request None "empty" "/empty" "calendars" "infinity"
                   false true)
                "empty" "/empty" "calendars" Sample.world partial
                eq_refl eq_refl eq_refl).
  cbv zeta in H. cbn [decide] in H.
  assert (Hnd : NoDup (map (Sample.join "/empty")
                         (res_children (heap Sample.world "empty")))).
  { cbn. constructor. }
  specialize (H Hnd).
  assert (Hout : fst (deleteCalendar
                        (Sample.with_delete (fun _ => false)
                           (fun _ _ _ => Returned partial))
                        (Sample.request None "empty" "/empty" "calendars"
                           "infinity" false true)
                        "empty" "/empty" "calendars" Sample.world)
                 = Ok partial).
  { vm_compute. reflexivity. }
  specialize (H Hout). vm_compute in H. discriminate H.
Qed.

(** C4, amended: in [deleteCalendar] (past the default-calendar, depth and
    virtual-share tests, with children of distinct URLs) a failure while
    deleting one child never aborts the loop: every child is attempted, in
    listing order, and each failed child is recorded in the queue under its
    URL with [BAD_REQUEST], so that after N children of which K failed the
    queue has exactly K entries.  When the operation then returns, its
    outcome is that queue merged with whatever multi-status the removal of
    the collection itself returned: with a plain status from that removal it
    is a multi-status of exactly the K entries, and success when K is 0. *)
Theorem child_failures_aggregated (E : Env) (self : DeleteResource)
  (delresource deluri parent : string) (w : World) :
  res_isDefaultCalendar (heap w delresource) = false ->
  depth self = "infinity" ->
  res_isVirtualShare (heap w delresource) = false ->
  NoDup (map (joinURL E deluri) (res_children (heap w delresource))) ->
  let names := res_children (heap w delresource) in
  let outcomes := child_outcomes E self delresource deluri names w in
  let failed := failed_children E self delresource deluri names w in
  map fst outcomes = map (joinURL E deluri) names
  /\ exists errors,
       deleteCalendar_children E self delresource deluri names
         (Queue.new deluri "DELETE" responsecode.NO_CONTENT) w
       = (Ok errors, after_children E self delresource deluri names w)
       /\ size (responses errors) = length failed
       /\ (forall u, responses errors !! u
                     = if decide (u ∈ failed)
                       then Some responsecode.BAD_REQUEST else None)
       /\ forall resp,
            fst (deleteCalendar E self delresource deluri parent w) = Ok resp ->
            exists more,
              fileop_delete E deluri delresource (depth self) = Returned more
              /\ resp = Queue.response (merge_MultiStatus errors more)
              /\ (as_MultiStatusResponse more = None ->
                  resp = if decide (length failed = 0%nat)
                         then Status responsecode.NO_CONTENT
                         else MultiStatusResponse (responses errors)).
Proof. apply deleteCalendar_aggregates. Qed.

Lemma child_failures_aggregated_witness :
  let E := Sample.with_delete (fun _ => true)
             (fun uri _ _ =>
                if String.eqb uri "/home/a.ics"
                then Failed (FHTTPError responsecode.FORBIDDEN)
                else Returned (Status responsecode.NO_CONTENT)) in
  let self :=
    Sample.request None "home" "/home" "calendars" "infinity" false true in
  let names := res_children (heap Sample.world "home") in
  let failed := failed_children E self "home" "/home" names Sample.world in
  NoDup (map (joinURL E "/home") names)
  /\ failed = ["/home/a.ics"]
  /\ map fst (child_outcomes E self "home" "/home" names Sample.world)
     = ["/home/a.ics"; "/home/b.ics"]
  /\ exists errors,
       deleteCalendar_children E self "home" "/home" names
         (Queue.new "/home" "DELETE" responsecode.NO_CONTENT) Sample.world
       = (Ok errors, after_children E self "home" "/home" names Sample.world)
       /\ size (responses errors) = 1%nat
       /\ fst (deleteCalendar E self "home" "/home" "calendars" Sample.world)
          = Ok (MultiStatusResponse (responses errors)).
Proof.
  intros E self names failed.
  assert (Hnd : NoDup (map (joinURL E "/home") names)).
  { apply (bool_decide_unpack _). vm_compute. exact I. }
  assert (Hfailed : failed = ["/home/a.ics"]) by (vm_compute; reflexivity).
  split; [exact Hnd|]. split; [exact Hfailed|].
  destruct (child_failures_aggregated E self "home" "/home" "calendars"
              Sample.world eq_refl eq_refl eq_refl Hnd)
    as (Hurls & errors & Hloop & Hsize & _ & Hout).
  split; [exact Hurls|].
  exists errors. split; [exact Hloop|].
  split; [fold names failed in Hsize; rewrite Hsize, Hfailed; reflexivity|].
  assert (Hret : exists resp,
             fst (deleteCalendar E self "home" "/home" "calendars" Sample.world)
             = Ok resp).
  { vm_compute. eexists. reflexivity. }
  destruct Hret as (resp & Hresp).
  destruct (Hout resp Hresp) as (more & Hmore & _ & Hplain).
  rewrite Hresp. f_equal.
  assert (Hm : more = Status responsecode.NO_CONTENT).
  { vm_compute in Hmore. injection Hmore as <-. reflexivity. }
  subst more. specialize (Hplain eq_refl).
  fold names failed in Hplain. rewrite Hfailed in Hplain. exact Hplain.
Defined.

(** * Further properties of the module *)

(** ** Preservation through the monad *)

Section Preservation.
Variable R : World -> World -> Prop.
Hypothesis R_refl : forall w, R w w.
Hypothesis R_trans : forall a b c, R a b -> R b c -> R a c.

Lemma preserves_ret {A} (a : A) : preserves R (ret a).
Proof. intros w. apply R_refl. Qed.

Lemma preserves_raise {A} (e : Exn) : preserves R (@raise A e).
Proof. intros w. apply R_refl. Qed.

Lemma preserves_read {A} (f : Resource -> A) (r : string) :
  preserves R (read f r).
Proof. intros w. apply R_refl. Qed.

Lemma preserves_bind {A B} (m : M A) (k : A -> M B) :
  preserves R m -> (forall a, preserves R (k a)) -> preserves R (bind m k).
Proof.
  intros Hm Hk w. unfold bind. specialize (Hm w).
  destruct (m w) as [[a|e] w1]; cbn [snd] in Hm |- *; [|assumption].
  eapply R_trans; [exact Hm|apply Hk].
Qed.

Lemma preserves_try_except_all {A} (m h : M A) :
  preserves R m -> preserves R h -> preserves R (try_except_all m h).
Proof.
  intros Hm Hh w. unfold try_except_all. specialize (Hm w).
  destruct (m w) as [[a|e] w1]; cbn [snd] in Hm |- *; [assumption|].
  eapply R_trans; [exact Hm|apply Hh].
Qed.

Lemma preserves_try_except_timeout {A} (m h : M A) :
  preserves R m -> preserves R h ->
  preserves R (try_except_MemcacheLockTimeoutError m h).
Proof.
  intros Hm Hh w. unfold try_except_MemcacheLockTimeoutError.
  specialize (Hm w).
  destruct (m w) as [[a|e] w1]; cbn [snd] in Hm |- *; [assumption|].
  destruct (is_MemcacheLockTimeoutError e); cbn [snd]; [|assumption].
  eapply R_trans; [exact Hm|apply Hh].
Qed.

Lemma preserves_try_finally {A} (m : M A) (fin : M unit) :
  preserves R m -> preserves R fin -> preserves R (try_finally m fin).
Proof.
  intros Hm Hf w. unfold try_finally. specialize (Hm w).
  destruct (m w) as [r w1]. cbn [snd] in Hm. specialize (Hf w1).
  destruct (fin w1) as [[u|e] w2]; cbn [snd] in Hf |- *;
    eapply R_trans; eassumption.
Qed.

Lemma preserves_when (b : bool) (m : M unit) :
  preserves R m -> preserves R (when b m).
Proof. intros Hm. destruct b; [exact Hm|apply preserves_ret]. Qed.
End Preservation.

Lemma steady_refl (w : World) : steady w w.
Proof. intros x. reflexivity. Qed.

Lemma steady_trans (a b c : World) : steady a b -> steady b c -> steady a c.
Proof. intros Hab Hbc x. rewrite (Hbc x). apply Hab. Qed.

Lemma steady_alter (r : string) (f : Resource -> Resource) (e : Event)
  (w : World) :
  gentle f -> steady w (emit e (alter_resource r f w)).
Proof.
  intros Hf x. cbn [heap emit alter_resource set_heap]. unfold upd.
  destruct (String.eqb_spec r x) as [->|]; [apply Hf|reflexivity].
Qed.

Lemma steady_emit (e : Event) (w : World) : steady w (emit e w).
Proof. intros x. reflexivity. Qed.

Lemma preserves_call (E : Env) (c : Call) (f : Resource -> Resource)
  (r : string) :
  gentle f -> preserves steady (call E c (alter_resource r f)).
Proof.
  intros Hf w. unfold call. destruct (fails E c); cbn [snd].
  - apply steady_refl.
  - apply steady_alter. apply Hf.
Qed.

Lemma preserves_call_id (E : Env) (c : Call) :
  preserves steady (call E c (fun w => w)).
Proof.
  intros w. unfold call. destruct (fails E c); cbn [snd].
  - apply steady_refl.
  - apply steady_emit.
Qed.

Lemma gentle_quotaUsed (g : Resource -> Z) :
  gentle (fun x => with_quotaUsed (g x) x).
Proof. intros y. reflexivity. Qed.

Lemma gentle_index (g : Resource -> gmap string Z) :
  gentle (fun x => with_index (g x) x).
Proof. intros y. reflexivity. Qed.

Lemma gentle_exists_false : gentle (with_exists false).
Proof. intros y. reflexivity. Qed.

Lemma gentle_isVirtualShare (b : bool) : gentle (with_isVirtualShare b).
Proof. intros y. reflexivity. Qed.

Lemma gentle_isShared (b : bool) : gentle (with_isShared b).
Proof. intros y. reflexivity. Qed.

Lemma steady_quotaSizeAdjust (E : Env) (r : string) (delta : Z) :
  preserves steady (quotaSizeAdjust E r delta).
Proof. apply preserves_call, (gentle_quotaUsed (fun x => res_quotaUsed x + delta)). Qed.

Lemma steady_index_deleteResource (E : Env) (r name : string) (rev : Z) :
  preserves steady (index_deleteResource E r name rev).
Proof. apply preserves_call, (gentle_index (fun x => delete name (res_index x))). Qed.

Lemma steady_removeVirtualShare (E : Env) (r : string) :
  preserves steady (removeVirtualShare E r).
Proof. apply preserves_call, gentle_isVirtualShare. Qed.

Lemma steady_downgradeFromShare (E : Env) (r : string) :
  preserves steady (downgradeFromShare E r).
Proof. apply preserves_call, gentle_isShared. Qed.

Lemma steady_deletedCalendar (E : Env) (r : string) :
  preserves steady (deletedCalendar E r).
Proof. apply preserves_call_id. Qed.

Lemma steady_doImplicitScheduling (E : Env) (s : string) :
  preserves steady (doImplicitScheduling E s).
Proof. apply preserves_call_id. Qed.

Lemma steady_bumpSyncToken (E : Env) (r : string) :
  preserves steady (bumpSyncToken E r).
Proof.
  intros w. unfold bumpSyncToken. destruct (fails E (CBumpSyncToken r)); cbn [snd].
  - apply steady_refl.
  - apply steady_alter. intros y. reflexivity.
Qed.

Lemma steady_fileop_delete (E : Env) (uri fp d : string) :
  preserves steady (fileop.delete E uri fp d).
Proof.
  intros w. unfold fileop.delete. destruct (fileop_delete E uri fp d); cbn [snd].
  - destruct (is_NO_CONTENT r).
    + apply steady_alter, gentle_exists_false.
    + apply steady_emit.
  - apply steady_refl.
Qed.

Lemma steady_iCalendarForUser (E : Env) (r : string) :
  preserves steady (iCalendarForUser E r).
Proof.
  apply (preserves_bind steady steady_trans); [apply preserves_call_id|].
  intros _. apply (preserves_ret steady steady_refl).
Qed.

Lemma steady_testImplicitSchedulingDELETE (E : Env) (r c : string) :
  preserves steady (testImplicitSchedulingDELETE E r c).
Proof.
  apply (preserves_bind steady steady_trans); [apply preserves_call_id|].
  intros _. apply (preserves_ret steady steady_refl).
Qed.

Ltac steady_step :=
  first
    [ apply (preserves_ret steady steady_refl)
    | apply (preserves_raise steady steady_refl)
    | apply (preserves_read steady steady_refl)
    | apply steady_quotaSizeAdjust
    | apply steady_index_deleteResource
    | apply steady_removeVirtualShare
    | apply steady_downgradeFromShare
    | apply steady_deletedCalendar
    | apply steady_doImplicitScheduling
    | apply steady_bumpSyncToken
    | apply steady_fileop_delete
    | apply steady_iCalendarForUser
    | apply steady_testImplicitSchedulingDELETE
    | apply (preserves_when steady steady_refl)
    | apply (preserves_try_except_all steady steady_trans)
    | apply (preserves_try_except_timeout steady steady_trans)
    | apply (preserves_try_finally steady steady_trans)
    | apply (preserves_bind steady steady_trans); [|intros ?]
    | match goal with
      | |- preserves _ (match ?x with _ => _ end) => destruct x
      | |- preserves _ (if ?x then _ else _) => destruct x
      end
    | assumption ].

Lemma steady_deleteResource (E : Env) (self : DeleteResource)
  (delresource deluri parent : string) :
  preserves steady (deleteResource E self delresource deluri parent).
Proof.
  unfold deleteResource, quota, quotaSize, fp_basename,
    isPseudoCalendarCollectionResource.
  repeat steady_step.
Qed.

Lemma steady_delete_and_schedule (E : Env) (self : DeleteResource)
  (delresource deluri parent : string) (myquota : option Z) (old_size : Z)
  (scheduler : option string) :
  preserves steady (delete_and_schedule E self delresource deluri parent
                      myquota old_size scheduler).
Proof.
  unfold delete_and_schedule, fp_basename.
  repeat steady_step.
Qed.

Lemma steady_deleteAddressBookResource (E : Env) (self : DeleteResource)
  (delresource deluri parent : string) :
  preserves steady (deleteAddressBookResource E self delresource deluri parent).
Proof.
  unfold deleteAddressBookResource, quota, quotaSize, fp_basename.
  repeat steady_step.
Qed.

Lemma steady_deleteCalendarResource (E : Env) (self : DeleteResource)
  (delresource deluri parent : string) :
  preserves steady (deleteCalendarResource E self delresource deluri parent).
Proof.
  intros w. rewrite deleteCalendarResource_stages.
  destruct (fst (validIfScheduleMatch E self w)) as [[]|e];
    [|apply steady_refl].
  cbv zeta.
  pose proof (implicit_preparation_effect E self delresource parent w) as Hprep.
  cbv zeta in Hprep.
  destruct (implicit_preparation E self delresource parent w)
    as [[[scheduler lock]|e] w1]; cbn [fst snd] in Hprep |- *;
    destruct Hprep as (Hheap & _ & _ & Hfresh & _).
  2: { intros x. rewrite Hheap. reflexivity. }
  assert (Hfresh' : forall t, lock = Some t -> hasLock w1 t = false).
  { intros t ->. apply (Hfresh scheduler t eq_refl). }
  set (myquota := res_quota (heap w delresource)).
  set (old_size := match myquota with Some _ => _ | None => _ end).
  destruct (locked_section_shape E self delresource deluri parent myquota
              old_size scheduler lock w1 _ Hfresh' eq_refl)
    as [[Hout _]|(w2 & pre & post & Hshape)].
  - rewrite Hout. cbn [snd]. intros x. rewrite Hheap. reflexivity.
  - cbv zeta in Hshape.
    destruct Hshape as (Hheap2 & _ & _ & _ & _ & Hheap3 & _).
    pose proof (steady_delete_and_schedule E self delresource deluri parent
                  myquota old_size scheduler w2) as Hbody.
    intros x. rewrite Hheap3, (Hbody x), Hheap2, Hheap. reflexivity.
Qed.

Ltac steady_more :=
  first
    [ apply steady_deleteCalendarResource
    | apply steady_deleteAddressBookResource
    | apply steady_deleteResource
    | steady_step ].

Lemma steady_deleteCalendar_children (E : Env) (self : DeleteResource)
  (delresource deluri : string) (names : list string) :
  forall errors,
    preserves steady
      (deleteCalendar_children E self delresource deluri names errors).
Proof.
  induction names as [|n rest IH]; intros errors;
    cbn [deleteCalendar_children]; cbv zeta.
  - apply (preserves_ret steady steady_refl).
  - apply (preserves_bind steady steady_trans); [|intros q; apply IH].
    repeat steady_more.
Qed.

Lemma steady_deleteCalendar (E : Env) (self : DeleteResource)
  (delresource deluri parent : string) :
  preserves steady (deleteCalendar E self delresource deluri parent).
Proof.
  unfold deleteCalendar, isDefaultCalendar, isVirtualShare, listChildren,
    isShared.
  cbv zeta.
  repeat first [apply steady_deleteCalendar_children | steady_more].
Qed.

(** ** The precondition in front of the delete *)

Lemma deleteCalendarResource_precondition (E : Env) (self : DeleteResource)
  (delresource deluri parent : string) (w : World) (e : Exn) :
  fst (validIfScheduleMatch E self w) = Raise e ->
  deleteCalendarResource E self delresource deluri parent w = (Raise e, w).
Proof.
  intros H. rewrite deleteCalendarResource_stages, H. reflexivity.
Qed.

(** X2: a client request whose If-Schedule-Tag-Match header differs from
    the schedule tag stored on the request's resource makes
    [deleteCalendarResource] fail with [PRECONDITION_FAILED] before anything
    else: no collaborator is called and the world is handed back as it
    was. *)
Theorem tag_mismatch_deletes_nothing (E : Env) (self : DeleteResource)
  (delresource deluri parent : string) (w : World) (h t : string) :
  internal_request self = false ->
  If_Schedule_Tag_Match self = Some h -> h <> "" ->
  res_exists (heap w (resource self)) = true ->
  res_scheduleTag (heap w (resource self)) = Some t ->
  t <> h ->
  deleteCalendarResource E self delresource deluri parent w
  = (Raise (HTTPError (Code responsecode.PRECONDITION_FAILED)), w).
Proof.
  intros Hint Hh Hne Hex Htag Hdiff.
  apply deleteCalendarResource_precondition.
  rewrite (validIfScheduleMatch_stored_tag E self w h t) by assumption.
  rewrite bool_decide_eq_false_2 by assumption. reflexivity.
Qed.

Lemma tag_mismatch_deletes_nothing_witness :
  deleteCalendarResource (Sample.calm (fun _ => true))
    (Sample.request (Some "tag-2") "home/a.ics" "/home/a.ics" "home" "0"
       false true)
    "home/a.ics" "/home/a.ics" "home" Sample.world
  = (Raise (HTTPError (Code responsecode.PRECONDITION_FAILED)), Sample.world).
Proof.
  apply (tag_mismatch_deletes_nothing (Sample.calm (fun _ => true)) _
           "home/a.ics" "/home/a.ics" "home" Sample.world "tag-2" "tag-1");
    try reflexivity; discriminate.
Defined.

Lemma children_all_fail (E : Env) (self : DeleteResource)
  (delresource deluri : string) (w : World) (e : Exn) :
  fst (validIfScheduleMatch E self w) = Raise e ->
  forall (names : list string) (errors : ResponseQueue),
    deleteCalendar_children E self delresource deluri names errors w
    = (Ok (record_failures errors (map (joinURL E deluri) names)), w).
Proof.
  intros Hpre. induction names as [|n rest IH]; intros errors; [reflexivity|].
  cbn [deleteCalendar_children map record_failures fold_left].
  unfold bind at 1. unfold try_except_all, bind at 1, ret.
  rewrite (deleteCalendarResource_precondition E self _ _ _ w e Hpre).
  rewrite IH. reflexivity.
Qed.

Lemma record_failures_keeps (urls : list string) (q : ResponseQueue)
  (u : string) :
  is_Some (responses q !! u) ->
  is_Some (responses (record_failures q urls) !! u).
Proof.
  intros H. rewrite record_failures_lookup.
  destruct (decide (u ∈ urls)); [eauto|assumption].
Qed.

(** X3: the precondition is evaluated for every child of a calendar against
    the request's own resource.  So when it fails for the request,
    [deleteCalendar] (past its own three tests) deletes no child and records
    every child under its URL, and then goes on to bump the token and
    remove the collection all the same; if it returns and the collection had
    children, the response is a multi-status with an entry for each of
    them. *)
Theorem failed_precondition_fails_every_child (E : Env)
  (self : DeleteResource) (delresource deluri parent : string) (w : World)
  (e : Exn) :
  fst (validIfScheduleMatch E self w) = Raise e ->
  res_isDefaultCalendar (heap w delresource) = false ->
  depth self = "infinity" ->
  res_isVirtualShare (heap w delresource) = false ->
  let names := res_children (heap w delresource) in
  let errors := record_failures
                  (Queue.new deluri "DELETE" responsecode.NO_CONTENT)
                  (map (joinURL E deluri) names) in
  deleteCalendar_children E self delresource deluri names
    (Queue.new deluri "DELETE" responsecode.NO_CONTENT) w = (Ok errors, w)
  /\ deleteCalendar E self delresource deluri parent w
     = remove_collection E self delresource deluri parent errors w
  /\ forall resp,
       fst (deleteCalendar E self delresource deluri parent w) = Ok resp ->
       names <> [] ->
       exists m, resp = MultiStatusResponse m
                 /\ forall n, In n names -> is_Some (m !! joinURL E deluri n).
Proof.
  intros Hpre Hdef Hd Hv names errors.
  assert (Hloop := children_all_fail E self delresource deluri w e Hpre names
                     (Queue.new deluri "DELETE" responsecode.NO_CONTENT)).
  fold errors in Hloop.
  assert (Hcal : deleteCalendar E self delresource deluri parent w
                 = remove_collection E self delresource deluri parent errors w).
  { rewrite deleteCalendar_stages by assumption. fold names.
    rewrite Hloop. reflexivity. }
  split; [exact Hloop|]. split; [exact Hcal|].
  intros resp Hresp Hnames. rewrite Hcal in Hresp.
  destruct (remove_collection_result _ _ _ _ _ _ _ _ Hresp) as (more & _ & ->).
  assert (Hkeys : forall n, In n names ->
            is_Some (responses (merge_MultiStatus errors more)
                       !! joinURL E deluri n)).
  { intros n Hn.
    assert (Herr : is_Some (responses errors !! joinURL E deluri n)).
    { subst errors. rewrite record_failures_lookup.
      rewrite decide_True; [eauto|].
      apply list_elem_of_In, in_map, Hn. }
    unfold merge_MultiStatus.
    destruct (as_MultiStatusResponse more) as [children|]; [|exact Herr].
    cbn [Queue.update responses]. rewrite lookup_union.
    destruct Herr as [v Hv']. rewrite Hv'.
    destruct (children !! joinURL E deluri n); cbn; eauto. }
  exists (responses (merge_MultiStatus errors more)). split; [|exact Hkeys].
  unfold Queue.response. rewrite bool_decide_eq_false_2; [reflexivity|].
  intros Hempty. destruct names as [|n rest]; [contradiction|].
  destruct (Hkeys n (or_introl eq_refl)) as [v Hv'].
  rewrite Hempty, lookup_empty in Hv'. discriminate.
Qed.

Lemma failed_precondition_fails_every_child_witness :
  let E := Sample.calm (fun _ => true) in
  let self := Sample.request (Some "tag-9") "home" "/home" "calendars"
                "infinity" false true in
  fst (validIfScheduleMatch E self Sample.world)
    = Raise (UnboundLocalError "scheduletag")
  /\ fst (deleteCalendar_children E self "home" "/home" ["a.ics"; "b.ics"]
            (Queue.new "/home" "DELETE" responsecode.NO_CONTENT) Sample.world)
     = Ok (record_failures (Queue.new "/home" "DELETE" responsecode.NO_CONTENT)
             ["/home/a.ics"; "/home/b.ics"]).
Proof.
  intros E self. split; [reflexivity|].
  destruct (failed_precondition_fails_every_child E self "home" "/home"
              "calendars" Sample.world (UnboundLocalError "scheduletag")
              eq_refl eq_refl eq_refl eq_refl) as (Hloop & _).
  cbv zeta in Hloop. exact (f_equal fst Hloop).
Defined.

(** ** Scheduling: who gets it and who does not *)

(** X4: on a client request with implicit scheduling allowed, when the
    evaluation says a notification is needed and the parent is a virtual
    share, [deleteCalendarResource] fails with [FORBIDDEN]
    (sharee-privilege-needed) after the two reads of the scheduler and
    before anything else: no lock is taken, nothing is deleted, no resource
    is changed. *)
Theorem sharee_cannot_schedule (E : Env) (self : DeleteResource)
  (delresource deluri parent : string) (w : World) :
  fst (validIfScheduleMatch E self w) = Ok tt ->
  internal_request self = false ->
  allowImplicitSchedule self = true ->
  fails E (CICalendarForUser delresource) = None ->
  fails E (CTestImplicitSchedulingDELETE delresource) = None ->
  do_implicit_action E delresource = true ->
  res_isVirtualShare (heap w parent) = true ->
  let out := deleteCalendarResource E self delresource deluri parent w in
  fst out = Raise Forbidden_sharee
  /\ heap (snd out) = heap w
  /\ held (snd out) = held w
  /\ log (snd out)
     = (log w ++ [Called (CICalendarForUser delresource);
                  Called (CTestImplicitSchedulingDELETE delresource)])%list.
Proof.
  intros Hvalid Hint Hal Hcal Htest Hdo Hvirt out. subst out.
  rewrite deleteCalendarResource_stages, Hvalid. cbv zeta.
  unfold implicit_preparation. rewrite Hint, Hal. cbn [negb andb].
  cbv [iCalendarForUser testImplicitSchedulingDELETE call bind ret
       isVirtualShare read raise].
  rewrite Hcal, Htest. cbn [fst]. rewrite Hdo.
  cbn [heap emit]. rewrite Hvirt. cbn.
  rewrite <- app_assoc. repeat split.
Qed.

Lemma sharee_cannot_schedule_witness :
  let w := mkWorld (upd Sample.resources "home"
                      (with_isVirtualShare true Sample.home))
             ∅ (fun _ => false) [] in
  let out := deleteCalendarResource (Sample.calm (fun _ => true))
               (Sample.request None "home/a.ics" "/home/a.ics" "home" "0"
                  false true)
               "home/a.ics" "/home/a.ics" "home" w in
  fst out = Raise Forbidden_sharee
  /\ heap (snd out) = heap w
  /\ held (snd out) = held w
  /\ log (snd out) = [Called (CICalendarForUser "home/a.ics");
                      Called (CTestImplicitSchedulingDELETE "home/a.ics")].
Proof.
  intros w.
  apply (sharee_cannot_schedule (Sample.calm (fun _ => true)) _
           "home/a.ics" "/home/a.ics" "home" w); reflexivity.
Defined.

Lemma deleteCalendarResource_as_addressbook (E : Env) (self : DeleteResource)
  (delresource deluri parent : string) (w : World) :
  negb (internal_request self) && allowImplicitSchedule self = false ->
  fst (validIfScheduleMatch E self w) = Ok tt ->
  deleteCalendarResource E self delresource deluri parent w
  = deleteAddressBookResource E self delresource deluri parent w.
Proof.
  intros Hflag Hvalid.
  rewrite deleteCalendarResource_stages, Hvalid. cbv zeta.
  unfold implicit_preparation. rewrite Hflag. cbv [ret]. cbn [fst snd].
  unfold locked_section, deleteAddressBookResource, delete_and_schedule,
    acquire_if, clean_if.
  cbv [try_finally try_except_MemcacheLockTimeoutError].
  run_collaborators; reflexivity.
Qed.

(** X5: without a scheduler to consult (an internal request, or implicit
    scheduling not allowed), and once the precondition is passed,
    [deleteCalendarResource] is [deleteAddressBookResource]: the same
    result and the same world, call for call. *)
Theorem calendar_delete_without_scheduling (E : Env) (self : DeleteResource)
  (delresource deluri parent : string) (w : World) :
  negb (internal_request self) && allowImplicitSchedule self = false ->
  fst (validIfScheduleMatch E self w) = Ok tt ->
  deleteCalendarResource E self delresource deluri parent w
  = deleteAddressBookResource E self delresource deluri parent w.
Proof. apply deleteCalendarResource_as_addressbook. Qed.

Lemma calendar_delete_without_scheduling_witness :
  let E := Sample.calm (fun _ => true) in
  let self := Sample.request None "home/a.ics" "/home/a.ics" "home" "0"
                true true in
  deleteCalendarResource E self "home/a.ics" "/home/a.ics" "home" Sample.world
  = deleteAddressBookResource E self "home/a.ics" "/home/a.ics" "home"
      Sample.world.
Proof.
  intros E self.
  apply (calendar_delete_without_scheduling E self); reflexivity.
Defined.

Lemma unscheduled_refl (w : World) : unscheduled w w.
Proof. exists []. split; [symmetry; apply app_nil_r|reflexivity]. Qed.

Lemma unscheduled_trans (a b c : World) :
  unscheduled a b -> unscheduled b c -> unscheduled a c.
Proof.
  intros (evs1 & Hl1 & H1) (evs2 & Hl2 & H2). exists (evs1 ++ evs2)%list.
  split; [rewrite Hl2, Hl1, <- app_assoc; reflexivity|].
  unfold scheduling_free in *. rewrite forallb_app, H1, H2. reflexivity.
Qed.

Lemma unscheduled_emit (e : Event) (w w' : World) :
  is_scheduling_event e = false -> log w' = log w ->
  unscheduled w (emit e w').
Proof.
  intros He Hlog. exists [e]. cbn. rewrite Hlog, He. split; reflexivity.
Qed.

Lemma unscheduled_call (E : Env) (c : Call) (effect : World -> World) :
  is_scheduling_event (Called c) = false ->
  (forall w, log (effect w) = log w) ->
  preserves unscheduled (call E c effect).
Proof.
  intros Hc Heff w. unfold call. destruct (fails E c); cbn [snd].
  - apply unscheduled_refl.
  - apply unscheduled_emit; auto.
Qed.

Lemma unscheduled_quotaSizeAdjust (E : Env) (r : string) (delta : Z) :
  preserves unscheduled (quotaSizeAdjust E r delta).
Proof. apply unscheduled_call; reflexivity. Qed.

Lemma unscheduled_index_deleteResource (E : Env) (r name : string) (rev : Z) :
  preserves unscheduled (index_deleteResource E r name rev).
Proof. apply unscheduled_call; reflexivity. Qed.

Lemma unscheduled_removeVirtualShare (E : Env) (r : string) :
  preserves unscheduled (removeVirtualShare E r).
Proof. apply unscheduled_call; reflexivity. Qed.

Lemma unscheduled_downgradeFromShare (E : Env) (r : string) :
  preserves unscheduled (downgradeFromShare E r).
Proof. apply unscheduled_call; reflexivity. Qed.

Lemma unscheduled_deletedCalendar (E : Env) (r : string) :
  preserves unscheduled (deletedCalendar E r).
Proof. apply unscheduled_call; reflexivity. Qed.

Lemma unscheduled_bumpSyncToken (E : Env) (r : string) :
  preserves unscheduled (bumpSyncToken E r).
Proof.
  intros w. unfold bumpSyncToken. destruct (fails E (CBumpSyncToken r)); cbn [snd].
  - apply unscheduled_refl.
  - apply unscheduled_emit; reflexivity.
Qed.

Lemma unscheduled_fileop_delete (E : Env) (uri fp d : string) :
  preserves unscheduled (fileop.delete E uri fp d).
Proof.
  intros w. unfold fileop.delete. destruct (fileop_delete E uri fp d); cbn [snd].
  - apply unscheduled_emit; [reflexivity|].
    destruct (is_NO_CONTENT r); reflexivity.
  - apply unscheduled_refl.
Qed.

Ltac unscheduled_step :=
  first
    [ apply (preserves_ret unscheduled unscheduled_refl)
    | apply (preserves_raise unscheduled unscheduled_refl)
    | apply (preserves_read unscheduled unscheduled_refl)
    | apply unscheduled_quotaSizeAdjust
    | apply unscheduled_index_deleteResource
    | apply unscheduled_removeVirtualShare
    | apply unscheduled_downgradeFromShare
    | apply unscheduled_deletedCalendar
    | apply unscheduled_bumpSyncToken
    | apply unscheduled_fileop_delete
    | apply (preserves_when unscheduled unscheduled_refl)
    | apply (preserves_try_except_all unscheduled unscheduled_trans)
    | apply (preserves_try_except_timeout unscheduled unscheduled_trans)
    | apply (preserves_try_finally unscheduled unscheduled_trans)
    | apply (preserves_bind unscheduled unscheduled_trans); [|intros ?]
    | match goal with
      | |- preserves _ (match ?x with _ => _ end) => destruct x
      | |- preserves _ (if ?x then _ else _) => destruct x
      end
    | assumption ].

Lemma unscheduled_deleteResource (E : Env) (self : DeleteResource)
  (delresource deluri parent : string) :
  preserves unscheduled (deleteResource E self delresource deluri parent).
Proof.
  unfold deleteResource, quota, quotaSize, fp_basename,
    isPseudoCalendarCollectionResource.
  repeat unscheduled_step.
Qed.

Lemma unscheduled_deleteAddressBookResource (E : Env) (self : DeleteResource)
  (delresource deluri parent : string) :
  preserves unscheduled
    (deleteAddressBookResource E self delresource deluri parent).
Proof.
  unfold deleteAddressBookResource, quota, quotaSize, fp_basename.
  repeat unscheduled_step.
Qed.

Lemma unscheduled_deleteAddressBook_children (E : Env) (self : DeleteResource)
  (delresource deluri : string) (names : list string) :
  forall errors,
    preserves unscheduled
      (deleteAddressBook_children E self delresource deluri names errors).
Proof.
  induction names as [|n rest IH]; intros errors;
    cbn [deleteAddressBook_children]; cbv zeta.
  - apply (preserves_ret unscheduled unscheduled_refl).
  - apply (preserves_bind unscheduled unscheduled_trans); [|intros q; apply IH].
    repeat first [apply unscheduled_deleteAddressBookResource
                 | unscheduled_step].
Qed.

Lemma unscheduled_deleteAddressBook (E : Env) (self : DeleteResource)
  (delresource deluri parent : string) :
  preserves unscheduled (deleteAddressBook E self delresource deluri parent).
Proof.
  unfold deleteAddressBook, isVirtualShare, listChildren, isShared.
  cbv zeta.
  repeat first [ apply unscheduled_deleteAddressBook_children
               | apply unscheduled_deleteResource
               | unscheduled_step ].
Qed.

Lemma unscheduled_applyToCollections (found : list (string * string))
  (apply : string -> string -> ResponseQueue -> M ResponseQueue) :
  (forall r u q, preserves unscheduled (apply r u q)) ->
  forall errors, preserves unscheduled (applyToCollections found apply errors).
Proof.
  intros Happly. induction found as [|[r u] rest IH]; intros errors;
    cbn [applyToCollections].
  - apply (preserves_ret unscheduled unscheduled_refl).
  - apply (preserves_bind unscheduled unscheduled_trans);
      [apply Happly|intros q; apply IH].
Qed.

Lemma unscheduled_deleteCollectionAB (E : Env) (self : DeleteResource) :
  preserves unscheduled (deleteCollectionAB E self).
Proof.
  unfold deleteCollectionAB. cbv zeta.
  destruct (negb (String.eqb (depth self) "infinity"));
    [apply (preserves_raise unscheduled unscheduled_refl)|].
  apply (preserves_bind unscheduled unscheduled_trans).
  - apply unscheduled_applyToCollections. intros r u q.
    apply (preserves_bind unscheduled unscheduled_trans);
      [apply unscheduled_deleteAddressBook|].
    intros resp. apply (preserves_ret unscheduled unscheduled_refl).
  - intros q.
    repeat first [apply unscheduled_deleteResource | unscheduled_step].
Qed.

(** X6: the address-book deletes and the plain delete never consult the
    scheduler and never take a lock, on any path: the events that
    [deleteResource], [deleteAddressBookResource], [deleteAddressBook] (its
    whole loop over the children included) and [deleteCollectionAB] add to
    the log contain no [iCalendarForUser], no
    [testImplicitSchedulingDELETE], no [doImplicitScheduling], no lock
    acquisition and no lock release. *)
Theorem addressbook_deletes_never_schedule (E : Env) (self : DeleteResource)
  (delresource deluri parent : string) (w : World) :
  unscheduled w (snd (deleteResource E self delresource deluri parent w))
  /\ unscheduled w
       (snd (deleteAddressBookResource E self delresource deluri parent w))
  /\ unscheduled w
       (snd (deleteAddressBook E self delresource deluri parent w))
  /\ unscheduled w (snd (deleteCollectionAB E self w)).
Proof.
  split; [apply unscheduled_deleteResource|].
  split; [apply unscheduled_deleteAddressBookResource|].
  split; [apply unscheduled_deleteAddressBook|].
  apply unscheduled_deleteCollectionAB.
Qed.

Lemma unscheduled_deleteCalendarResource (E : Env) (self : DeleteResource)
  (delresource deluri parent : string) :
  negb (internal_request self) && allowImplicitSchedule self = false ->
  preserves unscheduled
    (deleteCalendarResource E self delresource deluri parent).
Proof.
  intros Hflag w.
  destruct (fst (validIfScheduleMatch E self w)) as [[]|e] eqn:Hvalid.
  - rewrite deleteCalendarResource_as_addressbook by assumption.
    apply unscheduled_deleteAddressBookResource.
  - rewrite deleteCalendarResource_stages, Hvalid. apply unscheduled_refl.
Qed.

Lemma unscheduled_deleteCalendar_children (E : Env) (self : DeleteResource)
  (delresource deluri : string) (names : list string) :
  negb (internal_request self) && allowImplicitSchedule self = false ->
  forall errors,
    preserves unscheduled
      (deleteCalendar_children E self delresource deluri names errors).
Proof.
  intros Hflag. induction names as [|n rest IH]; intros errors;
    cbn [deleteCalendar_children]; cbv zeta.
  - apply (preserves_ret unscheduled unscheduled_refl).
  - apply (preserves_bind unscheduled unscheduled_trans); [|intros q; apply IH].
    apply (preserves_try_except_all unscheduled unscheduled_trans).
    + apply (preserves_bind unscheduled unscheduled_trans).
      * apply unscheduled_deleteCalendarResource. assumption.
      * intros _. apply (preserves_ret unscheduled unscheduled_refl).
    + apply (preserves_ret unscheduled unscheduled_refl).
Qed.

Lemma unscheduled_deleteCalendar (E : Env) (self : DeleteResource)
  (delresource deluri parent : string) :
  negb (internal_request self) && allowImplicitSchedule self = false ->
  preserves unscheduled (deleteCalendar E self delresource deluri parent).
Proof.
  intros Hflag.
  unfold deleteCalendar, isDefaultCalendar, isVirtualShare, listChildren,
    isShared.
  cbv zeta.
  repeat first [ apply unscheduled_deleteCalendar_children; assumption
               | apply unscheduled_deleteResource
               | unscheduled_step ].
Qed.

Lemma unscheduled_deleteCollection (E : Env) (self : DeleteResource) :
  negb (internal_request self) && allowImplicitSchedule self = false ->
  preserves unscheduled (deleteCollection E self).
Proof.
  intros Hflag. unfold deleteCollection. cbv zeta.
  destruct (negb (String.eqb (depth self) "infinity"));
    [apply (preserves_raise unscheduled unscheduled_refl)|].
  apply (preserves_bind unscheduled unscheduled_trans).
  - apply unscheduled_applyToCollections. intros r u q.
    apply (preserves_bind unscheduled unscheduled_trans);
      [apply unscheduled_deleteCalendar; assumption|].
    intros resp. apply (preserves_ret unscheduled unscheduled_refl).
  - intros q.
    repeat first [apply unscheduled_deleteResource | unscheduled_step].
Qed.

(** X7: for an internal request, or one that does not allow implicit
    scheduling, no strategy [run] can dispatch to consults the scheduler or
    takes a lock, on any path: the events of [run] contain no scheduler call
    and no lock operation. *)
Theorem internal_request_never_schedules (E : Env) (self : DeleteResource)
  (w : World) :
  negb (internal_request self) && allowImplicitSchedule self = false ->
  unscheduled w (snd (run E self w)).
Proof.
  intros Hflag. revert w. change (preserves unscheduled (run E self)).
  unfold run, isCalendarCollectionResource, isAddressBookCollectionResource,
    isCollection.
  repeat first
    [ apply unscheduled_deleteCalendarResource; assumption
    | apply unscheduled_deleteCalendar; assumption
    | apply unscheduled_deleteCollection; assumption
    | apply unscheduled_deleteAddressBookResource
    | apply unscheduled_deleteAddressBook
    | apply unscheduled_deleteResource
    | unscheduled_step ].
Qed.

Lemma internal_request_never_schedules_witness :
  unscheduled Sample.world
    (snd (run (Sample.calm (fun _ => true))
            (Sample.request None "home" "/home" "calendars" "infinity"
               true true)
            Sample.world)).
Proof.
  apply (internal_request_never_schedules (Sample.calm (fun _ => true))).
  reflexivity.
Defined.

(** ** No action needed, no lock *)

Lemma lockless_refl (w : World) : lockless w w.
Proof. exists []. split; [symmetry; apply app_nil_r|reflexivity]. Qed.

Lemma implicit_preparation_no_action (E : Env) (self : DeleteResource)
  (delresource parent : string) (w : World) :
  do_implicit_action E delresource = false ->
  forall s l,
    fst (implicit_preparation E self delresource parent w) = Ok (s, l) ->
    l = None.
Proof.
  intros Hdo. unfold implicit_preparation.
  cbv [MemcacheLock.new MemcacheLock.set_hasLock]. run_collaborators.
  all: intros s l Hout; try discriminate Hout.
  all: try (injection Hout as <- <-; reflexivity).
  all: congruence.
Qed.

Lemma locked_section_without_lock (E : Env) (self : DeleteResource)
  (delresource deluri parent : string) (myquota : option Z) (old_size : Z)
  (scheduler : option string) (w : World) :
  let body := delete_and_schedule E self delresource deluri parent myquota
                old_size scheduler w in
  locked_section E self delresource deluri parent myquota old_size scheduler
    None w
  = (on_timeout deluri (fst body), snd body).
Proof.
  unfold locked_section, acquire_if, clean_if, try_finally.
  fold (Conflict_in_use deluri). rewrite try_except_timeout_Conflict.
  unfold bind at 1 2. cbv [ret]. reflexivity.
Qed.

Lemma no_action_no_lock (E : Env) (self : DeleteResource)
  (delresource deluri parent : string) (w : World) :
  do_implicit_action E delresource = false ->
  let out := deleteCalendarResource E self delresource deluri parent w in
  lockless w (snd out) /\ held (snd out) = held w.
Proof.
  intros Hdo out. subst out. rewrite deleteCalendarResource_stages.
  destruct (fst (validIfScheduleMatch E self w)) as [[]|e];
    [|split; [apply lockless_refl|reflexivity]].
  cbv zeta.
  pose proof (implicit_preparation_effect E self delresource parent w)
    as Hprep.
  pose proof (implicit_preparation_no_action E self delresource parent w Hdo)
    as Hlock.
  cbv zeta in Hprep.
  destruct (implicit_preparation E self delresource parent w)
    as [[[scheduler lock]|e] w1]; cbn [fst snd] in Hprep, Hlock |- *;
    destruct Hprep as (_ & Hheld & (evs1 & Hlog1 & Hfree1 & _) & _).
  - rewrite (Hlock scheduler lock eq_refl), locked_section_without_lock.
    cbn [snd].
    set (body := delete_and_schedule _ _ _ _ _ _ _ _ _).
    pose proof (delete_and_schedule_locks E self delresource deluri parent
                  (res_quota (heap w delresource))
                  match res_quota (heap w delresource) with
                  | Some _ => res_quotaSize (heap w delresource)
                  | None => 0
                  end scheduler w1)
      as (Hheld2 & _ & evs2 & Hlog2 & Hfree2).
    fold body in Hheld2, Hlog2.
    split; [|congruence].
    exists (evs1 ++ evs2)%list. split.
    + rewrite Hlog2, Hlog1, <- app_assoc. reflexivity.
    + rewrite lock_free_app, Hfree1, Hfree2. reflexivity.
  - split; [exists evs1; auto|assumption].
Qed.

(** X8: when the evaluation of the scheduling trigger reports that no
    action is needed, [deleteCalendarResource] takes no lock at all: its
    events contain no lock operation and the lock table is untouched, on
    every path, also while the lock of the object's UID is held
    elsewhere. *)
Theorem no_scheduling_action_takes_no_lock (E : Env) (self : DeleteResource)
  (delresource deluri parent : string) (w : World) :
  do_implicit_action E delresource = false ->
  let out := deleteCalendarResource E self delresource deluri parent w in
  lockless w (snd out) /\ held (snd out) = held w.
Proof. apply no_action_no_lock. Qed.

Lemma no_scheduling_action_takes_no_lock_witness :
  let busy := mkWorld Sample.resources {[ "ImplicitUIDLock:uid-of-home/a.ics" ]}
                (fun _ => false) [] in
  let out := deleteCalendarResource (Sample.calm (fun _ => false))
               (Sample.request None "home/a.ics" "/home/a.ics" "home" "0"
                  false true)
               "home/a.ics" "/home/a.ics" "home" busy in
  lockless busy (snd out) /\ held (snd out) = held busy.
Proof.
  intros busy.
  apply (no_scheduling_action_takes_no_lock (Sample.calm (fun _ => false))).
  reflexivity.
Defined.

(** With the lock of [a.ics] held elsewhere and no action needed, the
    delete goes through. *)
Example held_lock_is_not_consulted :
  let busy := mkWorld Sample.resources {[ "ImplicitUIDLock:uid-of-home/a.ics" ]}
                (fun _ => false) [] in
  fst (deleteCalendarResource (Sample.calm (fun _ => false))
         (Sample.request None "home/a.ics" "/home/a.ics" "home" "0"
            false true)
         "home/a.ics" "/home/a.ics" "home" busy)
  = Ok (Status responsecode.NO_CONTENT).
Proof. vm_compute. reflexivity. Qed.

(** ** What a successful delete leaves behind *)

Lemma delete_and_schedule_success (E : Env) (self : DeleteResource)
  (delresource deluri parent : string) (myquota : option Z) (old_size : Z)
  (scheduler : option string) (w : World) (r : Response) :
  let body := delete_and_schedule E self delresource deluri parent myquota
                old_size scheduler w in
  fst body = Ok r -> is_NO_CONTENT r = true ->
  res_exists (heap (snd body) delresource) = false
  /\ res_index (heap (snd body) parent) !! res_basename (heap w delresource)
     = None
  /\ exists evs,
       log (snd body) = (log w ++ evs)%list
       /\ In (Called (CIndexDeleteResource parent
                        (res_basename (heap w delresource))
                        (res_syncToken (heap w parent) + 1))) evs.
Proof.
  unfold delete_and_schedule. run_collaborators.
  all: intros Hok Hnc; try discriminate Hok; injection Hok as <-;
    try congruence.
  all: split; [settle_heap|split; [settle_heap|]].
  all: trace_witness.
  all: cbn; unfold upd;
    repeat first
      [ rewrite String.eqb_refl
      | match goal with
        | |- context [String.eqb ?a ?b] =>
            destruct (String.eqb_spec a b); [subst|]
        end ];
    cbn; tauto.
Qed.

Lemma deleteCalendarResource_success (E : Env) (self : DeleteResource)
  (delresource deluri parent : string) (w : World) (r : Response) :
  let out := deleteCalendarResource E self delresource deluri parent w in
  fst out = Ok r -> is_NO_CONTENT r = true ->
  fileop_delete E deluri delresource (depth self) = Returned r
  /\ res_exists (heap (snd out) delresource) = false
  /\ res_index (heap (snd out) parent) !! res_basename (heap w delresource)
     = None
  /\ res_syncToken (heap (snd out) parent) = res_syncToken (heap w parent) + 1
  /\ exists evs,
       log (snd out) = (log w ++ evs)%list
       /\ In (Called (CIndexDeleteResource parent
                        (res_basename (heap w delresource))
                        (res_syncToken (heap w parent) + 1))) evs.
Proof.
  intros out Hok Hnc. subst out.
  pose proof (deleteCalendarResource_synctoken E self delresource deluri
                parent w) as (evs0 & _ & _ & Htoken & Hwhen).
  pose proof (deleteCalendarResource_quota E self delresource deluri parent w)
    as Hquota.
  destruct (deleteCalendarResource_shape E self delresource deluri parent w)
    as [(e & evs & Hfst & _)|(w2 & pre & post & Hshape)].
  { rewrite Hfst in Hok. discriminate. }
  cbv zeta in Hshape.
  destruct Hshape as (Hheap2 & Hlog2 & _ & _ & Hfst & Hheap3 & Hlog3).
  assert (Hout : fst (deleteCalendarResource E self delresource deluri
                        parent w) = Ok r) by exact Hok.
  rewrite Hfst in Hok. apply on_timeout_Ok in Hok.
  destruct (delete_and_schedule_success E self delresource deluri parent _ _ _
              w2 r Hok Hnc) as (Hex & Hidx & evs & Hlog & Hin).
  assert (Hret : fileop_delete E deluri delresource (depth self) = Returned r).
  { revert Hok. unfold delete_and_schedule. run_collaborators.
    all: intros Hok'; try discriminate Hok'; injection Hok' as <-; reflexivity. }
  split; [exact Hret|].
  rewrite Hheap3. rewrite Hheap2 in Hidx, Hin.
  split; [exact Hex|]. split; [exact Hidx|]. split.
  - rewrite <- Hheap3, Htoken.
    rewrite (Hwhen r); [rewrite String.eqb_refl; reflexivity| |assumption|discriminate].
    exact Hout.
  - exists (pre ++ evs ++ post)%list. split.
    + rewrite Hlog3, Hlog, Hlog2, <- !app_assoc. reflexivity.
    + apply in_or_app. right. apply in_or_app. left. exact Hin.
Qed.

(** X9: when [deleteCalendarResource] returns [NO_CONTENT], that is what the
    underlying delete returned, the resource is gone, the parent's index no
    longer lists its name, the parent's sync token is exactly one above
    where it was, and the index was told that new revision. *)
Theorem successful_delete_updates_parent (E : Env) (self : DeleteResource)
  (delresource deluri parent : string) (w : World) (r : Response) :
  let out := deleteCalendarResource E self delresource deluri parent w in
  fst out = Ok r -> is_NO_CONTENT r = true ->
  fileop_delete E deluri delresource (depth self) = Returned r
  /\ res_exists (heap (snd out) delresource) = false
  /\ res_index (heap (snd out) parent) !! res_basename (heap w delresource)
     = None
  /\ res_syncToken (heap (snd out) parent) = res_syncToken (heap w parent) + 1
  /\ exists evs,
       log (snd out) = (log w ++ evs)%list
       /\ In (Called (CIndexDeleteResource parent
                        (res_basename (heap w delresource))
                        (res_syncToken (heap w parent) + 1))) evs.
Proof. apply deleteCalendarResource_success. Qed.

Lemma successful_delete_updates_parent_witness :
  let out := deleteCalendarResource (Sample.calm (fun _ => true))
               (Sample.request None "home/a.ics" "/home/a.ics" "home" "0"
                  false true)
               "home/a.ics" "/home/a.ics" "home" Sample.world in
  res_index (heap Sample.world "home") !! "a.ics" = Some 3
  /\ res_exists (heap (snd out) "home/a.ics") = false
  /\ res_index (heap (snd out) "home") !! "a.ics" = None
  /\ res_syncToken (heap (snd out) "home") = 8.
Proof.
  intros out.
  destruct (successful_delete_updates_parent (Sample.calm (fun _ => true))
              (Sample.request None "home/a.ics" "/home/a.ics" "home" "0"
                 false true)
              "home/a.ics" "/home/a.ics" "home" Sample.world
              (Status responsecode.NO_CONTENT))
    as (_ & Hex & Hidx & Htok & _); [reflexivity|reflexivity|].
  split; [reflexivity|]. split; [exact Hex|]. split; [exact Hidx|exact Htok].
Defined.

(** ** What the collection deletes answer *)

Lemma returns_ret {A} (P : A -> Prop) (a : A) : P a -> returns P (ret a).
Proof. intros H w a' [= <-]. exact H. Qed.

Lemma returns_raise {A} (P : A -> Prop) (e : Exn) : returns P (raise e).
Proof. intros w a H. discriminate H. Qed.

Lemma returns_bind {A B} (P : A -> Prop) (Q : B -> Prop) (m : M A)
  (k : A -> M B) :
  returns P m -> (forall a, P a -> returns Q (k a)) -> returns Q (bind m k).
Proof.
  intros Hm Hk w b. unfold bind. specialize (Hm w).
  destruct (m w) as [[a|e] w1]; cbn [fst] in Hm |- *; [|discriminate].
  apply Hk, Hm. reflexivity.
Qed.

Lemma returns_bind_any {A B} (Q : B -> Prop) (m : M A) (k : A -> M B) :
  (forall a, returns Q (k a)) -> returns Q (bind m k).
Proof.
  intros Hk. apply (returns_bind (fun _ => True)); [intros w a _; exact I|].
  intros a _. apply Hk.
Qed.

Lemma returns_try_except_all {A} (P : A -> Prop) (m h : M A) :
  returns P m -> returns P h -> returns P (try_except_all m h).
Proof.
  intros Hm Hh w a. unfold try_except_all. specialize (Hm w).
  destruct (m w) as [[a'|e] w1]; cbn [fst] in Hm |- *; [apply Hm|apply Hh].
Qed.

Lemma clean_queue_new (uri method : string) :
  clean_queue (Queue.new uri method responsecode.NO_CONTENT).
Proof. reflexivity. Qed.

Lemma clean_queue_add (q : ResponseQueue) (u : string) (c : Z) :
  clean_queue q -> clean_queue (Queue.add q u c).
Proof. intros H. exact H. Qed.

Lemma clean_queue_merge (q : ResponseQueue) (r : Response) :
  clean_queue q -> clean_queue (merge_MultiStatus q r).
Proof.
  intros H. unfold merge_MultiStatus.
  destruct (as_MultiStatusResponse r); exact H.
Qed.

Lemma clean_queue_response (q : ResponseQueue) :
  clean_queue q -> aggregate_response (Queue.response q).
Proof.
  intros H. unfold Queue.response.
  destruct (bool_decide_reflect (responses q = ∅)) as [Hempty|Hne].
  - left. rewrite H. reflexivity.
  - right. eauto.
Qed.

Lemma returns_clean_calendar_children (E : Env) (self : DeleteResource)
  (delresource deluri : string) (names : list string) :
  forall errors,
    clean_queue errors ->
    returns clean_queue
      (deleteCalendar_children E self delresource deluri names errors).
Proof.
  induction names as [|n rest IH]; intros errors Hclean;
    cbn [deleteCalendar_children]; cbv zeta.
  - apply returns_ret. exact Hclean.
  - apply (returns_bind clean_queue); [|intros q Hq; apply IH, Hq].
    apply returns_try_except_all.
    + apply returns_bind_any. intros _. apply returns_ret. exact Hclean.
    + apply returns_ret, clean_queue_add, Hclean.
Qed.

Lemma returns_clean_addressbook_children (E : Env) (self : DeleteResource)
  (delresource deluri : string) (names : list string) :
  forall errors,
    clean_queue errors ->
    returns clean_queue
      (deleteAddressBook_children E self delresource deluri names errors).
Proof.
  induction names as [|n rest IH]; intros errors Hclean;
    cbn [deleteAddressBook_children]; cbv zeta.
  - apply returns_ret. exact Hclean.
  - apply (returns_bind clean_queue); [|intros q Hq; apply IH, Hq].
    apply returns_try_except_all.
    + apply returns_bind_any. intros _. apply returns_ret. exact Hclean.
    + apply returns_ret, clean_queue_add, Hclean.
Qed.

Lemma returns_aggregate_deleteCalendar (E : Env) (self : DeleteResource)
  (delresource deluri parent : string) :
  returns aggregate_response
    (deleteCalendar E self delresource deluri parent).
Proof.
  unfold deleteCalendar. apply returns_bind_any. intros default.
  destruct default; [apply returns_raise|].
  destruct (negb (String.eqb (depth self) "infinity")); [apply returns_raise|].
  apply returns_bind_any. intros isVirtual. destruct isVirtual.
  { apply returns_bind_any. intros _. apply returns_ret. left. reflexivity. }
  cbv zeta. apply returns_bind_any. intros names.
  apply (returns_bind clean_queue).
  { apply returns_clean_calendar_children, clean_queue_new. }
  intros errors Hclean.
  do 3 (apply returns_bind_any; intros ?).
  apply returns_bind_any. intros more.
  apply returns_bind_any. intros _. apply returns_ret.
  apply clean_queue_response, clean_queue_merge, Hclean.
Qed.

Lemma returns_aggregate_deleteAddressBook (E : Env) (self : DeleteResource)
  (delresource deluri parent : string) :
  returns aggregate_response
    (deleteAddressBook E self delresource deluri parent).
Proof.
  unfold deleteAddressBook.
  destruct (negb (String.eqb (depth self) "infinity")); [apply returns_raise|].
  apply returns_bind_any. intros isVirtual. destruct isVirtual.
  { apply returns_bind_any. intros _. apply returns_ret. left. reflexivity. }
  cbv zeta. apply returns_bind_any. intros names.
  apply (returns_bind clean_queue).
  { apply returns_clean_addressbook_children, clean_queue_new. }
  intros errors Hclean.
  do 3 (apply returns_bind_any; intros ?).
  apply returns_bind_any. intros more. apply returns_ret.
  apply clean_queue_response, clean_queue_merge, Hclean.
Qed.

Lemma returns_clean_applyToCollections (found : list (string * string))
  (apply : string -> string -> ResponseQueue -> M ResponseQueue) :
  (forall r u q, clean_queue q -> returns clean_queue (apply r u q)) ->
  forall errors,
    clean_queue errors ->
    returns clean_queue (applyToCollections found apply errors).
Proof.
  intros Happly. induction found as [|[r u] rest IH]; intros errors Hclean;
    cbn [applyToCollections].
  - apply returns_ret, Hclean.
  - apply (returns_bind clean_queue); [apply Happly, Hclean|].
    intros q Hq. apply IH, Hq.
Qed.

Lemma returns_aggregate_deleteCollection (E : Env) (self : DeleteResource) :
  returns aggregate_response (deleteCollection E self).
Proof.
  unfold deleteCollection.
  destruct (negb (String.eqb (depth self) "infinity")); [apply returns_raise|].
  cbv zeta. apply (returns_bind clean_queue).
  { apply returns_clean_applyToCollections; [|apply clean_queue_new].
    intros r u q Hq. apply returns_bind_any. intros resp.
    apply returns_ret, clean_queue_merge, Hq. }
  intros errors Hclean. apply returns_bind_any. intros more.
  apply returns_ret, clean_queue_response, clean_queue_merge, Hclean.
Qed.

Lemma returns_aggregate_deleteCollectionAB (E : Env) (self : DeleteResource) :
  returns aggregate_response (deleteCollectionAB E self).
Proof.
  unfold deleteCollectionAB.
  destruct (negb (String.eqb (depth self) "infinity")); [apply returns_raise|].
  cbv zeta. apply (returns_bind clean_queue).
  { apply returns_clean_applyToCollections; [|apply clean_queue_new].
    intros r u q Hq. apply returns_bind_any. intros resp.
    apply returns_ret, clean_queue_merge, Hq. }
  intros errors Hclean. apply returns_bind_any. intros more.
  apply returns_ret, clean_queue_response, clean_queue_merge, Hclean.
Qed.

(** X10: whenever one of the four collection deletes returns a response, it
    is either [NO_CONTENT] or a multi-status with at least one entry.  A
    plain status returned by the underlying removal of the collection
    itself, whatever its code, never reaches the caller: the response is
    read off the queue. *)
Theorem collection_deletes_answer_from_the_queue (E : Env)
  (self : DeleteResource) (delresource deluri parent : string) (w : World) :
  (forall r, fst (deleteCalendar E self delresource deluri parent w) = Ok r ->
             aggregate_response r)
  /\ (forall r, fst (deleteAddressBook E self delresource deluri parent w) = Ok r ->
                aggregate_response r)
  /\ (forall r, fst (deleteCollection E self w) = Ok r -> aggregate_response r)
  /\ (forall r, fst (deleteCollectionAB E self w) = Ok r ->
                aggregate_response r).
Proof.
  split; [apply returns_aggregate_deleteCalendar|].
  split; [apply returns_aggregate_deleteAddressBook|].
  split; [apply returns_aggregate_deleteCollection
         |apply returns_aggregate_deleteCollectionAB].
Qed.

(** On the sample world: the removal of the calendar [empty] is answered
    with a plain 403, and [deleteCalendar] answers [NO_CONTENT]. *)
Example refused_removal_reported_as_success :
  let E := Sample.with_delete (fun _ => false)
             (fun _ _ _ => Returned (Status responsecode.FORBIDDEN)) in
  let out := deleteCalendar E
               (Sample.request None "empty" "/empty" "calendars" "infinity"
                  false true)
               "empty" "/empty" "calendars" Sample.world in
  fst out = Ok (Status responsecode.NO_CONTENT)
  /\ res_exists (heap (snd out) "empty") = true.
Proof. vm_compute. split; reflexivity. Qed.

(** ** Success of a calendar delete *)

Lemma deleteCalendar_plain_status (E : Env) (self : DeleteResource)
  (delresource deluri parent : string) (w : World) (c : Z) :
  res_isDefaultCalendar (heap w delresource) = false ->
  depth self = "infinity" ->
  res_isVirtualShare (heap w delresource) = false ->
  fst (deleteCalendar E self delresource deluri parent w) = Ok (Status c) ->
  c = responsecode.NO_CONTENT
  /\ failed_children E self delresource deluri
       (res_children (heap w delresource)) w = []
  /\ exists more,
       fileop_delete E deluri delresource (depth self) = Returned more
       /\ forall children, as_MultiStatusResponse more = Some children ->
                           children = ∅.
Proof.
  intros Hdef Hd Hv Hout.
  assert (Hc : c = responsecode.NO_CONTENT).
  { destruct (returns_aggregate_deleteCalendar E self delresource deluri
                parent w _ Hout) as [[= ->]|(m & Hm & _)];
      [reflexivity|discriminate Hm]. }
  split; [exact Hc|].
  rewrite deleteCalendar_stages in Hout by assumption.
  rewrite deleteCalendar_children_spec in Hout.
  destruct (remove_collection_result _ _ _ _ _ _ _ _ Hout) as (more & Hmore & Hq).
  set (failed := failed_children E self delresource deluri
                   (res_children (heap w delresource)) w) in *.
  set (errors := record_failures _ failed) in *.
  assert (Hempty : responses (merge_MultiStatus errors more) = ∅).
  { unfold Queue.response in Hq.
    destruct (bool_decide_reflect
                (responses (merge_MultiStatus errors more) = ∅)) as [He|Hne];
      [exact He|discriminate Hq]. }
  assert (Herrors : responses errors = ∅
                    /\ forall children, as_MultiStatusResponse more = Some children ->
                                        children = ∅).
  { unfold merge_MultiStatus in Hempty.
    destruct (as_MultiStatusResponse more) as [children|].
    - cbn [Queue.update responses] in Hempty.
      assert (Hch : children = ∅) by exact (map_positive_l _ _ Hempty).
      rewrite Hch, (left_id_L ∅ (∪)) in Hempty.
      split; [exact Hempty|]. intros ch [= <-]. exact Hch.
    - split; [exact Hempty|discriminate]. }
  destruct Herrors as [Herr Hmulti]. split.
  - destruct failed as [|u rest] eqn:Hfailed; [reflexivity|].
    assert (Hu : responses errors !! u = Some responsecode.BAD_REQUEST).
    { subst errors. rewrite record_failures_lookup.
      rewrite decide_True; [reflexivity|]. left. }
    rewrite Herr, lookup_empty in Hu. discriminate Hu.
  - exists more. split; [exact Hmore|exact Hmulti].
Qed.

(** X11: [deleteCalendar] (past its three tests) returns a plain status
    only as [NO_CONTENT], and only when the delete of no child raised and
    the removal of the collection reported no multi-status entry: one child
    failure is enough to turn the answer into a multi-status. *)
Theorem calendar_success_means_no_child_failed (E : Env)
  (self : DeleteResource) (delresource deluri parent : string) (w : World)
  (c : Z) :
  res_isDefaultCalendar (heap w delresource) = false ->
  depth self = "infinity" ->
  res_isVirtualShare (heap w delresource) = false ->
  fst (deleteCalendar E self delresource deluri parent w) = Ok (Status c) ->
  c = responsecode.NO_CONTENT
  /\ failed_children E self delresource deluri
       (res_children (heap w delresource)) w = []
  /\ exists more,
       fileop_delete E deluri delresource (depth self) = Returned more
       /\ forall children, as_MultiStatusResponse more = Some children ->
                           children = ∅.
Proof. apply deleteCalendar_plain_status. Qed.

Lemma calendar_success_means_no_child_failed_witness :
  let E := Sample.calm (fun _ => false) in
  let self :=
    Sample.request None "home" "/home" "calendars" "infinity" false true in
  fst (deleteCalendar E self "home" "/home" "calendars" Sample.world)
    = Ok (Status responsecode.NO_CONTENT)
  /\ failed_children E self "home" "/home" ["a.ics"; "b.ics"] Sample.world = [].
Proof.
  intros E self.
  assert (Hout : fst (deleteCalendar E self "home" "/home" "calendars"
                        Sample.world) = Ok (Status responsecode.NO_CONTENT))
    by (vm_compute; reflexivity).
  split; [exact Hout|].
  destruct (calendar_success_means_no_child_failed E self "home" "/home"
              "calendars" Sample.world responsecode.NO_CONTENT
              eq_refl eq_refl eq_refl Hout) as (_ & Hnone & _).
  exact Hnone.
Defined.

(** ** The default calendar inside a collection *)

Lemma steady_default (w w' : World) (r : string) :
  steady w w' ->
  res_isDefaultCalendar (heap w' r) = res_isDefaultCalendar (heap w r).
Proof. intros H. apply H. Qed.

Lemma deleteCalendar_default (E : Env) (self : DeleteResource)
  (delresource deluri parent : string) (w : World) :
  res_isDefaultCalendar (heap w delresource) = true ->
  deleteCalendar E self delresource deluri parent w
  = (Raise Forbidden_default_calendar, w).
Proof.
  intros Hdef. unfold deleteCalendar, isDefaultCalendar, read, bind.
  rewrite Hdef. reflexivity.
Qed.

Lemma applyToCollections_default (E : Env) (self : DeleteResource)
  (found : list (string * string)) (r u : string) :
  In (r, u) found ->
  forall errors w,
    res_isDefaultCalendar (heap w r) = true ->
    exists e,
      fst (applyToCollections found
             (fun delresource deluri errors =>
                response <- deleteCalendar E self delresource deluri
                              (locateParent E delresource deluri) ;;
                ret (merge_MultiStatus errors response))
             errors w) = Raise e.
Proof.
  induction found as [|[r' u'] rest IH]; intros Hin errors w Hdef;
    [destruct Hin|].
  cbn [applyToCollections]. unfold bind at 1.
  destruct Hin as [[= -> ->]|Hin].
  - unfold bind at 1. rewrite deleteCalendar_default by exact Hdef.
    eexists. reflexivity.
  - pose proof (steady_deleteCalendar E self r' u' (locateParent E r' u') w)
      as Hsteady.
    unfold bind at 1.
    destruct (deleteCalendar E self r' u' (locateParent E r' u') w)
      as [[resp|e] w1]; cbn [snd] in Hsteady; [|eexists; reflexivity].
    cbv [ret]. apply (IH Hin).
    rewrite (steady_default _ _ _ Hsteady). exact Hdef.
Qed.

Lemma deleteCollection_default (E : Env) (self : DeleteResource)
  (w : World) (r u : string) :
  In (r, u) (calendarCollections E (resource self) (resource_uri self)) ->
  res_isDefaultCalendar (heap w r) = true ->
  exists e, fst (deleteCollection E self w) = Raise e.
Proof.
  intros Hin Hdef. unfold deleteCollection.
  destruct (negb (String.eqb (depth self) "infinity"));
    [eexists; reflexivity|].
  cbv zeta. unfold bind at 1.
  destruct (applyToCollections_default E self _ r u Hin
              (Queue.new (resource_uri self) "DELETE" responsecode.NO_CONTENT)
              w Hdef) as [e He].
  destruct (applyToCollections _ _ _ w) as [[q|e'] w1]; cbn [fst] in He;
    [discriminate He|].
  eexists. reflexivity.
Qed.

(** X12: a collection that has the default calendar among the calendar
    collections found below it cannot be deleted: [deleteCollection] ends
    in an exception, whatever the calendars found before it did (they
    cannot make the default calendar cease to be the default). *)
Theorem default_calendar_blocks_collection_delete (E : Env)
  (self : DeleteResource) (w : World) (r u : string) :
  In (r, u) (calendarCollections E (resource self) (resource_uri self)) ->
  res_isDefaultCalendar (heap w r) = true ->
  exists e, fst (deleteCollection E self w) = Raise e.
Proof. apply deleteCollection_default. Qed.

Lemma default_calendar_blocks_collection_delete_witness :
  let E := mkEnv false Sample.join Sample.join (fun _ _ => "calendars")
             (fun _ _ _ => Returned (Status responsecode.NO_CONTENT))
             (fun _ => None) (fun _ => false) (fun r => "uid-of-" +:+ r)
             (fun _ _ => [("home", "/calendars/home");
                          ("default", "/calendars/default")])
             (fun _ _ => []) in
  let self := Sample.request None "calendars" "/calendars" "root" "infinity"
                false true in
  exists e, fst (deleteCollection E self Sample.world) = Raise e.
Proof.
  intros E self.
  apply (default_calendar_blocks_collection_delete E self Sample.world
           "default" "/calendars/default").
  - right. left. reflexivity.
  - reflexivity.
Defined.

(** In that world the calendar found first is gone when the request
    fails: the failure does not undo what was deleted before it. *)
Example collection_delete_fails_half_way :
  let E := mkEnv false Sample.join Sample.join (fun _ _ => "calendars")
             (fun _ _ _ => Returned (Status responsecode.NO_CONTENT))
             (fun _ => None) (fun _ => false) (fun r => "uid-of-" +:+ r)
             (fun _ _ => [("home", "/calendars/home");
                          ("default", "/calendars/default")])
             (fun _ _ => []) in
  let self := Sample.request None "calendars" "/calendars" "root" "infinity"
                false true in
  let out := deleteCollection E self Sample.world in
  fst out = Raise Forbidden_default_calendar
  /\ res_exists (heap (snd out) "home") = false
  /\ res_exists (heap (snd out) "default") = true.
Proof. vm_compute. repeat split. Qed.

(** ** The depth of a collection delete, through [run] *)

Lemma run_illegal_depth (E : Env) (self : DeleteResource) (w : World) :
  depth self <> "infinity" ->
  is_calendar_collection (heap w (parent self)) = false ->
  (is_calendar_collection (heap w (resource self)) = true
   /\ res_isDefaultCalendar (heap w (resource self)) = false)
  \/ (is_calendar_collection (heap w (resource self)) = false
      /\ is_addressbook_collection (heap w (parent self)) = false
      /\ is_collection (heap w (resource self)) = true) ->
  run E self w = (Raise (BadRequest_depth (depth self)), w).
Proof.
  intros Hd Hparent Hcases.
  assert (Hneq : negb (String.eqb (depth self) "infinity") = true).
  { destruct (String.eqb_spec (depth self) "infinity"); [contradiction|].
    reflexivity. }
  unfold run, isCalendarCollectionResource, isAddressBookCollectionResource,
    isCollection, read.
  unfold bind at 1. rewrite Hparent.
  destruct Hcases as [[Hcal Hdef]|(Hcal & Hab & Hcoll)].
  - unfold bind at 1. rewrite Hcal.
    unfold deleteCalendar, isDefaultCalendar, read, bind.
    rewrite Hdef, Hneq. reflexivity.
  - unfold bind at 1. rewrite Hcal. unfold bind at 1. rewrite Hab.
    unfold bind at 1.
    destruct (is_addressbook_collection (heap w (resource self))).
    + unfold deleteAddressBook. rewrite Hneq. reflexivity.
    + unfold bind at 1. rewrite Hcoll. unfold deleteCollection.
      rewrite Hneq. reflexivity.
Qed.

(** X13: a DELETE request whose target is a collection (a calendar other
    than the default one, or, outside an address book, an address book or any
    other collection) and whose parent is not a calendar is rejected by [run]
    with [BAD_REQUEST] when its depth is not "infinity", before anything is
    read from a collaborator or written. *)
Theorem run_rejects_illegal_depth (E : Env) (self : DeleteResource)
  (w : World) :
  depth self <> "infinity" ->
  is_calendar_collection (heap w (parent self)) = false ->
  (is_calendar_collection (heap w (resource self)) = true
   /\ res_isDefaultCalendar (heap w (resource self)) = false)
  \/ (is_calendar_collection (heap w (resource self)) = false
      /\ is_addressbook_collection (heap w (parent self)) = false
      /\ is_collection (heap w (resource self)) = true) ->
  run E self w = (Raise (BadRequest_depth (depth self)), w).
Proof. apply run_illegal_depth. Qed.

Lemma run_rejects_illegal_depth_witness :
  run (Sample.calm (fun _ => false))
    (Sample.request None "home" "/home" "calendars" "1" false true)
    Sample.world
  = (Raise (BadRequest_depth "1"), Sample.world).
Proof.
  apply (run_rejects_illegal_depth (Sample.calm (fun _ => false))
           (Sample.request None "home" "/home" "calendars" "1" false true)
           Sample.world).
  - discriminate.
  - reflexivity.
  - left. split; reflexivity.
Defined.

(** ** When the precondition passes *)

Lemma validIfScheduleMatch_passes (E : Env) (self : DeleteResource)
  (w : World) :
  fst (validIfScheduleMatch E self w) = Ok tt
  <-> (internal_request self = true
       \/ truthy (If_Schedule_Tag_Match self) = false
       \/ (res_exists (heap w (resource self)) = true
           /\ res_scheduleTag (heap w (resource self))
              = If_Schedule_Tag_Match self)).
Proof.
  rewrite validIfScheduleMatch_cases. cbn [fst].
  destruct (internal_request self); [split; [left; reflexivity|reflexivity]|].
  destruct (truthy (If_Schedule_Tag_Match self)) eqn:Htruthy; cbn [negb];
    [|split; [right; left; reflexivity|reflexivity]].
  destruct (res_exists (heap w (resource self))); cbn [negb].
  2: { split; [discriminate|]. intros [H|[H|[H _]]]; discriminate H. }
  destruct (res_scheduleTag (heap w (resource self))) as [t|] eqn:Htag.
  - destruct (bool_decide_reflect (Some t = If_Schedule_Tag_Match self))
      as [Heq|Hne].
    + split; [|reflexivity]. intros _. right. right. split; [reflexivity|exact Heq].
    + split; [discriminate|].
      intros [H|[H|[_ H]]]; [discriminate H|discriminate H|contradiction].
  - split; [discriminate|].
    intros [H|[H|[_ H]]]; [discriminate H|discriminate H|].
    rewrite <- H in Htruthy. discriminate Htruthy.
Qed.

(** X14: [validIfScheduleMatch] lets the delete go on exactly when the
    request is internal, or carries no (or an empty) If-Schedule-Tag-Match
    header, or the resource exists and stores the very tag of the header;
    the ScheduleTagCompatibility setting plays no part; and in no case does
    the check change anything. *)
Theorem precondition_passes_exactly_when (E : Env) (self : DeleteResource)
  (w : World) :
  (fst (validIfScheduleMatch E self w) = Ok tt
   <-> (internal_request self = true
        \/ truthy (If_Schedule_Tag_Match self) = false
        \/ (res_exists (heap w (resource self)) = true
            /\ res_scheduleTag (heap w (resource self))
               = If_Schedule_Tag_Match self)))
  /\ snd (validIfScheduleMatch E self w) = w.
Proof.
  split; [apply validIfScheduleMatch_passes|apply validIfScheduleMatch_pure].
Qed.

(** ** A removal that fails *)

Lemma delete_and_schedule_failed (E : Env) (self : DeleteResource)
  (delresource deluri parent : string) (myquota : option Z) (old_size : Z)
  (scheduler : option string) (w : World) (f : Failure) :
  fileop_delete E deluri delresource (depth self) = Failed f ->
  delete_and_schedule E self delresource deluri parent myquota old_size
    scheduler w
  = (Raise (CollaboratorError f), w).
Proof.
  intros Hfail. unfold delete_and_schedule, fileop.delete, bind.
  rewrite Hfail. reflexivity.
Qed.

Lemma deleteResource_failed (E : Env) (self : DeleteResource)
  (delresource deluri parent : string) (w : World) (f : Failure) :
  fileop_delete E deluri delresource (depth self) = Failed f ->
  deleteResource E self delresource deluri parent w
  = (Raise (CollaboratorError f), w).
Proof.
  intros Hfail.
  unfold deleteResource, quota, quotaSize, read, fileop.delete, bind, ret.
  rewrite Hfail.
  destruct (res_quota (heap w delresource)); reflexivity.
Qed.

Lemma deleteAddressBookResource_failed (E : Env) (self : DeleteResource)
  (delresource deluri parent : string) (w : World) (f : Failure) :
  fileop_delete E deluri delresource (depth self) = Failed f ->
  deleteAddressBookResource E self delresource deluri parent w
  = (Raise match f with
           | FMemcacheLockTimeoutError => Conflict_in_use deluri
           | _ => CollaboratorError f
           end, w).
Proof.
  intros Hfail.
  unfold deleteAddressBookResource, try_except_MemcacheLockTimeoutError,
    quota, quotaSize, read, fileop.delete, bind, ret.
  rewrite Hfail.
  destruct (res_quota (heap w delresource)); destruct f; reflexivity.
Qed.

Lemma deleteCalendarResource_failed (E : Env) (self : DeleteResource)
  (delresource deluri parent : string) (w : World) (f : Failure) :
  fileop_delete E deluri delresource (depth self) = Failed f ->
  let out := deleteCalendarResource E self delresource deluri parent w in
  (exists e, fst out = Raise e)
  /\ heap (snd out) = heap w
  /\ exists evs, log (snd out) = (log w ++ evs)%list /\ silent evs = true.
Proof.
  intros Hfail out. subst out.
  destruct (deleteCalendarResource_shape E self delresource deluri parent w)
    as [(e & evs & Hres & Hheap & Hlog & Hsil)
       |(w2 & pre & post & Hshape)].
  - split; [exists e; exact Hres|]. split; [exact Hheap|].
    exists evs. split; assumption.
  - cbv zeta in Hshape.
    rewrite (delete_and_schedule_failed _ _ _ _ _ _ _ _ _ _ Hfail) in Hshape.
    cbn [fst snd] in Hshape.
    destruct Hshape as (Hheap2 & Hlog2 & Hpre & Hpost & Hres & Hheap & Hlog).
    split.
    { destruct (on_timeout_Raise deluri (Raise (CollaboratorError f)) _
                  eq_refl) as [e' He'].
      exists e'. rewrite Hres. exact He'. }
    split; [congruence|].
    exists (pre ++ post)%list. split.
    + rewrite Hlog, Hlog2, <- app_assoc. reflexivity.
    + unfold silent in *. rewrite forallb_app, Hpre, Hpost. reflexivity.
Qed.

(** X15: when the underlying removal of the resource fails, the three
    resource deletes end in an exception and change no resource: no quota
    is adjusted, no sync token advanced, no index entry dropped.
    [deleteResource] propagates the failure from an untouched world;
    [deleteAddressBookResource] does the same, except that it answers a
    [MemcacheLockTimeoutError] of the removal with [CONFLICT];
    [deleteCalendarResource] adds to the log nothing but reads of the
    scheduler and the taking and release of its lock. *)
Theorem failed_removal_changes_no_resource (E : Env) (self : DeleteResource)
  (delresource deluri parent : string) (w : World) (f : Failure) :
  fileop_delete E deluri delresource (depth self) = Failed f ->
  deleteResource E self delresource deluri parent w
    = (Raise (CollaboratorError f), w)
  /\ deleteAddressBookResource E self delresource deluri parent w
    = (Raise match f with
             | FMemcacheLockTimeoutError => Conflict_in_use deluri
             | _ => CollaboratorError f
             end, w)
  /\ (exists e, fst (deleteCalendarResource E self delresource deluri parent w)
                = Raise e)
  /\ heap (snd (deleteCalendarResource E self delresource deluri parent w))
     = heap w
  /\ exists evs,
       log (snd (deleteCalendarResource E self delresource deluri parent w))
       = (log w ++ evs)%list
       /\ silent evs = true.
Proof.
  intros Hfail.
  split; [apply deleteResource_failed, Hfail|].
  split; [apply deleteAddressBookResource_failed, Hfail|].
  apply (deleteCalendarResource_failed E self delresource deluri parent w f Hfail).
Qed.

Lemma failed_removal_changes_no_resource_witness :
  let E := Sample.with_delete (fun _ => true)
             (fun _ _ _ => Failed (FOther "disk")) in
  let self := Sample.request None "home/a.ics" "/home/a.ics" "home" "0"
                false true in
  let out := deleteCalendarResource E self "home/a.ics" "/home/a.ics" "home"
               Sample.world in
  fst out = Raise (CollaboratorError (FOther "disk"))
  /\ heap (snd out) = heap Sample.world.
Proof.
  intros E self out.
  split; [vm_compute; reflexivity|].
  destruct (failed_removal_changes_no_resource E self "home/a.ics"
              "/home/a.ics" "home" Sample.world (FOther "disk") eq_refl)
    as (_ & _ & _ & Hheap & _).
  exact Hheap.
Defined.
